(** * Zalando price monitor: the price-extraction pipeline of
    [src/price_monitor.py]

    A shallow embedding of [ZalandoPriceBot._handle_retry] and
    [ZalandoPriceBot.get_price] together with the properties that the
    specification states about them.

    Conventions of the embedding:
    - a Python [str] is the list of its Unicode code points ([text]);
      [str.isdigit], [str.isspace] and the digits [float] accepts follow the
      Unicode 14.0 tables of CPython 3.11;
    - a Python [float] is an IEEE 754 binary64 value, written with the
      [spec_float] type of the standard library ([prec = 53], [emax = 1024]);
      [float(s)] and [/] round to nearest, ties to even;
    - the dictionary [self.retry_count] is a finite map from URLs to counters;
    - [requests], [BeautifulSoup] and [str.lower] belong to the run-time
      environment: their answers are fields of an [env] record, the calls
      themselves are recorded in the bot state. *)

From Stdlib Require Import ZArith NArith List Bool String Ascii Lia.
From Stdlib Require Import SpecFloat Decimal DecimalPos DecimalN.
From Stdlib Require Import DecimalNat DecimalZ DecimalString.
From stdpp Require Import gmap strings.

Import ListNotations.

Set Default Proof Using "Type".

(** ** Python strings *)

Definition char := N.
Definition text := list char.

(** The code points of an ASCII literal of the source. *)
Definition py (s : string) : text :=
  List.map N_of_ascii (list_ascii_of_string s).

Definition dot : char := 46%N.
Definition comma : char := 44%N.
Definition euro : char := 8364%N.

Module Unicode.

Definition in_range (c : char) (r : N * N) : bool :=
  ((fst r <=? c) && (c <=? snd r))%N.

(** Code points of general category Nd; every block of ten starts at the
    digit zero. *)
Definition decimal_ranges : list (N * N) :=
  [(48, 57); (1632, 1641); (1776, 1785); (1984, 1993); (2406, 2415);
   (2534, 2543); (2662, 2671); (2790, 2799); (2918, 2927); (3046, 3055);
   (3174, 3183); (3302, 3311); (3430, 3439); (3558, 3567); (3664, 3673);
   (3792, 3801); (3872, 3881); (4160, 4169); (4240, 4249); (6112, 6121);
   (6160, 6169); (6470, 6479); (6608, 6617); (6784, 6793); (6800, 6809);
   (6992, 7001); (7088, 7097); (7232, 7241); (7248, 7257); (42528, 42537);
   (43216, 43225); (43264, 43273); (43472, 43481); (43504, 43513);
   (43600, 43609); (44016, 44025); (65296, 65305); (66720, 66729);
   (68912, 68921); (69734, 69743); (69872, 69881); (69942, 69951);
   (70096, 70105); (70384, 70393); (70736, 70745); (70864, 70873);
   (71248, 71257); (71360, 71369); (71472, 71481); (71904, 71913);
   (72016, 72025); (72784, 72793); (73040, 73049); (73120, 73129);
   (92768, 92777); (92864, 92873); (93008, 93017); (120782, 120831);
   (123200, 123209); (123632, 123641); (125264, 125273); (130032, 130041)]%N.

(** Code points whose numeric type is Digit but not Decimal (superscripts,
    circled digits and the like): [isdigit] holds, [float] rejects them. *)
Definition other_digit_ranges : list (N * N) :=
  [(178, 179); (185, 185); (4969, 4977); (6618, 6618); (8304, 8304);
   (8308, 8313); (8320, 8329); (9312, 9320); (9332, 9340); (9352, 9360);
   (9450, 9450); (9461, 9469); (9471, 9471); (10102, 10110); (10112, 10120);
   (10122, 10130); (68160, 68163); (69216, 69224); (69714, 69722);
   (127232, 127242)]%N.

Definition whitespace_ranges : list (N * N) :=
  [(9, 13); (28, 32); (133, 133); (160, 160); (5760, 5760); (8192, 8202);
   (8232, 8233); (8239, 8239); (8287, 8287); (12288, 12288)]%N.

(** The decimal value of a code point, [None] when it has none. *)
Fixpoint lookup_decimal (rs : list (N * N)) (c : char) : option N :=
  match rs with
  | [] => None
  | r :: rs' =>
      if in_range c r then Some (((c - fst r) mod 10)%N)
      else lookup_decimal rs' c
  end.

Definition decimal_value (c : char) : option N :=
  lookup_decimal decimal_ranges c.

Definition isdecimal (c : char) : bool :=
  match decimal_value c with Some _ => true | None => false end.

(** [c.isdigit()] *)
Definition isdigit (c : char) : bool :=
  isdecimal c || List.existsb (in_range c) other_digit_ranges.

(** [c.isspace()] *)
Definition isspace (c : char) : bool :=
  List.existsb (in_range c) whitespace_ranges.

(** The code points of a range, one by one. *)
Definition expand (r : N * N) : list char :=
  List.map (fun i => (fst r + N.of_nat i)%N)
           (List.seq 0 (N.to_nat (snd r + 1 - fst r))).

Definition whitespace : list char := List.flat_map expand whitespace_ranges.

End Unicode.

Module PyStr.

Fixpoint lstrip (t : text) : text :=
  match t with
  | [] => []
  | c :: t' => if Unicode.isspace c then lstrip t' else t
  end.

Definition rstrip (t : text) : text := List.rev (lstrip (List.rev t)).

(** [t.strip()] *)
Definition strip (t : text) : text := rstrip (lstrip t).

(** [t.replace(a, b)] for one-character [a] and [b]. *)
Definition replace (a b : char) (t : text) : text :=
  List.map (fun c => if (c =? a)%N then b else c) t.

(** [t.count(a)] for a one-character [a]. *)
Fixpoint count (a : char) (t : text) : nat :=
  match t with
  | [] => 0
  | c :: t' => if (c =? a)%N then S (count a t') else count a t'
  end.

(** [a in t] for a one-character [a]. *)
Definition contains (a : char) (t : text) : bool :=
  List.existsb (fun c => (c =? a)%N) t.

(** [t.split(sep)] for a one-character separator: never the empty list. *)
Fixpoint split (sep : char) (t : text) : list text :=
  match t with
  | [] => [[]]
  | c :: t' =>
      if (c =? sep)%N then [] :: split sep t'
      else match split sep t' with
           | s :: ss => (c :: s) :: ss
           | [] => [[c]]
           end
  end.

(** [''.join(parts)] *)
Definition join (parts : list text) : text := List.concat parts.

(** [needle in t] *)
Fixpoint starts_with (needle t : text) : bool :=
  match needle, t with
  | [], _ => true
  | _ :: _, [] => false
  | a :: needle', c :: t' => (a =? c)%N && starts_with needle' t'
  end.

Fixpoint substring_in (needle t : text) : bool :=
  starts_with needle t ||
  match t with
  | [] => false
  | _ :: t' => substring_in needle t'
  end.

End PyStr.

(** ** Python floats *)

Module PyFloat.

Definition float := spec_float.

Definition prec : Z := 53.
Definition emax : Z := 1024.

Definition of_N (n : N) : float :=
  match n with
  | N0 => S754_zero false
  | Npos p => S754_finite false p 0
  end.

(** The binary64 nearest to [n / 10^k] (ties to even), the value that
    [float] gives to a decimal numeral with digits [n], [k] of them after
    the point, and that the Python literal of that numeral denotes. *)
Definition of_decimal (n : N) (k : nat) : float :=
  SFdiv prec emax (of_N n) (of_N (10 ^ N.of_nat k)).

Definition div (x y : float) : float := SFdiv prec emax x y.

(** [x > y] *)
Definition gt (x y : float) : bool := SFltb y x.

(** [0 <= x]: not a NaN, and not below zero. *)
Definition nonneg (x : float) : bool := SFleb (S754_zero false) x.

Fixpoint digits_value (acc : N) (t : text) : option N :=
  match t with
  | [] => Some acc
  | c :: t' =>
      match Unicode.decimal_value c with
      | Some d => digits_value (10 * acc + d) t'
      | None => None
      end
  end.

(** [float(t)] on the texts the price clean-up can produce: digits around at
    most one point, with at least one digit, every digit a decimal one.
    [None] stands for the [ValueError] that [float] raises. Signs,
    exponents, white space, underscores, [inf] and [nan] are not part of this
    fragment: the clean-up keeps none of their characters. *)
Definition py_float (t : text) : option float :=
  match PyStr.split dot t with
  | [whole] =>
      match whole with
      | [] => None
      | _ :: _ =>
          match digits_value 0 whole with
          | Some n => Some (of_decimal n 0)
          | None => None
          end
      end
  | [whole; frac] =>
      match whole ++ frac with
      | [] => None
      | _ :: _ =>
          match digits_value 0 (whole ++ frac) with
          | Some n => Some (of_decimal n (List.length frac))
          | None => None
          end
      end
  | _ => None
  end.

End PyFloat.

Module PyFormat.

Definition digit_char (d : N) : char := (48 + d)%N.

Fixpoint uint_text (d : Decimal.uint) : text :=
  match d with
  | Decimal.Nil => []
  | Decimal.D0 d' => digit_char 0 :: uint_text d'
  | Decimal.D1 d' => digit_char 1 :: uint_text d'
  | Decimal.D2 d' => digit_char 2 :: uint_text d'
  | Decimal.D3 d' => digit_char 3 :: uint_text d'
  | Decimal.D4 d' => digit_char 4 :: uint_text d'
  | Decimal.D5 d' => digit_char 5 :: uint_text d'
  | Decimal.D6 d' => digit_char 6 :: uint_text d'
  | Decimal.D7 d' => digit_char 7 :: uint_text d'
  | Decimal.D8 d' => digit_char 8 :: uint_text d'
  | Decimal.D9 d' => digit_char 9 :: uint_text d'
  end.

(** [str(n)] for a natural number. *)
Definition N_text (n : N) : text := uint_text (N.to_uint n).

(** The integer nearest to [m * 2^e * 100], ties to even. *)
Definition hundredths (m : positive) (e : Z) : N :=
  match e with
  | Zneg p =>
      let num := (Npos m * 100)%N in
      let den := (2 ^ Npos p)%N in
      let q := (num / den)%N in
      let r := (num mod den)%N in
      match (2 * r ?= den)%N with
      | Lt => q
      | Gt => (q + 1)%N
      | Eq => if N.even q then q else (q + 1)%N
      end
  | _ => (Npos m * 100 * 2 ^ Z.to_N e)%N
  end.

(** [f"{x:.2f}"]: the decimal with two fractional digits nearest to the
    exact value of [x]. *)
Definition fixed2 (x : PyFloat.float) : text :=
  let sign (s : bool) : text := if s then py "-" else [] in
  match x with
  | S754_nan => py "nan"
  | S754_infinity s => sign s ++ py "inf"
  | S754_zero s => sign s ++ py "0.00"
  | S754_finite s m e =>
      let k := hundredths m e in
      sign s ++ N_text (k / 100) ++ dot ::
        [digit_char ((k / 10) mod 10); digit_char (k mod 10)]
  end.

End PyFormat.

(** ** The module-level function of the source *)

(** [format_price], lines 30-32: [f"€{price:.2f}"]. *)
Definition format_price (price : PyFloat.float) : text :=
  euro :: PyFormat.fixed2 price.

(** ** Exceptions *)

(** The exceptions that the calls made by [get_price] raise. All of them are
    subclasses of [Exception]; interrupts such as [KeyboardInterrupt] are
    not failures of the pipeline and are left out. *)
Inductive exn :=
| RequestException (msg : string)  (* [session.get]: no connection, time-out *)
| HTTPError (status : Z)           (* [response.raise_for_status()] *)
| ValueError (msg : string)
| PlainException (msg : string)    (* [Exception("Max retries reached")] *)
| OSError (msg : string)           (* writing [debug_response.html] *)
| KeyError (key : string)          (* [self.retry_count[url]] on a missing key *)
| ParserError (msg : string).      (* whatever [BeautifulSoup] may raise *)

(** ** Numeric normalisation of the matched text, lines 225-238 *)

(** [c.isdigit() or c in '.,'] *)
Definition keep_char (c : char) : bool :=
  Unicode.isdigit c || PyStr.contains c (py ".,").

(** Lines 225-228: the text before its points are counted. *)
Definition separated (element_text : text) : text :=
  PyStr.replace comma dot (List.filter keep_char (PyStr.strip element_text)).

(** Lines 225-232: the text handed to [float]. *)
Definition clean_price_text (element_text : text) : text :=
  let price_text := PyStr.strip element_text in
  let price_text := List.filter keep_char price_text in
  let price_text := PyStr.replace comma dot price_text in
  if 1 <? PyStr.count dot price_text then
    let parts := PyStr.split dot price_text in
    PyStr.join (List.removelast parts) ++ dot :: List.last parts []
  else price_text.

Definition thousand : PyFloat.float := PyFloat.of_decimal 1000 0.
Definition hundred : PyFloat.float := PyFloat.of_decimal 100 0.

(** Lines 225-238: from the text of the price element to the price. *)
Definition price_of_text (element_text : text) : exn + PyFloat.float :=
  let price_text := clean_price_text element_text in
  match PyFloat.py_float price_text with
  | None => inl (ValueError "could not convert string to float")
  | Some price =>
      if PyFloat.gt price thousand && negb (PyStr.contains dot price_text)
      then inr (PyFloat.div price hundred)
      else inr price
  end.

(** ** The parsed document *)

Module Soup.

(** The value of an attribute: a string, or for [class] and the other
    multi-valued attributes the list of its white-space separated tokens. *)
Inductive attr_value :=
| AttrStr (s : string)
| AttrList (tokens : list string).

#[warnings="-register-all"]
Inductive node :=
| NavigableString (s : text)
| Tag (name : string) (attrs : list (string * attr_value))
      (contents : list node).

(** What [BeautifulSoup(...)] returns: the top-level nodes. *)
Definition soup := list node.

(** A selector of the source: a tag name and the attributes asked for. *)
Definition selector : Type := string * list (string * string).

Fixpoint descendants (n : node) : list node :=
  match n with
  | NavigableString _ => []
  | Tag _ _ contents => List.flat_map (fun c => c :: descendants c) contents
  end.

(** Every node of the document, in document order. *)
Definition nodes (doc : soup) : list node :=
  List.flat_map (fun c => c :: descendants c) doc.

(** [element.text] *)
Fixpoint get_text (n : node) : text :=
  match n with
  | NavigableString s => s
  | Tag _ _ contents => List.concat (List.map get_text contents)
  end.

Fixpoint attr_lookup (attrs : list (string * attr_value)) (key : string)
  : option attr_value :=
  match attrs with
  | [] => None
  | (k, v) :: attrs' => if String.eqb k key then Some v else attr_lookup attrs' key
  end.

Definition value_matches (v : attr_value) (wanted : string) : bool :=
  match v with
  | AttrStr s => String.eqb s wanted
  | AttrList tokens =>
      List.existsb (fun tok => String.eqb tok wanted) tokens
      || String.eqb (String.concat " " tokens) wanted
  end.

Definition attrs_match (attrs : list (string * attr_value))
  (wanted : list (string * string)) : bool :=
  List.forallb
    (fun kv => match attr_lookup attrs (fst kv) with
               | Some v => value_matches v (snd kv)
               | None => false
               end)
    wanted.

Definition matches (sel : selector) (n : node) : bool :=
  match n with
  | NavigableString _ => false
  | Tag name attrs _ => String.eqb name (fst sel) && attrs_match attrs (snd sel)
  end.

(** [soup.find_all(tag, attrs)] *)
Definition find_all (doc : soup) (sel : selector) : list node :=
  List.filter (matches sel) (nodes doc).

(** [soup.find(tag, attrs)] *)
Definition find (doc : soup) (sel : selector) : option node :=
  List.head (find_all doc sel).

Definition named_in (names : list string) (n : node) : bool :=
  match n with
  | NavigableString _ => false
  | Tag name _ _ => List.existsb (String.eqb name) names
  end.

(** [soup.find_all([name1, name2, ...])] *)
Definition find_all_named (doc : soup) (names : list string) : list node :=
  List.filter (named_in names) (nodes doc).

End Soup.

(** ** Locating the name and the price, lines 168-223 of [get_price] *)

Definition name_selectors : list Soup.selector :=
  [("span", [("data-testid", "product-name")]);
   ("h1", [("data-testid", "product-name")]);
   ("span", [("class", "EKabf7")]);
   ("h1", [("class", "OEhtt9")]);
   ("h1", [("class", "FZrqF6")]);
   ("div", [("data-testid", "product-name")])]%string.

Definition price_selectors : list Soup.selector :=
  [("span", [("data-testid", "product-price")]);
   ("span", [("class", "sDq_FX")]);
   ("span", [("class", "VfpFfd")]);
   ("span", [("class", "QPDz2E")]);
   ("p", [("data-testid", "price")])]%string.

(** Lines 178-182: the first selector that finds an element decides. *)
Fixpoint first_found (doc : Soup.soup) (sels : list Soup.selector)
  : option Soup.node :=
  match sels with
  | [] => None
  | sel :: sels' =>
      match Soup.find doc sel with
      | Some e => Some e
      | None => first_found doc sels'
      end
  end.

(** Line 187: [element.text.strip() and len(element.text.strip()) > 10] *)
Definition heading_like (e : Soup.node) : bool :=
  let t := PyStr.strip (Soup.get_text e) in
  match t with
  | [] => false
  | _ :: _ => 10 <? List.length t
  end.

(** Lines 178-189. *)
Definition find_name_element (doc : Soup.soup) : option Soup.node :=
  match first_found doc name_selectors with
  | Some e => Some e
  | None => List.find heading_like (Soup.find_all_named doc ["h1"; "h2"]%string)
  end.

(** Lines 209 and 218:
    ['€' in element.text and any(c.isdigit() for c in element.text)].
    A [Tag] is always true as a condition, so the [element and] of line 209
    changes nothing. *)
Definition price_like (e : Soup.node) : bool :=
  PyStr.contains euro (Soup.get_text e)
  && List.existsb Unicode.isdigit (Soup.get_text e).

(** Lines 205-213: selectors in order, the matches of each in document
    order. *)
Fixpoint first_price_like (doc : Soup.soup) (sels : list Soup.selector)
  : option Soup.node :=
  match sels with
  | [] => None
  | sel :: sels' =>
      match List.find price_like (Soup.find_all doc sel) with
      | Some e => Some e
      | None => first_price_like doc sels'
      end
  end.

(** Lines 205-220. *)
Definition find_price_element (doc : Soup.soup) : option Soup.node :=
  match first_price_like doc price_selectors with
  | Some e => Some e
  | None =>
      List.find price_like (Soup.find_all_named doc ["span"; "p"; "div"]%string)
  end.

(** Lines 168-238: from the parsed page to the price and the name. *)
Definition extract (doc : Soup.soup) : exn + (PyFloat.float * text) :=
  match find_name_element doc with
  | None => inl (ValueError "Product name not found")
  | Some name_element =>
      let product_name := PyStr.strip (Soup.get_text name_element) in
      match find_price_element doc with
      | None => inl (ValueError "Price element not found")
      | Some price_element =>
          match price_of_text (Soup.get_text price_element) with
          | inl e => inl e
          | inr price => inr (price, product_name)
          end
      end
  end.

(** ** The bot and its environment *)

(** [requests.Response]: what the pipeline reads of it. *)
Record response := mkResponse {
  status_code : Z;
  body : text          (* [response.text] *)
}.

Inductive get_result :=
| Responds (r : response)
| Fails (e : exn).

(** What lies outside the program. The random choice of headers is not
    represented: the answer to a request is looked up by its rank among the
    requests of the process, which covers any dependency on them. *)
Record env := mkEnv {
  http_get : nat -> string -> get_result;  (* [self.session.get(url, ...)] *)
  str_lower : text -> text;                (* [str.lower] *)
  html_parser : text -> exn + Soup.soup;   (* [BeautifulSoup(_, 'html.parser')] *)
  debug_mode : bool;                       (* [DEBUG_MODE] *)
  debug_write : text -> option exn;        (* writing [debug_response.html] *)
  MIN_DELAY : Z;
  MAX_DELAY : Z
}.

(** One call of [time.sleep]. *)
Inductive sleep :=
| Backoff (seconds : Z)            (* [time.sleep(delay)], line 115 *)
| Jitter (low high : Z).           (* [time.sleep(random.uniform(low, high))] *)

(** The state of a [ZalandoPriceBot] that the pipeline touches, with the
    requests sent and the sleeps taken so far, oldest first. *)
Record bot := mkBot {
  retry_count : gmap string nat;
  requests : list string;
  sleeps : list sleep
}.

(** [ZalandoPriceBot.__init__]: [self.retry_count = {}]. *)
Definition init : bot := mkBot ∅ [] [].

(** *** Statements: state, exceptions, and a bound on the recursion *)

Inductive outcome (A : Type) :=
| Returns (a : A)
| Raises (e : exn)
| Diverges.            (* the recursion budget of the model ran out *)

Arguments Returns {A} a.
Arguments Raises {A} e.
Arguments Diverges {A}.

Definition M (A : Type) : Type := bot -> outcome A * bot.

Definition ret {A} (a : A) : M A := fun st => (Returns a, st).

Definition bind {A B} (m : M A) (k : A -> M B) : M B :=
  fun st =>
    match m st with
    | (Returns a, st') => k a st'
    | (Raises e, st') => (Raises e, st')
    | (Diverges, st') => (Diverges, st')
    end.

Definition raise {A} (e : exn) : M A := fun st => (Raises e, st).

(** [try: body  except Exception as e: handler e] *)
Definition try_except {A} (body : M A) (handler : exn -> M A) : M A :=
  fun st =>
    match body st with
    | (Raises e, st') => handler e st'
    | r => r
    end.

Declare Scope py_scope.
Delimit Scope py_scope with py.
Notation "x <- m ;; k" := (bind m (fun x => k))
  (at level 100, m at next level, right associativity) : py_scope.
Notation "m ;; k" := (bind m (fun _ => k))
  (at level 100, right associativity) : py_scope.
Open Scope py_scope.

Definition of_sum {A} (r : exn + A) : M A :=
  match r with
  | inl e => raise e
  | inr a => ret a
  end.

(** [time.sleep] *)
Definition time_sleep (s : sleep) : M unit :=
  fun st => (Returns tt, mkBot (retry_count st) (requests st) (sleeps st ++ [s])).

(** [url in self.retry_count] *)
Definition has_count (url : string) : M bool :=
  fun st => (Returns (bool_decide (is_Some (retry_count st !! url))), st).

(** [self.retry_count[url]] *)
Definition read_count (url : string) : M nat :=
  fun st =>
    match retry_count st !! url with
    | Some c => (Returns c, st)
    | None => (Raises (KeyError url), st)
    end.

(** [self.retry_count[url] = c] *)
Definition write_count (url : string) (c : nat) : M unit :=
  fun st => (Returns tt, mkBot (<[url := c]> (retry_count st)) (requests st) (sleeps st)).

(** [ZalandoPriceBot._handle_retry], lines 108-120. *)
Definition _handle_retry (url : string) : M bool :=
  known <- has_count url ;;
  (if negb known then write_count url 0 else ret tt) ;;
  c <- read_count url ;;
  write_count url (c + 1) ;;
  c <- read_count url ;;
  let delay := Z.min 300 (30 * 2 ^ (Z.of_nat c - 1)) in
  time_sleep (Backoff delay) ;;
  c <- read_count url ;;
  if 3 <=? c then
    write_count url 0 ;;
    ret false
  else ret true.

Definition homepage : string := "https://www.zalando.nl/".

Section GetPrice.

Variable E : env.

(** [self.session.get(url, ...)]: the request is sent, then answered or
    failed by the environment. *)
Definition session_get (url : string) : M response :=
  fun st =>
    let st' := mkBot (retry_count st) (requests st ++ [url]) (sleeps st) in
    match http_get E (List.length (requests st)) url with
    | Responds r => (Returns r, st')
    | Fails e => (Raises e, st')
    end.

(** [response.raise_for_status()] *)
Definition raise_for_status (r : response) : M unit :=
  if ((400 <=? status_code r) && (status_code r <? 600))%Z
  then raise (HTTPError (status_code r))
  else ret tt.

(** Line 159: ['captcha' in response.text.lower()] *)
Definition captcha_detected (r : response) : bool :=
  PyStr.substring_in (py "captcha") (str_lower E (body r)).

(** Lines 164-166. *)
Definition debug_dump (r : response) : M unit :=
  if debug_mode E then
    match debug_write E (body r) with
    | Some e => raise e
    | None => ret tt
    end
  else ret tt.

(** The [try] block of [get_price], lines 124-244; [self_get_price] is the
    method itself, for the call of line 153. *)
Definition get_price_try
  (self_get_price : string -> M (option (PyFloat.float * text)))
  (url : string) : M (option (PyFloat.float * text)) :=
  try_except
    (session_get homepage ;;
     time_sleep (Jitter 2 4))
    (fun _ => ret tt) ;;
  time_sleep (Jitter (MIN_DELAY E) (MAX_DELAY E)) ;;
  response <- session_get url ;;
  if (status_code response =? 403)%Z then
    retry <- _handle_retry url ;;
    if retry then self_get_price url
    else raise (PlainException "Max retries reached")
  else
    raise_for_status response ;;
    if captcha_detected response then raise (ValueError "Captcha detected")
    else
      soup <- of_sum (html_parser E (body response)) ;;
      debug_dump response ;;
      found <- of_sum (extract soup) ;;
      write_count url 0 ;;
      ret (Some found).

(** [ZalandoPriceBot.get_price], lines 122-249. [None] is the [(None, None)]
    of line 249. The budget bounds the depth of the calls of line 153. *)
Fixpoint get_price_within (budget : nat) (url : string)
  : M (option (PyFloat.float * text)) :=
  match budget with
  | O => fun st => (Diverges, st)
  | S budget' =>
      try_except
        (get_price_try (get_price_within budget') url)
        (fun _ => ret None)
  end.

(** Three nested calls are the most that one call can make
    (see [get_price_budget]). *)
Definition get_price (url : string) : M (option (PyFloat.float * text)) :=
  get_price_within 3 url.

End GetPrice.

(** ** The words of the specification *)

(** Numeric normalisation as section 4.4 of the specification words it, step
    by step; [price_of_text] above is the code. *)
Module Spec.

(** (1) strip every character that is not a digit, [.] or [,] *)
Definition strip_other (raw : text) : text :=
  List.filter
    (fun c => Unicode.isdigit c || (c =? dot)%N || (c =? comma)%N) raw.

(** (2) replace [,] with [.] *)
Definition commas_to_points (t : text) : text :=
  List.map (fun c => if (c =? comma)%N then dot else c) t.

Definition points (t : text) : nat :=
  List.length (List.filter (fun c => (c =? dot)%N) t).

(** (3) if more than one [.] remains, concatenate all segments except the
    last without separators, then append [.] and the last segment *)
Definition collapse (t : text) : text :=
  if 1 <? points t then
    let segments := PyStr.split dot t in
    List.concat (List.removelast segments) ++ [dot] ++ List.last segments []
  else t.

(** (4) parse as a decimal number *)
Definition parse (t : text) : option PyFloat.float := PyFloat.py_float t.

(** (5) if the result exceeds 1000 and the cleaned text contained no [.] at
    all, divide by 100 *)
Definition minor_units (cleaned : text) (v : PyFloat.float) : PyFloat.float :=
  if PyFloat.gt v thousand && (points cleaned =? 0)
  then PyFloat.div v hundred
  else v.

Definition normalize (raw : text) : option PyFloat.float :=
  let cleaned := commas_to_points (strip_other raw) in
  match parse (collapse cleaned) with
  | Some v => Some (minor_units cleaned v)
  | None => None
  end.

End Spec.

(** ** Predicates of the statements *)

#[global] Instance spec_float_eq_dec : EqDecision spec_float.
Proof. solve_decision. Defined.

(** A float has at most two fractional digits when writing it with two
    fractional digits, as [format_price] does, loses nothing: reading the
    digits back gives the same float. *)
Definition two_fraction_digits (x : PyFloat.float) : bool :=
  bool_decide (PyFloat.py_float (PyFormat.fixed2 x) = Some x).

(** Zero, a positive number or plus infinity: no NaN, sign bit clear. *)
Definition unsigned_float (x : PyFloat.float) : Prop :=
  match x with
  | S754_zero false | S754_infinity false | S754_finite false _ _ => True
  | _ => False
  end.

(** The number of characters after the point of a cleaned text. *)
Definition fraction_length (s : text) : nat :=
  match PyStr.split dot s with
  | [_; frac] => List.length frac
  | _ => 0
  end.

(** The texts the clean-up leaves alone: digits and at most one point. *)
Definition normalized_text (s : text) : Prop :=
  Forall (fun c => Unicode.isdigit c = true \/ c = dot) s
  /\ PyStr.count dot s <= 1.

(** A decimal numeral: decimal digits around exactly one point, at least
    one digit. *)
Definition decimal_numeral (s : text) : Prop :=
  Forall (fun c => Unicode.isdecimal c = true \/ c = dot) s
  /\ PyStr.count dot s = 1
  /\ List.existsb Unicode.isdecimal s = true.

(** The stored counter of a URL, 0 when there is none. *)
Definition counter (st : bot) (url : string) : nat :=
  default 0 (retry_count st !! url).

(** [min(300, 30 * 2 ** (c - 1))] *)
Definition backoff_delay (c : nat) : Z :=
  Z.min 300 (30 * 2 ^ (Z.of_nat c - 1)).

(** The states a bot goes through: created by [__init__], then any calls of
    [_handle_retry] and [get_price], one after the other. *)
Inductive reachable (E : env) : bot -> Prop :=
| reach_init : reachable E init
| reach_handle_retry st url :
    reachable E st -> reachable E (snd (_handle_retry url st))
| reach_get_price st url :
    reachable E st -> reachable E (snd (get_price E url st)).

Definition semantic_price_selectors : list Soup.selector :=
  [("span", [("data-testid", "product-price")]);
   ("p", [("data-testid", "price")])]%string.

Definition legacy_price_selectors : list Soup.selector :=
  [("span", [("class", "sDq_FX")]);
   ("span", [("class", "VfpFfd")]);
   ("span", [("class", "QPDz2E")])]%string.

(** The requests of one attempt, and its sleeps before the answer to the
    second request is looked at. *)
Definition warm_up_sleeps (E : env) (st : bot) : list sleep :=
  match http_get E (List.length (requests st)) homepage with
  | Responds _ => [Jitter 2 4]
  | Fails _ => []
  end.

Definition attempted (E : env) (url : string) (st : bot) : bot :=
  mkBot (retry_count st)
        (requests st ++ [homepage; url])
        (sleeps st ++ warm_up_sleeps E st ++ [Jitter (MIN_DELAY E) (MAX_DELAY E)]).

(** The [try] block of [get_price] in two parts: lines 157-244, what is done
    with an answer that is not a 403, and lines 151-244, what is done with
    any answer. *)
Definition read_page (E : env) (url : string) (response : response)
  : M (option (PyFloat.float * text)) :=
  raise_for_status response ;;
  if captcha_detected E response then raise (ValueError "Captcha detected")
  else
    soup <- of_sum (html_parser E (body response)) ;;
    debug_dump E response ;;
    found <- of_sum (extract soup) ;;
    write_count url 0 ;;
    ret (Some found).

Definition after_fetch (E : env)
  (self_get_price : string -> M (option (PyFloat.float * text)))
  (url : string) (response : response) : M (option (PyFloat.float * text)) :=
  if (status_code response =? 403)%Z then
    retry <- _handle_retry url ;;
    if retry then self_get_price url
    else raise (PlainException "Max retries reached")
  else read_page E url response.

(** The nested calls of [get_price] that one call can still make, itself
    included, given the stored counter of the URL. *)
Definition calls_needed (st : bot) (url : string) : nat :=
  3 - Nat.min 2 (counter st url).

(** The requests of [k] attempts for a URL: the home page, then the page. *)
Definition attempts (k : nat) (url : string) : list string :=
  List.concat (List.repeat [homepage; url] k).

(** The environment answers every request for the URL with a 403. *)
Definition blocked (E : env) (url : string) : Prop :=
  forall n, exists text, http_get E n url = Responds (mkResponse 403 text).

(** The delays that [_handle_retry] can sleep while the counter stays
    within its bounds. *)
Definition usual_backoff (d : Z) : Prop := d = 30%Z \/ d = 60%Z \/ d = 120%Z.

Definition sleeps_usual (l : list sleep) : Prop :=
  forall d, In (Backoff d) l -> usual_backoff d.

(** ** Sample pages and environments *)

Module Sample.

Definition ascii_lower (t : text) : text :=
  List.map (fun c => if ((65 <=? c) && (c <=? 90))%N then (c + 32)%N else c) t.

Definition product_name : Soup.node :=
  Soup.Tag "h1" [] [Soup.NavigableString (py "Leren sneakers laag wit")].

Definition price_span (class : string) (t : text) : Soup.node :=
  Soup.Tag "span" [("class", Soup.AttrList [class; "Km7l2y"])]
    [Soup.NavigableString t].

(** A page of the old layout: the price sits under a class name only. *)
Definition legacy_page : Soup.soup :=
  [Soup.Tag "div" []
     [product_name; price_span "sDq_FX" (euro :: py " 38,99")]].

(** A page whose price element also carries the discount. *)
Definition discount_page : Soup.soup :=
  [Soup.Tag "div" []
     [product_name; price_span "sDq_FX" (euro :: py " 39,99 -33%")]].

(** A price written with a superscript digit only. *)
Definition superscript_price : text := [euro; 178%N].

Definition page (status : Z) (t : text) : get_result :=
  Responds (mkResponse status t).

(** Every request is answered with the same page. *)
Definition always (answer : get_result) (doc : Soup.soup) : env :=
  mkEnv (fun _ _ => answer) ascii_lower (fun _ => inr doc) false
        (fun _ => None) 10 20.

Definition shop_page : text := py "<html><h1>Leren sneakers laag wit</h1></html>".
Definition captcha_page : text := py "<html>Please solve this CAPTCHA</html>".

Definition url : string := "https://www.zalando.nl/sneakers-laag-wit.html".

End Sample.

(** ** The bookkeeping around the pipeline *)

Module Utf8.

(** The code points of a UTF-8 byte sequence; what is not well formed
    becomes U+FFFD. *)
Fixpoint decode (bytes : list N) : text :=
  match bytes with
  | [] => []
  | b0 :: rest =>
      if (b0 <? 128)%N then b0 :: decode rest
      else if (b0 <? 224)%N then
        match rest with
        | b1 :: rest' => ((b0 - 192) * 64 + (b1 - 128))%N :: decode rest'
        | _ => [65533%N]
        end
      else if (b0 <? 240)%N then
        match rest with
        | b1 :: b2 :: rest' =>
            ((b0 - 224) * 4096 + (b1 - 128) * 64 + (b2 - 128))%N :: decode rest'
        | _ => [65533%N]
        end
      else
        match rest with
        | b1 :: b2 :: b3 :: rest' =>
            ((b0 - 240) * 262144 + (b1 - 128) * 4096 + (b2 - 128) * 64
             + (b3 - 128))%N :: decode rest'
        | _ => [65533%N]
        end
  end.

End Utf8.

(** The text of a literal of the source, or of a URL. *)
Definition utf8 (s : string) : text := Utf8.decode (py s).

Definition nl : text := [10%N].

(** [str(z)] for an integer. *)
Definition str_Z (z : Z) : string := NilEmpty.string_of_int (Z.to_int z).

(** [str(n)] for a natural number. *)
Definition str_nat (n : nat) : string := NilEmpty.string_of_uint (Nat.to_uint n).

(** A Python [dict] with string keys: the items in the order of their
    insertion, every key once. *)
Module Dict.

Section Dict.

Context {V : Type}.

(** [d.get(k)] *)
Fixpoint get (d : list (string * V)) (k : string) : option V :=
  match d with
  | [] => None
  | (k', v) :: d' => if String.eqb k' k then Some v else get d' k
  end.

(** [k in d] *)
Definition mem (d : list (string * V)) (k : string) : bool :=
  match get d k with
  | Some _ => true
  | None => false
  end.

(** [d[k] = v]: in place when the key is there, at the end otherwise. *)
Fixpoint set (d : list (string * V)) (k : string) (v : V) : list (string * V) :=
  match d with
  | [] => [(k, v)]
  | (k', v') :: d' =>
      if String.eqb k' k then (k, v) :: d' else (k', v') :: set d' k v
  end.

(** [del d[k]], for a key that is there. *)
Fixpoint del (d : list (string * V)) (k : string) : list (string * V) :=
  match d with
  | [] => []
  | (k', v') :: d' => if String.eqb k' k then d' else (k', v') :: del d' k
  end.

Definition keys (d : list (string * V)) : list string := List.map fst d.

End Dict.

End Dict.

(** The handlers of the commands and the monitoring loop.  Each is modelled
    as it runs from its first line to its last, alone: [run] starts
    [check_prices] on a thread of its own, and what happens when a handler
    changes the store while the loop waits for the shop is not part of this
    model.  The library calls ([urlparse], [datetime.now], Telegram, [int])
    are fields of [world]; [json.dump] is recorded by its argument. *)
Module App.

(** One monitored product, the inner dictionary of lines 316-321. *)
Record product := mkProduct {
  name : text;
  last_price : PyFloat.float;
  last_check : string;
  added_date : string
}.

(** [self.products]: chat id, then URL. *)
Definition store : Type := list (string * list (string * product)).

(** The calls made to Telegram. *)
Inductive call :=
| reply_text (chat : Z) (message : text)
| reply_keyboard (chat : Z) (message : text) (buttons : list (text * string))
| answer (chat : Z)
| edit_message_text (chat : Z) (message : text)
| send_message (chat_id : Z) (message : text).

(** The sleeps of the monitoring loop. *)
Inductive pause :=
| BetweenChecks (low high : Z)    (* line 425 *)
| BetweenCycles (low high : Z)    (* lines 428-430 *)
| AfterError (seconds : Z).       (* line 435 *)

Inductive error :=
| FromPipeline (e : exn)
| RecursionError
| TelegramError
| ZeroDivisionError
| KeyError (key : string).

Inductive result (A : Type) :=
| Ok (a : A)
| Error (e : error).

Arguments Ok {A} a.
Arguments Error {A} e.

(** What lies outside the handlers, besides the environment of the
    pipeline. *)
Record world := mkWorld {
  pipeline : env;
  CHECK_INTERVAL : Z;
  netloc : string -> option string;   (* [urlparse(url).netloc], [None] when it raises *)
  isoformat_now : nat -> string;      (* [datetime.now().isoformat()], by rank *)
  telegram_fails : nat -> bool;       (* whether the n-th call to Telegram raises *)
  py_int : string -> option Z         (* [int(chat_id)], [None] when it raises *)
}.

(** The state of the bot: the part that the pipeline uses, the products,
    the table of the removal buttons, and what has been sent to Telegram,
    written to [data/products.json], read from the clock and slept. *)
Record app := mkApp {
  core : bot;
  products : store;
  _remove_urls : list (string * string);
  calls : list call;
  dumps : list store;
  clock : nat;
  pauses : list pause
}.

Definition Act (A : Type) : Type := app -> result A * app.

Definition done {A} (a : A) : Act A := fun s => (Ok a, s).

Definition fail {A} (e : error) : Act A := fun s => (Error e, s).

Definition and_then {A B} (m : Act A) (k : A -> Act B) : Act B :=
  fun s =>
    match m s with
    | (Ok a, s') => k a s'
    | (Error e, s') => (Error e, s')
    end.

(** [try: body  except Exception as e: handler e] *)
Definition attempt {A} (body : Act A) (handler : error -> Act A) : Act A :=
  fun s =>
    match body s with
    | (Error e, s') => handler e s'
    | r => r
    end.

Declare Scope act_scope.
Delimit Scope act_scope with act.
Notation "x <-- m ;; k" := (and_then m (fun x => k))
  (at level 100, m at next level, right associativity) : act_scope.
Notation "m ;;; k" := (and_then m (fun _ => k))
  (at level 100, right associativity) : act_scope.
Open Scope act_scope.

Definition read {A} (f : app -> A) : Act A := fun s => (Ok (f s), s).

Definition set_products (p : store) : Act unit :=
  fun s => (Ok tt, mkApp (core s) p (_remove_urls s) (calls s) (dumps s)
                         (clock s) (pauses s)).

Definition set_remove_urls (t : list (string * string)) : Act unit :=
  fun s => (Ok tt, mkApp (core s) (products s) t (calls s) (dumps s)
                         (clock s) (pauses s)).

(** A call of a method of the pipeline. *)
Definition run_core {A} (m : M A) : Act A :=
  fun s =>
    let (r, b) := m (core s) in
    let s' := mkApp b (products s) (_remove_urls s) (calls s) (dumps s)
                    (clock s) (pauses s) in
    match r with
    | Returns a => (Ok a, s')
    | Raises e => (Error (FromPipeline e), s')
    | Diverges => (Error RecursionError, s')
    end.

Section Handlers.

Variable W : world.

(** A call to Telegram: made, and then perhaps failed. *)
Definition telegram (c : call) : Act unit :=
  fun s =>
    let s' := mkApp (core s) (products s) (_remove_urls s) (calls s ++ [c])
                    (dumps s) (clock s) (pauses s) in
    if telegram_fails W (List.length (calls s)) then (Error TelegramError, s')
    else (Ok tt, s').

(** [datetime.now().isoformat()] *)
Definition now : Act string :=
  fun s => (Ok (isoformat_now W (clock s)),
            mkApp (core s) (products s) (_remove_urls s) (calls s) (dumps s)
                  (S (clock s)) (pauses s)).

(** [time.sleep] in the monitoring loop. *)
Definition sleep_for (p : pause) : Act unit :=
  fun s => (Ok tt, mkApp (core s) (products s) (_remove_urls s) (calls s)
                         (dumps s) (clock s) (pauses s ++ [p])).

(** [save_products], lines 94-99: the dictionary is written out; a failure
    of the file system is logged and nothing else. *)
Definition save_products : Act unit :=
  fun s => (Ok tt, mkApp (core s) (products s) (_remove_urls s) (calls s)
                         (dumps s ++ [products s]) (clock s) (pauses s)).

(** [is_valid_zalando_url], lines 101-106. *)
Definition is_valid_zalando_url (url : string) : bool :=
  match netloc W url with
  | Some host => String.eqb host "www.zalando.nl"
  | None => false
  end.

(** [self.products[chat_id]] *)
Definition products_of (chat_id : string) : Act (list (string * product)) :=
  fun s =>
    match Dict.get (products s) chat_id with
    | Some d => (Ok d, s)
    | None => (Error (KeyError chat_id), s)
    end.

(** [self.products[chat_id][url] = p] *)
Definition store_product (chat_id url : string) (p : product) : Act unit :=
  d <-- products_of chat_id ;;
  all <-- read products ;;
  set_products (Dict.set all chat_id (Dict.set d url p)).

(** [add_product], lines 281-334. *)
Definition add_product (chat : Z) (args : list string) : Act unit :=
  attempt
    (match args with
     | [] =>
         telegram (reply_text chat
           (py "Please provide a Zalando.nl product URL" ++ nl
            ++ py "Example: /add https://www.zalando.nl/product-url"))
     | url :: _ =>
         if negb (is_valid_zalando_url url) then
           telegram (reply_text chat (py "Please provide a valid Zalando.nl URL"))
         else
           let chat_id := str_Z chat in
           all <-- read products ;;
           (if negb (Dict.mem all chat_id)
            then set_products (Dict.set all chat_id [])
            else done tt) ;;;
           mine <-- products_of chat_id ;;
           if Dict.mem mine url then
             telegram (reply_text chat (py "This product is already being monitored!"))
           else
             telegram (reply_text chat (utf8 "🔍 Fetching product information...")) ;;;
             found <-- run_core (get_price (pipeline W) url) ;;
             match found with
             | Some (price, (_ :: _) as name) =>
                 last_check <-- now ;;
                 added_date <-- now ;;
                 store_product chat_id url
                   (mkProduct name price last_check added_date) ;;;
                 save_products ;;;
                 telegram (reply_text chat
                   (utf8 "✅ Added to monitoring:" ++ nl
                    ++ utf8 "📦 " ++ name ++ nl
                    ++ utf8 "💰 Current price: " ++ format_price price ++ nl
                    ++ utf8 "⏰ Check interval: " ++ py (str_Z (CHECK_INTERVAL W))
                    ++ py " seconds" ++ nl
                    ++ py "I'll notify you when the price changes!"))
             | _ =>
                 telegram (reply_text chat
                   (py "Sorry, I couldn't fetch the product information. Please check if:"
                    ++ nl ++ py "1. The URL is correct"
                    ++ nl ++ py "2. The product is still available"
                    ++ nl ++ py "3. The website is accessible" ++ nl ++ nl
                    ++ py "Try again in a few minutes."))
             end
     end)
    (fun _ =>
       telegram (reply_text chat
         (py "Sorry, something went wrong. Please try again."))).

(** The loop of lines 360-366: the table of the buttons and the keyboard. *)
Fixpoint number_buttons (i : nat) (items : list (string * product))
  (table : list (string * string)) (keyboard : list (text * string))
  : list (string * string) * list (text * string) :=
  match items with
  | [] => (table, keyboard)
  | (url, data) :: items' =>
      let callback_data := ("rm_" ++ str_nat i)%string in
      number_buttons (S i) items'
        (Dict.set table callback_data url)
        (keyboard
         ++ [(name data ++ py " (" ++ format_price (last_price data) ++ py ")",
              callback_data)])
  end.

(** [remove_product], lines 351-369. *)
Definition remove_product (chat : Z) : Act unit :=
  let chat_id := str_Z chat in
  all <-- read products ;;
  match Dict.get all chat_id with
  | None | Some [] =>
      telegram (reply_text chat (py "You have no products to remove."))
  | Some mine =>
      let (table, keyboard) := number_buttons 0 mine [] [] in
      set_remove_urls table ;;;
      telegram (reply_keyboard chat (py "Select a product to remove:") keyboard)
  end.

(** [button_callback], lines 371-387. *)
Definition button_callback (chat : Z) (data : string) : Act unit :=
  telegram (answer chat) ;;;
  if String.prefix "rm_" data then
    let chat_id := str_Z chat in
    table <-- read _remove_urls ;;
    match Dict.get table data with
    | Some url =>
        all <-- read products ;;
        match Dict.get all chat_id with
        | Some mine =>
            match Dict.get mine url with
            | Some p =>
                let product_name := name p in
                set_products (Dict.set all chat_id (Dict.del mine url)) ;;;
                save_products ;;;
                telegram (edit_message_text chat
                  (utf8 "✅ Removed " ++ product_name ++ py " from monitoring."))
            | None =>
                telegram (edit_message_text chat (utf8 "❌ Error: Product not found."))
            end
        | None =>
            telegram (edit_message_text chat (utf8 "❌ Error: Product not found."))
        end
    | None =>
        telegram (edit_message_text chat (utf8 "❌ Error: Invalid removal request."))
    end
  else done tt.

(** [f"{x:+.1f}"]: sign, then the decimal with one fractional digit nearest
    to the exact value of [x]. *)
Definition tenths (m : positive) (e : Z) : N :=
  match e with
  | Zneg p =>
      let num := (Npos m * 10)%N in
      let den := (2 ^ Npos p)%N in
      let q := (num / den)%N in
      let r := (num mod den)%N in
      match (2 * r ?= den)%N with
      | Lt => q
      | Gt => (q + 1)%N
      | Eq => if N.even q then q else (q + 1)%N
      end
  | _ => (Npos m * 10 * 2 ^ Z.to_N e)%N
  end.

Definition signed_fixed1 (x : PyFloat.float) : text :=
  let sign (s : bool) : text := if s then py "-" else py "+" in
  match x with
  | S754_nan => py "+nan"
  | S754_infinity s => sign s ++ py "inf"
  | S754_zero s => sign s ++ py "0.0"
  | S754_finite s m e =>
      let k := tenths m e in
      sign s ++ PyFormat.N_text (k / 10) ++ dot :: [PyFormat.digit_char (k mod 10)]
  end.

(** [x / y] on floats: a zero divisor raises. *)
Definition float_div (x y : PyFloat.float) : Act PyFloat.float :=
  match y with
  | S754_zero _ => fail ZeroDivisionError
  | _ => done (PyFloat.div x y)
  end.

(** [for x in l: body x] *)
Fixpoint for_each {A} (l : list A) (body : A -> Act unit) : Act unit :=
  match l with
  | [] => done tt
  | x :: l' => body x ;;; for_each l' body
  end.

(** [self.products[chat_id][url][field] = value], as a change of the
    product. *)
Definition update_product (chat_id url : string) (change : product -> product)
  : Act unit :=
  mine <-- products_of chat_id ;;
  match Dict.get mine url with
  | Some p => store_product chat_id url (change p)
  | None => fail (KeyError url)
  end.

(** Lines 405-412. *)
Definition alert (data : product) (url : string)
  (current_price change change_percent : PyFloat.float) : text :=
  utf8 "💰 Price Change Alert!" ++ nl ++ nl
  ++ utf8 "📦 " ++ name data ++ nl
  ++ py "Old price: " ++ format_price (last_price data) ++ nl
  ++ py "New price: " ++ format_price current_price ++ nl
  ++ py "Change: "
  ++ (if PyFloat.gt change (S754_zero false) then utf8 "📈" else utf8 "📉")
  ++ py " " ++ format_price (SFabs change)
  ++ py " (" ++ signed_fixed1 change_percent ++ py "%)" ++ nl ++ nl
  ++ utf8 "🔗 " ++ utf8 url.

(** One turn of the inner loop of [check_prices], lines 394-425, for an item
    [(url, data)] of [self.products[chat_id]]. *)
Definition check_product (chat_id url : string) (data : product) : Act unit :=
  found <-- run_core (get_price (pipeline W) url) ;;
  match found with
  | None => done tt
  | Some (current_price, _) =>
      (if negb (SFeqb current_price (last_price data)) then
         let change := SFsub PyFloat.prec PyFloat.emax current_price (last_price data) in
         ratio <-- float_div change (last_price data) ;;
         let change_percent := SFmul PyFloat.prec PyFloat.emax ratio hundred in
         let message := alert data url current_price change change_percent in
         attempt
           (match py_int W chat_id with
            | Some id => telegram (send_message id message)
            | None => fail (FromPipeline (ValueError "invalid literal for int()"))
            end)
           (fun _ => done tt) ;;;
         update_product chat_id url
           (fun p => mkProduct (name p) current_price (last_check p) (added_date p)) ;;;
         checked <-- now ;;
         update_product chat_id url
           (fun p => mkProduct (name p) (last_price p) checked (added_date p)) ;;;
         save_products
       else done tt) ;;;
      sleep_for (BetweenChecks (MIN_DELAY (pipeline W)) (MAX_DELAY (pipeline W)))
  end.

(** One turn of the [while True] of [check_prices], lines 391-435. *)
Definition check_cycle : Act unit :=
  attempt
    (all <-- read products ;;
     for_each (Dict.keys all)
       (fun chat_id =>
          mine <-- products_of chat_id ;;
          for_each mine (fun item => check_product chat_id (fst item) (snd item))) ;;;
     sleep_for (BetweenCycles (CHECK_INTERVAL W + 60) (CHECK_INTERVAL W + 180)))
    (fun _ => sleep_for (AfterError 60)).

End Handlers.

(** A bot that has just been created, with the products of the file. *)
Definition start (p : store) : app := mkApp init p [] [] [] 0 [].

(** Every key once. *)
Definition well_formed (p : store) : Prop :=
  List.NoDup (Dict.keys p)
  /\ Forall (fun kv => List.NoDup (Dict.keys (snd kv))) p.

(** [p.get(chat_id, {})], as in line 271. *)
Definition products_for (p : store) (chat_id : string) : list (string * product) :=
  match Dict.get p chat_id with
  | Some mine => mine
  | None => []
  end.

(** The keyboard that line 360-366 builds for a list of products: one
    button for each, numbered from [i]. *)
Definition keyboard_of (i : nat) (items : list (string * product))
  : list (text * string) :=
  List.map
    (fun numbered : nat * (string * product) =>
       let data := snd (snd numbered) in
       (name data ++ py " (" ++ format_price (last_price data) ++ py ")",
        ("rm_" ++ str_nat (fst numbered))%string))
    (List.combine (List.seq i (List.length items)) items).

(** What a handler leaves alone when it only talks to Telegram. *)
Definition untouched (s s' : app) : Prop :=
  core s' = core s /\ products s' = products s
  /\ dumps s' = dumps s /\ clock s' = clock s.

(** What the monitoring loop has no reason to change: the chats, their
    URLs in their order, and the name and the date of addition of every
    product. *)
Definition shape (p : store) : list (string * list (string * (text * string))) :=
  List.map
    (fun chat =>
       (fst chat,
        List.map (fun item => (fst item, (name (snd item), added_date (snd item))))
          (snd chat)))
    p.

(** [s'] differs from [s] by requests of the pipeline and by pauses between
    checks only. *)
Definition only_checked (W : world) (s s' : app) : Prop :=
  products s' = products s /\ _remove_urls s' = _remove_urls s
  /\ calls s' = calls s /\ dumps s' = dumps s /\ clock s' = clock s
  /\ exists n,
       pauses s'
       = pauses s
         ++ List.repeat
              (BetweenChecks (MIN_DELAY (pipeline W)) (MAX_DELAY (pipeline W))) n.

(** An action that leaves the shape of the store as it finds it. *)
Definition keeps_shape {A} (m : Act A) : Prop :=
  forall s, shape (products (snd (m s))) = shape (products s).

(** No price of the store has changed, whatever the state of the pipeline:
    every product either cannot be fetched or has its stored price. *)
Definition no_news (W : world) (p : store) : Prop :=
  forall chat_id mine url data b,
    In (chat_id, mine) p -> In (url, data) mine ->
    match fst (get_price (pipeline W) url b) with
    | Returns None => True
    | Returns (Some (price, _)) => SFeqb price (last_price data) = true
    | _ => False
    end.

(** A world for the examples: Telegram works, the clock shows its rank. *)
Definition sample_world (E : env) : world :=
  mkWorld E 3600
    (fun url => if String.prefix "https://www.zalando.nl/" url
                then Some "www.zalando.nl" else Some "example.org"%string)
    (fun n => str_nat n) (fun _ => false)
    (fun s => option_map Z.of_int (NilEmpty.int_of_string s)).

(** The shop answers with a page of the old layout. *)
Definition open_shop : world :=
  sample_world (Sample.always (Sample.page 200 Sample.shop_page) Sample.legacy_page).

(** The shop answers with a CAPTCHA. *)
Definition guarded_shop : world :=
  sample_world (Sample.always (Sample.page 200 Sample.captcha_page) Sample.legacy_page).

Definition sneakers : product :=
  mkProduct (py "Leren sneakers laag wit") (PyFloat.of_decimal 3899 2)
    "2024-03-01T10:00:00" "2024-03-01T10:00:00".

Definition jacket : product :=
  mkProduct (py "Winterjas") (PyFloat.of_decimal 12995 2)
    "2024-03-02T09:30:00" "2024-03-02T09:30:00".

Definition jacket_url : string := "https://www.zalando.nl/winterjas.html".

(** A product that was stored with a price of zero. *)
Definition free_sample : product :=
  mkProduct (py "Proefmonster") (S754_zero false)
    "2024-03-03T08:00:00" "2024-03-03T08:00:00".

(** One chat, one product, whose stored price is the price of the shop. *)
Definition steady_products : store := [("42"%string, [(Sample.url, sneakers)])].

(** One chat, one product, stored with a price of zero. *)
Definition free_products : store := [("42"%string, [(Sample.url, free_sample)])].

(** Two chats; both monitor the jacket. *)
Definition sample_products : store :=
  [("42", [(Sample.url, sneakers); (jacket_url, jacket)]);
   ("7", [(jacket_url, jacket)])]%string.

End App.

(** * Properties *)

(** ** Characters *)

Lemma in_range_expand c r :
  Unicode.in_range c r = true -> In c (Unicode.expand r).
Proof.
  unfold Unicode.in_range, Unicode.expand. intros H.
  apply andb_true_iff in H as [Hlo Hhi].
  apply N.leb_le in Hlo, Hhi.
  apply in_map_iff. exists (N.to_nat (c - fst r)). split.
  - rewrite N2Nat.id. lia.
  - apply in_seq. lia.
Qed.

Lemma isspace_listed c :
  Unicode.isspace c = true -> In c Unicode.whitespace.
Proof.
  unfold Unicode.isspace, Unicode.whitespace. intros H.
  apply existsb_exists in H as (r & Hr & Hc).
  apply in_flat_map. exists r. split; [exact Hr | now apply in_range_expand].
Qed.

Lemma isspace_not_kept c :
  Unicode.isspace c = true -> keep_char c = false.
Proof.
  intros H. apply isspace_listed in H.
  assert (Hall : forallb (fun c => negb (keep_char c)) Unicode.whitespace = true)
    by (vm_compute; reflexivity).
  rewrite forallb_forall in Hall. apply Hall in H.
  now apply negb_true_iff in H.
Qed.

Lemma isdecimal_isdigit c :
  Unicode.isdecimal c = true -> Unicode.isdigit c = true.
Proof. unfold Unicode.isdigit. intros ->. reflexivity. Qed.

Lemma isdecimal_value c :
  Unicode.isdecimal c = true -> exists d, Unicode.decimal_value c = Some d.
Proof.
  unfold Unicode.isdecimal. destruct (Unicode.decimal_value c); [eauto | discriminate].
Qed.

Lemma dot_not_digit : Unicode.isdigit dot = false.
Proof. vm_compute; reflexivity. Qed.

Lemma comma_not_digit : Unicode.isdigit comma = false.
Proof. vm_compute; reflexivity. Qed.

Lemma keep_char_cases c :
  keep_char c = true <-> Unicode.isdigit c = true \/ c = dot \/ c = comma.
Proof.
  unfold keep_char, PyStr.contains.
  change (py ".,") with [dot; comma]. cbn [existsb].
  rewrite !orb_true_iff, !N.eqb_eq. intuition (discriminate || auto).
Qed.

(** ** Strings *)

Section TextFacts.

Implicit Types (t s : text) (c sep : char).

Lemma filter_lstrip t :
  List.filter keep_char (PyStr.lstrip t) = List.filter keep_char t.
Proof.
  induction t as [|c t IH]; [reflexivity|].
  cbn [PyStr.lstrip]. destruct (Unicode.isspace c) eqn:Hc; [|reflexivity].
  cbn [List.filter]. now rewrite (isspace_not_kept c Hc).
Qed.

Lemma filter_keep_rev t :
  List.filter keep_char (List.rev t) = List.rev (List.filter keep_char t).
Proof.
  induction t as [|c t IH]; [reflexivity|].
  cbn [List.rev List.filter]. rewrite List.filter_app, IH. cbn [List.filter].
  destruct (keep_char c); cbn [List.rev]; [reflexivity | now rewrite List.app_nil_r].
Qed.

Lemma filter_strip t :
  List.filter keep_char (PyStr.strip t) = List.filter keep_char t.
Proof.
  unfold PyStr.strip, PyStr.rstrip.
  rewrite filter_keep_rev, filter_lstrip, <- filter_keep_rev, List.rev_involutive.
  apply filter_lstrip.
Qed.

Lemma count_app sep t s :
  PyStr.count sep (t ++ s) = PyStr.count sep t + PyStr.count sep s.
Proof.
  induction t as [|c t IH]; [reflexivity|].
  cbn [List.app PyStr.count]. destruct (c =? sep)%N; cbn; now rewrite IH.
Qed.

Lemma count_filter sep t :
  PyStr.count sep t = List.length (List.filter (fun c => (c =? sep)%N) t).
Proof.
  induction t as [|c t IH]; [reflexivity|].
  cbn [PyStr.count List.filter]. destruct (c =? sep)%N; cbn; now rewrite IH.
Qed.

Lemma contains_count sep t :
  PyStr.contains sep t = negb (PyStr.count sep t =? 0).
Proof.
  unfold PyStr.contains. induction t as [|c t IH]; [reflexivity|].
  cbn [existsb PyStr.count]. destruct (c =? sep)%N; [reflexivity | exact IH].
Qed.

Lemma split_not_nil sep t : PyStr.split sep t <> [].
Proof.
  destruct t as [|c t]; cbn [PyStr.split]; [discriminate|].
  destruct (c =? sep)%N; [discriminate|].
  destruct (PyStr.split sep t); discriminate.
Qed.

Lemma split_length sep t :
  List.length (PyStr.split sep t) = S (PyStr.count sep t).
Proof.
  induction t as [|c t IH]; [reflexivity|].
  cbn [PyStr.split PyStr.count]. destruct (c =? sep)%N.
  - cbn [List.length]. now rewrite IH.
  - destruct (PyStr.split sep t) eqn:Hs; [now destruct (split_not_nil sep t)|].
    exact IH.
Qed.

Lemma split_concat sep t :
  List.concat (PyStr.split sep t)
  = List.filter (fun c => negb (c =? sep)%N) t.
Proof.
  induction t as [|c t IH]; [reflexivity|].
  cbn [PyStr.split List.filter]. destruct (c =? sep)%N; cbn [negb].
  - exact IH.
  - destruct (PyStr.split sep t) eqn:Hs; [now destruct (split_not_nil sep t)|].
    cbn [List.concat List.app] in *. now rewrite IH.
Qed.

Lemma count_removed sep t :
  PyStr.count sep (List.filter (fun c => negb (c =? sep)%N) t) = 0.
Proof.
  induction t as [|c t IH]; [reflexivity|].
  cbn [List.filter]. destruct (c =? sep)%N eqn:Hc; cbn [negb]; [exact IH|].
  cbn [PyStr.count]. now rewrite Hc.
Qed.

Lemma split_whole sep t :
  PyStr.count sep t = 0 -> PyStr.split sep t = [t].
Proof.
  induction t as [|c t IH]; [reflexivity|].
  cbn [PyStr.count PyStr.split]. destruct (c =? sep)%N; [discriminate|].
  intros H. now rewrite (IH H).
Qed.

(** What lines 231-232 build when there is more than one point: the points
    are gone except one, which sits before the last segment. *)
Lemma concat_removelast_last (parts : list text) :
  parts <> [] ->
  List.concat (List.removelast parts) ++ List.last parts []
  = List.concat parts.
Proof.
  intros H. rewrite (List.app_removelast_last [] H) at 3.
  rewrite List.concat_app. cbn [List.concat]. now rewrite List.app_nil_r.
Qed.

Lemma count_app_zero sep t s :
  PyStr.count sep (t ++ s) = 0 -> PyStr.count sep t = 0 /\ PyStr.count sep s = 0.
Proof. rewrite count_app. lia. Qed.

Lemma collapsed_count t :
  let parts := PyStr.split dot t in
  PyStr.count dot
    (PyStr.join (List.removelast parts) ++ dot :: List.last parts []) = 1.
Proof.
  intros parts. unfold PyStr.join.
  pose proof (concat_removelast_last parts (split_not_nil dot t)) as H.
  pose proof (count_removed dot t) as H0.
  rewrite <- split_concat in H0. fold parts in H0. rewrite <- H in H0.
  apply count_app_zero in H0 as [Ha Hb].
  rewrite count_app. cbn [PyStr.count]. change (dot =? dot)%N with true.
  cbv iota. lia.
Qed.

End TextFacts.

(** ** Floats: the sign of what [float] and [/] give *)

Section FloatFacts.

Variables prec emax : Z.

Lemma shr_1_nonneg mrs : (0 <= shr_m mrs)%Z -> (0 <= shr_m (shr_1 mrs))%Z.
Proof.
  destruct mrs as [m r s]. cbn [shr_m]. intros H.
  destruct m as [|p|p]; [cbn; lia | | lia].
  destruct p; cbn; lia.
Qed.

Lemma iter_shr_1_nonneg p mrs :
  (0 <= shr_m mrs)%Z -> (0 <= shr_m (SpecFloat.iter_pos shr_1 p mrs))%Z.
Proof.
  revert mrs. induction p as [p IH|p IH|]; intros mrs H; cbn [SpecFloat.iter_pos].
  - apply IH, IH. now apply shr_1_nonneg.
  - now apply IH, IH.
  - now apply shr_1_nonneg.
Qed.

Lemma shr_nonneg mrs e n :
  (0 <= shr_m mrs)%Z -> (0 <= shr_m (fst (shr mrs e n)))%Z.
Proof.
  intros H. unfold shr. destruct n; cbn [fst]; try exact H.
  now apply iter_shr_1_nonneg.
Qed.

Lemma shr_fexp_nonneg m e l :
  (0 <= m)%Z -> (0 <= shr_m (fst (shr_fexp prec emax m e l)))%Z.
Proof.
  intros H. unfold shr_fexp. apply shr_nonneg.
  destruct l as [|[]]; exact H.
Qed.

Lemma round_nearest_even_nonneg m l :
  (0 <= m)%Z -> (0 <= round_nearest_even m l)%Z.
Proof.
  intros H. unfold round_nearest_even.
  destruct l as [|[]]; try lia. destruct (Z.even m); lia.
Qed.

Lemma binary_round_aux_unsigned mx ex lx :
  (0 <= mx)%Z -> unsigned_float (binary_round_aux prec emax false mx ex lx).
Proof.
  intros H. unfold binary_round_aux.
  pose proof (shr_fexp_nonneg mx ex lx H) as H1.
  destruct (shr_fexp prec emax mx ex lx) as [mrs' e']. cbn [fst] in H1.
  pose proof (shr_fexp_nonneg _ e' loc_Exact
                (round_nearest_even_nonneg _ (loc_of_shr_record mrs') H1)) as H2.
  destruct (shr_fexp prec emax _ e' loc_Exact) as [mrs'' e'']. cbn [fst] in H2.
  destruct (shr_m mrs'') as [|m|m]; [exact I | | lia].
  destruct (e'' <=? emax - prec)%Z; exact I.
Qed.

Lemma SFdiv_core_nonneg m1 e1 m2 e2 :
  (0 <= fst (fst (SFdiv_core_binary prec emax (Zpos m1) e1 (Zpos m2) e2)))%Z.
Proof.
  unfold SFdiv_core_binary.
  set (s := (e1 - e2 - _)%Z).
  set (m' := match s with Z0 => Zpos m1 | Zpos _ => Z.shiftl (Zpos m1) s | Zneg _ => 0%Z end).
  assert (Hm : (0 <= m')%Z).
  { subst m'. destruct s; [lia | | lia]. apply Z.shiftl_nonneg. lia. }
  pose proof (Z.div_pos m' (Zpos m2) Hm eq_refl) as Hq.
  unfold Z.div in Hq. destruct (Z.div_eucl m' (Zpos m2)) as [q r].
  exact Hq.
Qed.

Lemma SFdiv_unsigned x m e :
  unsigned_float x -> unsigned_float (SFdiv prec emax x (S754_finite false m e)).
Proof.
  destruct x as [[]|[]| |[] mx ex]; cbn [unsigned_float]; try tauto; intros _.
  unfold SFdiv.
  pose proof (SFdiv_core_nonneg mx ex m e) as H.
  destruct (SFdiv_core_binary prec emax (Zpos mx) ex (Zpos m) e) as [[mz ez] lz].
  cbn [fst] in H. now apply binary_round_aux_unsigned.
Qed.

End FloatFacts.

Lemma unsigned_nonneg x : unsigned_float x -> PyFloat.nonneg x = true.
Proof. destruct x as [[]|[]| |[] m e]; cbn; tauto. Qed.

Lemma of_N_unsigned n : unsigned_float (PyFloat.of_N n).
Proof. destruct n; exact I. Qed.

Lemma of_decimal_unsigned n k : unsigned_float (PyFloat.of_decimal n k).
Proof.
  unfold PyFloat.of_decimal.
  assert (H : (10 ^ N.of_nat k <> 0)%N) by (apply N.pow_nonzero; discriminate).
  destruct (10 ^ N.of_nat k)%N as [|p]; [congruence|].
  apply SFdiv_unsigned, of_N_unsigned.
Qed.

Lemma div_hundred_unsigned x :
  unsigned_float x -> unsigned_float (PyFloat.div x hundred).
Proof.
  intros H. unfold PyFloat.div.
  change hundred with (S754_finite false 7036874417766400 (-46)).
  now apply SFdiv_unsigned.
Qed.

Lemma py_float_decimal s d :
  PyFloat.py_float s = Some d -> exists n k, d = PyFloat.of_decimal n k.
Proof.
  unfold PyFloat.py_float.
  destruct (PyStr.split dot s) as [|w [|f [|]]]; try discriminate.
  - destruct w; [discriminate|].
    destruct (PyFloat.digits_value 0 _); [|discriminate].
    intros [= <-]. eauto.
  - destruct (w ++ f); [discriminate|].
    destruct (PyFloat.digits_value 0 _); [|discriminate].
    intros [= <-]. eauto.
Qed.

Lemma price_of_text_unsigned raw price :
  price_of_text raw = inr price -> unsigned_float price.
Proof.
  unfold price_of_text.
  destruct (PyFloat.py_float (clean_price_text raw)) as [d|] eqn:Hd; [|discriminate].
  apply py_float_decimal in Hd as (n & k & ->).
  destruct (_ && _); intros [= <-].
  - apply div_hundred_unsigned, of_decimal_unsigned.
  - apply of_decimal_unsigned.
Qed.

(** ** The clean-up of the price text *)

Section CleanFacts.

Implicit Types (t s : text) (c : char).

Lemma clean_price_text_unfold t :
  clean_price_text t
  = if 1 <? PyStr.count dot (separated t) then
      PyStr.join (List.removelast (PyStr.split dot (separated t)))
        ++ dot :: List.last (PyStr.split dot (separated t)) []
    else separated t.
Proof. reflexivity. Qed.

(** Every character of the separated text is a point or a digit of [t]. *)
Lemma separated_chars t c :
  In c (separated t) -> c = dot \/ (Unicode.isdigit c = true /\ In c t).
Proof.
  unfold separated, PyStr.replace. rewrite in_map_iff.
  intros (c0 & Hc & Hin). rewrite filter_strip in Hin.
  apply List.filter_In in Hin as [Hin Hk].
  destruct (c0 =? comma)%N eqn:Hne; [now left|].
  apply N.eqb_neq in Hne. subst c.
  apply keep_char_cases in Hk as [Hd|[Hd|Hd]]; auto; congruence.
Qed.

Lemma collapsed_chars s c :
  In c (PyStr.join (List.removelast (PyStr.split dot s))
          ++ dot :: List.last (PyStr.split dot s) []) ->
  c = dot \/ In c s.
Proof.
  unfold PyStr.join. rewrite in_app_iff. cbn [In].
  intros H.
  assert (H' : c = dot \/ In c (List.concat (PyStr.split dot s))).
  { rewrite <- (concat_removelast_last _ (split_not_nil dot s)), in_app_iff.
    destruct H as [H|[H|H]]; auto. }
  destruct H' as [H'|H']; [now left|]. right.
  rewrite split_concat in H'. now apply List.filter_In in H'.
Qed.

Lemma cleaned_chars t c :
  In c (clean_price_text t) -> c = dot \/ (Unicode.isdigit c = true /\ In c t).
Proof.
  rewrite clean_price_text_unfold.
  destruct (1 <? PyStr.count dot (separated t)).
  - intros H. apply collapsed_chars in H as [H|H]; [now left|].
    now apply separated_chars.
  - apply separated_chars.
Qed.

Lemma cleaned_count t : PyStr.count dot (clean_price_text t) <= 1.
Proof.
  rewrite clean_price_text_unfold.
  destruct (1 <? PyStr.count dot (separated t)) eqn:H.
  - now rewrite collapsed_count.
  - apply Nat.ltb_ge in H. exact H.
Qed.

Lemma cleaned_normalized t : normalized_text (clean_price_text t).
Proof.
  split; [|apply cleaned_count].
  apply List.Forall_forall. intros c H.
  apply cleaned_chars in H as [H|[H _]]; auto.
Qed.

(** The digits of the text survive the clean-up. *)
Lemma existsb_filter_keep (p : char -> bool) t :
  (forall c, p c = true -> keep_char c = true) ->
  existsb p (List.filter keep_char t) = existsb p t.
Proof.
  intros Hp. induction t as [|c t IH]; [reflexivity|].
  cbn [List.filter existsb]. destruct (keep_char c) eqn:Hk.
  - cbn [existsb]. now rewrite IH.
  - rewrite IH. destruct (p c) eqn:Hpc; [|reflexivity].
    apply Hp in Hpc. congruence.
Qed.

Lemma existsb_replace (p : char -> bool) t :
  p comma = false -> p dot = false ->
  existsb p (PyStr.replace comma dot t) = existsb p t.
Proof.
  intros Hc Hd. unfold PyStr.replace. induction t as [|c t IH]; [reflexivity|].
  cbn [List.map existsb]. rewrite IH.
  destruct (N.eqb_spec c comma) as [->|_]; [now rewrite Hc, Hd | reflexivity].
Qed.

Lemma existsb_without_dots (p : char -> bool) t :
  p dot = false ->
  existsb p (List.filter (fun c => negb (c =? dot)%N) t) = existsb p t.
Proof.
  intros Hd. induction t as [|c t IH]; [reflexivity|].
  cbn [List.filter existsb].
  destruct (N.eqb_spec c dot) as [->|_]; cbn [negb existsb]; rewrite IH;
    [now rewrite Hd | reflexivity].
Qed.

Lemma existsb_collapsed (p : char -> bool) s :
  p dot = false ->
  existsb p (PyStr.join (List.removelast (PyStr.split dot s))
               ++ dot :: List.last (PyStr.split dot s) [])
  = existsb p s.
Proof.
  intros Hd. unfold PyStr.join.
  rewrite List.existsb_app. cbn [existsb]. rewrite Hd. cbn [orb].
  rewrite <- List.existsb_app, (concat_removelast_last _ (split_not_nil dot s)).
  rewrite split_concat. now apply existsb_without_dots.
Qed.

Lemma cleaned_digits (p : char -> bool) t :
  (forall c, p c = true -> Unicode.isdigit c = true) ->
  existsb p (clean_price_text t) = existsb p t.
Proof.
  intros Hp.
  assert (Hd : p dot = false).
  { destruct (p dot) eqn:H; [|reflexivity]. apply Hp in H.
    rewrite dot_not_digit in H. discriminate. }
  assert (Hc : p comma = false).
  { destruct (p comma) eqn:H; [|reflexivity]. apply Hp in H.
    rewrite comma_not_digit in H. discriminate. }
  assert (Hs : existsb p (separated t) = existsb p t).
  { unfold separated. rewrite existsb_replace, filter_strip by assumption.
    apply existsb_filter_keep. intros c H. apply keep_char_cases. auto. }
  rewrite clean_price_text_unfold.
  destruct (1 <? PyStr.count dot (separated t)); [|exact Hs].
  now rewrite existsb_collapsed.
Qed.

(** A normalised text is left as it is. *)
Lemma lstrip_no_space t :
  Forall (fun c => Unicode.isspace c = false) t -> PyStr.lstrip t = t.
Proof.
  destruct 1 as [|c t Hc _]; [reflexivity|].
  cbn [PyStr.lstrip]. now rewrite Hc.
Qed.

Lemma strip_no_space t :
  Forall (fun c => Unicode.isspace c = false) t -> PyStr.strip t = t.
Proof.
  intros H. unfold PyStr.strip, PyStr.rstrip.
  rewrite (lstrip_no_space t H), lstrip_no_space, List.rev_involutive;
    [reflexivity|].
  now apply List.Forall_rev.
Qed.

Lemma filter_all (p : char -> bool) t :
  Forall (fun c => p c = true) t -> List.filter p t = t.
Proof.
  induction 1 as [|c t Hc _ IH]; [reflexivity|].
  cbn [List.filter]. now rewrite Hc, IH.
Qed.

Lemma replace_absent t :
  Forall (fun c => c <> comma) t -> PyStr.replace comma dot t = t.
Proof.
  unfold PyStr.replace. induction 1 as [|c t Hc _ IH]; [reflexivity|].
  cbn [List.map]. rewrite IH. now destruct (N.eqb_spec c comma).
Qed.

Lemma normalized_fixed s : normalized_text s -> clean_price_text s = s.
Proof.
  intros [Hchars Hcount].
  assert (Hkeep : Forall (fun c => keep_char c = true) s).
  { eapply List.Forall_impl; [|exact Hchars]. intros c [H|H];
      apply keep_char_cases; auto. }
  assert (Hspace : Forall (fun c => Unicode.isspace c = false) s).
  { eapply List.Forall_impl; [|exact Hkeep]. intros c H.
    destruct (Unicode.isspace c) eqn:Hs; [|reflexivity].
    apply isspace_not_kept in Hs. congruence. }
  assert (Hcomma : Forall (fun c => c <> comma) s).
  { eapply List.Forall_impl; [|exact Hchars]. intros c H Hc. subst c.
    destruct H as [H|H]; [rewrite comma_not_digit in H|]; discriminate. }
  rewrite clean_price_text_unfold. unfold separated.
  rewrite (strip_no_space s Hspace), (filter_all _ s Hkeep), (replace_absent s Hcomma).
  apply Nat.ltb_ge in Hcount. now rewrite Hcount.
Qed.

End CleanFacts.

(** ** Reading the cleaned text as a number *)

Lemma digits_value_some t acc :
  Forall (fun c => Unicode.isdecimal c = true) t ->
  exists n, PyFloat.digits_value acc t = Some n.
Proof.
  intros H. revert acc. induction H as [|c t Hc _ IH]; intros acc.
  - cbn. eauto.
  - cbn [PyFloat.digits_value].
    apply isdecimal_value in Hc as [d ->]. apply IH.
Qed.

Lemma py_float_fraction s v :
  PyFloat.py_float s = Some v ->
  exists n, v = PyFloat.of_decimal n (fraction_length s).
Proof.
  unfold PyFloat.py_float, fraction_length.
  destruct (PyStr.split dot s) as [|w [|f [|]]]; try discriminate.
  - destruct w; [discriminate|].
    destruct (PyFloat.digits_value 0 _); [|discriminate].
    intros [= <-]. eauto.
  - destruct (w ++ f); [discriminate|].
    destruct (PyFloat.digits_value 0 _); [|discriminate].
    intros [= <-]. eauto.
Qed.

Lemma py_float_some s :
  PyStr.count dot s <= 1 ->
  Forall (fun c => Unicode.isdecimal c = true \/ c = dot) s ->
  existsb Unicode.isdecimal s = true ->
  exists v, PyFloat.py_float s = Some v.
Proof.
  intros Hcount Hchars Hdigit.
  pose proof (split_length dot s) as Hlen.
  pose proof (split_concat dot s) as Hcat.
  set (ds := List.filter (fun c : char => negb (c =? dot)%N) s) in Hcat.
  assert (Hds : Forall (fun c => Unicode.isdecimal c = true) ds).
  { apply List.Forall_forall. intros c Hc. apply List.filter_In in Hc as [Hc Hne].
    rewrite List.Forall_forall in Hchars. destruct (Hchars c Hc) as [H| ->]; [exact H|].
    discriminate. }
  assert (Hne : ds <> []).
  { intros E.
    pose proof (eq_trans (existsb_without_dots Unicode.isdecimal s eq_refl) Hdigit)
      as Hsome.
    change (existsb Unicode.isdecimal ds = true) in Hsome.
    rewrite E in Hsome. discriminate. }
  clearbody ds. unfold PyFloat.py_float.
  destruct (digits_value_some ds 0%N Hds) as [n Hn].
  destruct (PyStr.split dot s) as [|w [|f [|]]]; cbn [List.length] in Hlen; try lia.
  - cbn [List.concat] in Hcat. rewrite List.app_nil_r in Hcat. subst w.
    rewrite Hn. destruct ds; [congruence | eauto].
  - cbn [List.concat] in Hcat. rewrite List.app_nil_r in Hcat. rewrite Hcat, Hn.
    destruct ds; [congruence | eauto].
Qed.

Lemma price_of_text_with_point s v :
  PyFloat.py_float (clean_price_text s) = Some v ->
  PyStr.contains dot (clean_price_text s) = true ->
  price_of_text s = inr v.
Proof.
  intros Hv Hdot. unfold price_of_text. rewrite Hv, Hdot.
  now rewrite andb_false_r.
Qed.

(** ** The claims about the numeric normalisation *)

Lemma strip_other_filter raw :
  Spec.strip_other raw = List.filter keep_char (PyStr.strip raw).
Proof.
  rewrite filter_strip. unfold Spec.strip_other.
  apply List.filter_ext. intros c.
  unfold keep_char, PyStr.contains. change (py ".,") with [dot; comma].
  cbn [existsb]. rewrite orb_false_r, <- orb_assoc.
  now rewrite (N.eqb_sym dot c), (N.eqb_sym comma c).
Qed.

Lemma points_count t : Spec.points t = PyStr.count dot t.
Proof. unfold Spec.points. now rewrite count_filter. Qed.

(** C1. For every raw price text, the code of lines 225-238 computes what
    the five steps of the specification compute, in their order: strip what
    is not a digit, a point or a comma; turn commas into points; when more
    than one point remains keep only the last; parse; divide by 100 exactly
    when the parsed value exceeds 1000 and the cleaned text had no point. *)
Theorem normalization_follows_spec (raw : text) :
  price_of_text raw
  = match Spec.normalize raw with
    | Some v => inr v
    | None => inl (ValueError "could not convert string to float")
    end.
Proof.
  unfold price_of_text, Spec.normalize, Spec.parse, Spec.minor_units.
  set (cleaned := Spec.commas_to_points (Spec.strip_other raw)).
  assert (Hclean : clean_price_text raw = Spec.collapse cleaned).
  { unfold clean_price_text, Spec.collapse, cleaned.
    rewrite strip_other_filter, points_count. reflexivity. }
  rewrite Hclean.
  destruct (PyFloat.py_float (Spec.collapse cleaned)) as [v|]; [|reflexivity].
  assert (Hdot : negb (PyStr.contains dot (Spec.collapse cleaned))
                 = (Spec.points cleaned =? 0)).
  { rewrite contains_count, negb_involutive, points_count.
    unfold Spec.collapse. rewrite points_count.
    destruct (1 <? PyStr.count dot cleaned) eqn:Hmany; [|reflexivity].
    change (?a ++ [dot] ++ ?b) with (a ++ dot :: b).
    pose proof (collapsed_count cleaned) as H1. cbv zeta in H1.
    unfold PyStr.join in H1. rewrite H1.
    apply Nat.ltb_lt in Hmany.
    symmetry. apply Nat.eqb_neq. lia. }
  rewrite Hdot. now destruct (_ && _).
Qed.

(** C2. The boundary strings: ["38,99"] gives 38.99, ["1.234,56"] gives
    1234.56, ["123500"] gives 1235.00 and ["45.00"] stays 45.00. Each price
    is the binary64 float that the decimal numeral denotes, given with its
    bits, and [format_price] writes it back with the digits of the claim. *)
Theorem boundary_strings :
  (price_of_text (py "38,99") = inr (PyFloat.of_decimal 3899 2)
   /\ PyFloat.of_decimal 3899 2 = S754_finite false 5487354670974239 (-47)
   /\ format_price (PyFloat.of_decimal 3899 2) = euro :: py "38.99")
  /\ (price_of_text (py "1.234,56") = inr (PyFloat.of_decimal 123456 2)
      /\ PyFloat.of_decimal 123456 2 = S754_finite false 5429652300748554 (-42)
      /\ format_price (PyFloat.of_decimal 123456 2) = euro :: py "1234.56")
  /\ (price_of_text (py "123500") = inr (PyFloat.of_decimal 123500 2)
      /\ PyFloat.of_decimal 123500 2 = PyFloat.of_decimal 1235 0
      /\ PyFloat.of_decimal 1235 0 = S754_finite false 5431587441213440 (-42)
      /\ format_price (PyFloat.of_decimal 123500 2) = euro :: py "1235.00")
  /\ (price_of_text (py "45.00") = inr (PyFloat.of_decimal 4500 2)
      /\ PyFloat.of_decimal 4500 2 = PyFloat.of_decimal 45 0
      /\ PyFloat.of_decimal 45 0 = S754_finite false 6333186975989760 (-47)
      /\ format_price (PyFloat.of_decimal 4500 2) = euro :: py "45.00").
Proof. repeat split; vm_compute; reflexivity. Qed.

(** C3, as stated, fails: the price element of a page that shows the
    discount next to the price, ["€ 39,99 -33%"], is read as 39.9933, which
    two fractional digits do not hold. *)
Lemma discount_price_has_four_fraction_digits :
  extract Sample.discount_page
  = inr (PyFloat.of_decimal 399933 4, py "Leren sneakers laag wit")
  /\ PyFloat.nonneg (PyFloat.of_decimal 399933 4) = true
  /\ two_fraction_digits (PyFloat.of_decimal 399933 4) = false
  /\ format_price (PyFloat.of_decimal 399933 4) = euro :: py "39.99"
  /\ PyFloat.py_float (py "39.99") = Some (PyFloat.of_decimal 3999 2)
  /\ PyFloat.of_decimal 3999 2 <> PyFloat.of_decimal 399933 4.
Proof. repeat split; vm_compute; (reflexivity || discriminate). Qed.

(** C3, amended. Every price that the extractor returns is non-negative
    (zero, positive or plus infinity, never a NaN): it is the float of the
    decimal numeral that the cleaned text of the price element spells, with
    as many fractional digits as that text has after its point, or, when the
    text has no point and the float exceeds 1000, that float divided by
    100. *)
Theorem extracted_price_nonneg (doc : Soup.soup) (price : PyFloat.float)
  (name : text) :
  extract doc = inr (price, name) ->
  PyFloat.nonneg price = true
  /\ exists e n,
       find_price_element doc = Some e
       /\ let s := clean_price_text (Soup.get_text e) in
          PyFloat.py_float s = Some (PyFloat.of_decimal n (fraction_length s))
          /\ (price = PyFloat.of_decimal n (fraction_length s)
              \/ (PyStr.contains dot s = false
                  /\ PyFloat.gt (PyFloat.of_decimal n (fraction_length s)) thousand = true
                  /\ price = PyFloat.div (PyFloat.of_decimal n (fraction_length s)) hundred)).
Proof.
  unfold extract.
  destruct (find_name_element doc) as [name_element|]; [|discriminate].
  destruct (find_price_element doc) as [e|]; [|discriminate].
  destruct (price_of_text (Soup.get_text e)) as [err|p] eqn:Hp; [discriminate|].
  intros [= <- <-]. split.
  - apply unsigned_nonneg. eapply price_of_text_unsigned. exact Hp.
  - exists e. unfold price_of_text in Hp.
    destruct (PyFloat.py_float (clean_price_text (Soup.get_text e))) as [v|] eqn:Hv;
      [|discriminate].
    destruct (py_float_fraction _ _ Hv) as [n ->]. exists n.
    split; [reflexivity|]. cbv zeta. split; [reflexivity|].
    destruct (PyFloat.gt _ thousand) eqn:Hgt; cbn [andb] in Hp.
    + destruct (PyStr.contains dot _) eqn:Hdot; cbn [negb] in Hp;
        injection Hp as <-; auto.
    + injection Hp as <-. auto.
Qed.

Lemma extracted_price_nonneg_witness :
  extract Sample.legacy_page
  = inr (PyFloat.of_decimal 3899 2, py "Leren sneakers laag wit")
  /\ PyFloat.nonneg (PyFloat.of_decimal 3899 2) = true.
Proof.
  assert (H : extract Sample.legacy_page
              = inr (PyFloat.of_decimal 3899 2, py "Leren sneakers laag wit"))
    by (vm_compute; reflexivity).
  split; [exact H|].
  exact (proj1 (extracted_price_nonneg _ _ _ H)).
Defined.

Lemma decimal_numeral_normalized s : decimal_numeral s -> normalized_text s.
Proof.
  intros (Hchars & Hcount & _). split; [|lia].
  eapply List.Forall_impl; [|exact Hchars].
  intros c [H|H]; [left; now apply isdecimal_isdigit | now right].
Qed.

(** C4. Normalisation is idempotent on already-normalised strings. The
    clean-up leaves its own results as they are, and normalising the cleaned
    text gives the value that normalising the original text gives. A decimal
    numeral (decimal digits around one point) is such a string, and its
    normalisation is the very float it denotes; normalising ["38.99"]
    yields 38.99. *)
Theorem normalization_idempotent :
  (forall t : text,
      clean_price_text (clean_price_text t) = clean_price_text t
      /\ price_of_text (clean_price_text t) = price_of_text t)
  /\ (forall s : text,
         decimal_numeral s ->
         clean_price_text s = s
         /\ exists v, PyFloat.py_float s = Some v /\ price_of_text s = inr v)
  /\ price_of_text (py "38.99") = inr (PyFloat.of_decimal 3899 2).
Proof.
  split; [|split].
  - intros t.
    assert (H : clean_price_text (clean_price_text t) = clean_price_text t)
      by apply normalized_fixed, cleaned_normalized.
    split; [exact H|]. unfold price_of_text. now rewrite H.
  - intros s Hs.
    pose proof (normalized_fixed s (decimal_numeral_normalized s Hs)) as Hfix.
    split; [exact Hfix|].
    destruct Hs as (Hchars & Hcount & Hdigit).
    destruct (py_float_some s) as [v Hv]; [lia | exact Hchars | exact Hdigit |].
    exists v. split; [exact Hv|].
    apply price_of_text_with_point; rewrite Hfix; [exact Hv|].
    rewrite contains_count, Hcount. reflexivity.
  - vm_compute; reflexivity.
Qed.

Lemma normalization_idempotent_witness :
  decimal_numeral (py "38.99")
  /\ clean_price_text (py "38.99") = py "38.99"
  /\ exists v, PyFloat.py_float (py "38.99") = Some v
               /\ price_of_text (py "38.99") = inr v.
Proof.
  assert (H : decimal_numeral (py "38.99")).
  { split; [|split; vm_compute; reflexivity].
    repeat constructor; (left; vm_compute; reflexivity) || (right; reflexivity). }
  split; [exact H|].
  exact (proj1 (proj2 normalization_idempotent) (py "38.99") H).
Defined.

(** C9, as stated, fails: a superscript two is a digit for [str.isdigit],
    so ["€²"] passes the selection predicate, but [float] does not read
    it. *)
Lemma superscript_digit_does_not_parse :
  PyStr.contains euro Sample.superscript_price
  && existsb Unicode.isdigit Sample.superscript_price = true
  /\ clean_price_text Sample.superscript_price = [178%N]
  /\ price_of_text Sample.superscript_price
     = inl (ValueError "could not convert string to float").
Proof. repeat split; vm_compute; reflexivity. Qed.

(** C9, amended. For every candidate text that contains at least one digit,
    the cleaned text consists of digits and at most one point, with at least
    one digit; when moreover every digit of the text is a decimal digit
    (such as 0-9), the parse cannot fail. *)
Theorem decimal_digits_always_parse (t : text) :
  existsb Unicode.isdigit t = true ->
  (normalized_text (clean_price_text t)
   /\ existsb Unicode.isdigit (clean_price_text t) = true)
  /\ ((forall c, In c t -> Unicode.isdigit c = true -> Unicode.isdecimal c = true) ->
      exists price, price_of_text t = inr price).
Proof.
  intros Hdigit. split.
  - split; [apply cleaned_normalized|].
    now rewrite cleaned_digits.
  - intros Hdec.
    assert (Hsome : existsb Unicode.isdecimal t = true).
    { apply existsb_exists in Hdigit as (c & Hin & Hc).
      apply existsb_exists. exists c. auto. }
    destruct (py_float_some (clean_price_text t)) as [v Hv].
    + apply cleaned_count.
    + apply List.Forall_forall. intros c Hc.
      apply cleaned_chars in Hc as [Hc|[Hc Hin]]; auto.
    + rewrite cleaned_digits; [exact Hsome | apply isdecimal_isdigit].
    + unfold price_of_text. rewrite Hv. destruct (_ && _); eauto.
Qed.

Lemma decimal_digits_always_parse_witness :
  existsb Unicode.isdigit (euro :: py " 38,99") = true
  /\ (forall c, In c (euro :: py " 38,99") ->
                Unicode.isdigit c = true -> Unicode.isdecimal c = true)
  /\ exists price, price_of_text (euro :: py " 38,99") = inr price.
Proof.
  assert (H1 : existsb Unicode.isdigit (euro :: py " 38,99") = true)
    by (vm_compute; reflexivity).
  assert (H2 : forall c, In c (euro :: py " 38,99") ->
                         Unicode.isdigit c = true -> Unicode.isdecimal c = true).
  { intros c Hin.
    assert (Hall : forallb (fun c => implb (Unicode.isdigit c) (Unicode.isdecimal c))
                     (euro :: py " 38,99") = true) by (vm_compute; reflexivity).
    rewrite forallb_forall in Hall. specialize (Hall c Hin).
    intros Hd. rewrite Hd in Hall. exact Hall. }
  split; [exact H1|]. split; [exact H2|].
  exact (proj2 (decimal_digits_always_parse _ H1) H2).
Defined.

(** ** The retry gate *)

Lemma handle_retry_run url st :
  _handle_retry url st
  = let c := S (counter st url) in
    (Returns (negb (3 <=? c)),
     mkBot (<[url := if 3 <=? c then 0 else c]> (retry_count st))
           (requests st)
           (sleeps st ++ [Backoff (backoff_delay c)])).
Proof.
  unfold _handle_retry, counter, bind, has_count, read_count, write_count,
    time_sleep, ret.
  destruct st as [rc rq sl]. cbn [retry_count requests sleeps].
  destruct (rc !! url) as [c|] eqn:Hc; cbn [default from_option id].
  - rewrite bool_decide_eq_true_2 by eauto.
    cbn [negb retry_count requests sleeps]. rewrite Hc.
    cbn [retry_count requests sleeps]. rewrite lookup_insert_eq.
    cbn [retry_count requests sleeps]. rewrite lookup_insert_eq.
    rewrite Nat.add_1_r.
    destruct (3 <=? S c); cbn [negb retry_count requests sleeps];
      [rewrite insert_insert_eq|]; reflexivity.
  - rewrite bool_decide_eq_false_2 by (intros [? ?]; discriminate).
    cbn [negb retry_count requests sleeps]. rewrite lookup_insert_eq.
    cbn [retry_count requests sleeps]. rewrite lookup_insert_eq.
    cbn [retry_count requests sleeps]. rewrite lookup_insert_eq.
    cbn [Nat.add Nat.leb negb]. now rewrite insert_insert_eq.
Qed.

Lemma handle_retry_counter url st u :
  retry_count (snd (_handle_retry url st)) !! u
  = if decide (url = u)
    then Some (if 3 <=? S (counter st url) then 0 else S (counter st url))
    else retry_count st !! u.
Proof.
  rewrite handle_retry_run. cbn [snd retry_count]. apply lookup_insert.
Qed.

(** ** One attempt *)

Section Attempt.

Variable E : env.

Lemma get_price_try_run
  (self : string -> M (option (PyFloat.float * text))) url st :
  get_price_try E self url st
  = match http_get E (S (List.length (requests st))) url with
    | Responds r => after_fetch E self url r (attempted E url st)
    | Fails e => (Raises e, attempted E url st)
    end.
Proof.
  unfold get_price_try, attempted, warm_up_sleeps, bind, try_except,
    session_get, time_sleep, ret.
  destruct st as [rc rq sl]. cbn [retry_count requests sleeps].
  destruct (http_get E (List.length rq) homepage);
    cbn [retry_count requests sleeps];
    rewrite List.length_app, Nat.add_1_r, <- !List.app_assoc;
    cbn [List.length List.app];
    destruct (http_get E (S (List.length rq)) url); reflexivity.
Qed.

(** Lines 157-244 either raise, and then nothing has changed, or return
    the price and the name with the counter of the URL reset. *)
Lemma read_page_run url r st :
  (exists e, read_page E url r st = (Raises e, st))
  \/ (exists found,
         read_page E url r st
         = (Returns (Some found),
            mkBot (<[url := 0]> (retry_count st)) (requests st) (sleeps st))).
Proof.
  unfold read_page, bind, raise_for_status, debug_dump, of_sum, write_count,
    raise, ret.
  destruct (_ && _)%bool; [left; eauto|].
  destruct (captcha_detected E r); [left; eauto|].
  destruct (html_parser E (body r)) as [e|soup]; [left; eauto|].
  destruct (debug_mode E).
  - destruct (debug_write E (body r)); [left; eauto|].
    destruct (extract soup); [left; eauto | right; eauto].
  - destruct (extract soup); [left; eauto | right; eauto].
Qed.

Lemma get_price_within_S b url st :
  get_price_within E (S b) url st
  = match get_price_try E (get_price_within E b) url st with
    | (Raises e, st') => (Returns None, st')
    | r => r
    end.
Proof. reflexivity. Qed.

(** What a call leaves in the dictionary and how it ends. *)
Lemma get_price_within_outcome b url st r st' :
  get_price_within E b url st = (r, st') ->
  (forall u, u <> url -> retry_count st' !! u = retry_count st !! u)
  /\ (retry_count st' !! url = retry_count st !! url
      \/ exists c, retry_count st' !! url = Some c /\ c <= 2)
  /\ (forall e, r <> Raises e)
  /\ (forall found, r = Returns (Some found) -> retry_count st' !! url = Some 0)
  /\ (r = Diverges -> b < calls_needed st url).
Proof.
  revert st r st'. induction b as [|b IH]; intros st r st' Hrun.
  - cbn in Hrun. injection Hrun as <- <-.
    repeat split; auto; try discriminate.
    intros _. unfold calls_needed. lia.
  - rewrite get_price_within_S, get_price_try_run in Hrun.
    assert (Hsame : retry_count (attempted E url st) = retry_count st) by reflexivity.
    destruct (http_get E (S (List.length (requests st))) url) as [resp|e].
    2:{ injection Hrun as <- <-. rewrite Hsame.
        repeat split; auto; discriminate. }
    unfold after_fetch in Hrun.
    destruct (status_code resp =? 403)%Z.
    + unfold bind in Hrun.
      pose proof (handle_retry_counter url (attempted E url st)) as Hcount.
      rewrite handle_retry_run in Hrun, Hcount. cbv zeta in Hrun, Hcount.
      cbn [snd] in Hcount.
      change (counter (attempted E url st) url) with (counter st url) in *.
      set (st1 := mkBot _ _ _) in Hrun, Hcount.
      assert (Hother : forall u, u <> url -> retry_count st1 !! u = retry_count st !! u).
      { intros u Hu. rewrite Hcount. now destruct (decide (url = u)); [subst|]. }
      assert (Hurl : retry_count st1 !! url
                     = Some (if 3 <=? S (counter st url) then 0 else S (counter st url))).
      { rewrite Hcount. now destruct (decide (url = url)). }
      destruct (3 <=? S (counter st url)) eqn:Hc; cbn [negb] in Hrun.
      * unfold raise in Hrun. injection Hrun as <- <-.
        repeat split; auto; try discriminate.
        right. exists 0. split; [exact Hurl | lia].
      * apply Nat.leb_gt in Hc.
        destruct (get_price_within E b url st1) as [r1 st2] eqn:Hrec.
        destruct (IH _ _ _ Hrec) as (I1 & I2 & I3 & I4 & I5).
        assert (Hr : (r, st') = (r1, st2)).
        { destruct r1; [congruence | now destruct (I3 e) | congruence]. }
        injection Hr as -> ->.
        split; [intros u Hu; now rewrite I1, Hother|].
        split.
        { right. destruct I2 as [I2|I2]; [|exact I2].
          exists (S (counter st url)). rewrite I2, Hurl. split; [reflexivity | lia]. }
        split; [exact I3|]. split; [exact I4|].
        intros Hd. specialize (I5 Hd). unfold calls_needed in *.
        assert (Hc1 : counter st1 url = S (counter st url))
          by (unfold counter at 1; now rewrite Hurl).
        rewrite Hc1 in I5. lia.
    + destruct (read_page_run url resp (attempted E url st)) as [[e He]|[found Hf]].
      * rewrite He in Hrun. injection Hrun as <- <-. rewrite Hsame.
        repeat split; auto; discriminate.
      * rewrite Hf in Hrun. injection Hrun as <- <-. cbn [retry_count].
        split; [intros u Hu; now rewrite lookup_insert_ne|].
        rewrite lookup_insert_eq.
        split; [right; exists 0; split; [reflexivity | lia]|].
        repeat split; auto; discriminate.
Qed.

(** A larger budget changes nothing once the call has ended. *)
Lemma get_price_within_more b url st r st' :
  get_price_within E b url st = (r, st') -> r <> Diverges ->
  get_price_within E (S b) url st = (r, st').
Proof.
  revert st r st'. induction b as [|b IH]; intros st r st' Hrun Hr.
  - cbn in Hrun. congruence.
  - rewrite get_price_within_S, get_price_try_run in *.
    destruct (http_get E (S (List.length (requests st))) url) as [resp|e];
      [|exact Hrun].
    unfold after_fetch in *.
    destruct (status_code resp =? 403)%Z; [|exact Hrun].
    unfold bind in *. rewrite handle_retry_run in *. cbv zeta in *.
    destruct (negb _); [|exact Hrun].
    set (st1 := mkBot _ _ _) in *.
    destruct (get_price_within E b url st1) as [r1 st2] eqn:Hrec.
    assert (Hr1 : r1 <> Diverges).
    { intros ->. injection Hrun as <- <-. congruence. }
    now rewrite (IH _ _ _ Hrec Hr1).
Qed.

Lemma get_price_budget budget url st :
  3 <= budget ->
  get_price_within E budget url st = get_price E url st.
Proof.
  intros H. unfold get_price.
  destruct (get_price_within E 3 url st) as [r st'] eqn:Hrun.
  assert (Hr : r <> Diverges).
  { intros ->.
    destruct (get_price_within_outcome _ _ _ _ _ Hrun) as (_ & _ & _ & _ & Hd).
    specialize (Hd eq_refl). unfold calls_needed in Hd. lia. }
  induction H as [|b Hb IHb]; [exact Hrun|].
  now apply get_price_within_more.
Qed.

End Attempt.

(** ** The claims about the retry gate and the orchestrator *)

(** C5. Each call of [_handle_retry] increments the counter of the URL,
    sleeps min(300, 30 * 2^(counter-1)) seconds, and returns false with the
    counter reset to 0 exactly when the counter has reached 3, true
    otherwise. From a counter at 0, three calls in a row return true, true,
    false, sleep 30, 60 and 120 seconds and leave the counter at 0. A call
    of [get_price] that returns a price leaves the counter of its URL at
    0. *)
Theorem retry_gate_contract :
  (forall url st,
      let c := S (counter st url) in
      _handle_retry url st
      = (Returns (negb (3 <=? c)),
         mkBot (<[url := if 3 <=? c then 0 else c]> (retry_count st))
               (requests st)
               (sleeps st ++ [Backoff (Z.min 300 (30 * 2 ^ (Z.of_nat c - 1)))])))
  /\ (forall url st,
         counter st url = 0 ->
         let r1 := _handle_retry url st in
         let r2 := _handle_retry url (snd r1) in
         let r3 := _handle_retry url (snd r2) in
         fst r1 = Returns true /\ fst r2 = Returns true /\ fst r3 = Returns false
         /\ retry_count (snd r3) !! url = Some 0
         /\ sleeps (snd r3) = sleeps st ++ [Backoff 30; Backoff 60; Backoff 120])
  /\ (forall E url st found st',
         get_price E url st = (Returns (Some found), st') ->
         retry_count st' !! url = Some 0).
Proof.
  split; [|split].
  - intros url st. apply handle_retry_run.
  - intros url st H0. cbv zeta.
    assert (H1 : counter (snd (_handle_retry url st)) url = 1).
    { unfold counter. rewrite handle_retry_counter, H0.
      now destruct (decide (url = url)). }
    assert (H2 : counter (snd (_handle_retry url (snd (_handle_retry url st)))) url = 2).
    { unfold counter at 1. rewrite handle_retry_counter, H1.
      now destruct (decide (url = url)). }
    split; [now rewrite handle_retry_run, H0|].
    split; [now rewrite (handle_retry_run url (snd _)), H1|].
    split; [now rewrite (handle_retry_run url (snd (_handle_retry url (snd _)))), H2|].
    split.
    + rewrite handle_retry_counter, H2. now destruct (decide (url = url)).
    + rewrite (handle_retry_run url (snd (_handle_retry url (snd _)))), H2.
      cbn [snd sleeps]. rewrite (handle_retry_run url (snd _)), H1.
      cbn [snd sleeps]. rewrite handle_retry_run, H0.
      cbn [snd sleeps]. rewrite <- !List.app_assoc. reflexivity.
  - intros E url st found st' Hrun.
    destruct (get_price_within_outcome E _ _ _ _ _ Hrun) as (_ & _ & _ & H & _).
    exact (H found eq_refl).
Qed.

Lemma retry_gate_contract_witness :
  counter init Sample.url = 0
  /\ fst (_handle_retry Sample.url init) = Returns true
  /\ get_price (Sample.always (Sample.page 200 Sample.shop_page) Sample.legacy_page)
       Sample.url init
     = (Returns (Some (PyFloat.of_decimal 3899 2, py "Leren sneakers laag wit")),
        mkBot {[Sample.url := 0]} [homepage; Sample.url] [Jitter 2 4; Jitter 10 20])
  /\ ({[Sample.url := 0]} : gmap string nat) !! Sample.url = Some 0.
Proof.
  assert (H0 : counter init Sample.url = 0) by reflexivity.
  assert (Hrun : get_price
                   (Sample.always (Sample.page 200 Sample.shop_page) Sample.legacy_page)
                   Sample.url init
                 = (Returns (Some (PyFloat.of_decimal 3899 2, py "Leren sneakers laag wit")),
                    mkBot {[Sample.url := 0]} [homepage; Sample.url]
                          [Jitter 2 4; Jitter 10 20]))
    by (vm_compute; reflexivity).
  split; [exact H0|].
  split; [exact (proj1 (proj1 (proj2 retry_gate_contract) Sample.url init H0))|].
  split; [exact Hrun|].
  exact (proj2 (proj2 retry_gate_contract) _ _ _ _ _ Hrun).
Defined.

(** C6. [get_price] never raises: for every URL, every state and every
    environment it returns, with a price and a name or with nothing. Three
    nested calls are enough for that, a larger bound changes nothing, and
    whatever the [try] block raises is turned into the empty result. *)
Theorem get_price_never_raises (E : env) (url : string) (st : bot) :
  exists result st',
    get_price E url st = (Returns result, st')
    /\ (forall budget, 3 <= budget ->
          get_price_within E budget url st = (Returns result, st'))
    /\ (forall budget e st1,
          get_price_try E (get_price_within E budget) url st = (Raises e, st1) ->
          get_price_within E (S budget) url st = (Returns None, st1)).
Proof.
  destruct (get_price E url st) as [r st'] eqn:Hrun.
  destruct (get_price_within_outcome E _ _ _ _ _ Hrun) as (_ & _ & Hraise & _ & Hdiv).
  destruct r as [result|e|].
  - exists result, st'. split; [reflexivity|]. split.
    + intros budget Hb. now rewrite get_price_budget.
    + intros budget e st1 Htry. now rewrite get_price_within_S, Htry.
  - now destruct (Hraise e).
  - specialize (Hdiv eq_refl). unfold calls_needed in Hdiv. lia.
Qed.

Lemma get_price_never_raises_witness :
  get_price (Sample.always (Sample.page 403 []) Sample.legacy_page) Sample.url init
  = (Returns None,
     mkBot {[Sample.url := 0]}
       [homepage; Sample.url; homepage; Sample.url; homepage; Sample.url]
       [Jitter 2 4; Jitter 10 20; Backoff 30;
        Jitter 2 4; Jitter 10 20; Backoff 60;
        Jitter 2 4; Jitter 10 20; Backoff 120])
  /\ exists result st',
       get_price_within (Sample.always (Sample.page 403 []) Sample.legacy_page)
         7 Sample.url init = (Returns result, st').
Proof.
  split; [vm_compute; reflexivity|].
  destruct (get_price_never_raises
              (Sample.always (Sample.page 403 []) Sample.legacy_page)
              Sample.url init) as (result & st' & _ & H & _).
  exists result, st'. apply H. lia.
Defined.

(** C7. When the answer to the request for the page is not a 403 and
    contains the CAPTCHA marker, [get_price] returns nothing after that one
    request (and the one for the home page before it): [_handle_retry] is
    not called, so the counters are as before and no back-off sleep is
    taken. *)
Theorem captcha_is_terminal (E : env) (url : string) (st : bot) (r : response) :
  http_get E (S (List.length (requests st))) url = Responds r ->
  status_code r <> 403%Z ->
  captcha_detected E r = true ->
  exists st',
    get_price E url st = (Returns None, st')
    /\ retry_count st' = retry_count st
    /\ requests st' = requests st ++ [homepage; url]
    /\ exists warm_up,
         sleeps st' = sleeps st ++ warm_up ++ [Jitter (MIN_DELAY E) (MAX_DELAY E)]
         /\ (warm_up = [] \/ warm_up = [Jitter 2 4]).
Proof.
  intros Hget Hstatus Hcaptcha. exists (attempted E url st).
  split; [|split; [reflexivity|split; [reflexivity|]]].
  - unfold get_price. rewrite get_price_within_S, get_price_try_run, Hget.
    unfold after_fetch. apply Z.eqb_neq in Hstatus. rewrite Hstatus.
    unfold read_page, bind, raise_for_status, raise, ret.
    destruct (_ && _)%bool; [reflexivity|]. now rewrite Hcaptcha.
  - exists (warm_up_sleeps E st). split; [reflexivity|].
    unfold warm_up_sleeps. destruct (http_get E _ homepage); auto.
Qed.

Lemma captcha_is_terminal_witness :
  let E := Sample.always (Sample.page 200 Sample.captcha_page) Sample.legacy_page in
  captcha_detected E (mkResponse 200 Sample.captcha_page) = true
  /\ get_price E Sample.url init
     = (Returns None,
        mkBot ∅ [homepage; Sample.url] [Jitter 2 4; Jitter 10 20])
  /\ exists st', get_price E Sample.url init = (Returns None, st')
                 /\ retry_count st' = retry_count init.
Proof.
  intros E.
  assert (H : captcha_detected E (mkResponse 200 Sample.captcha_page) = true)
    by (vm_compute; reflexivity).
  split; [exact H|]. split; [vm_compute; reflexivity|].
  destruct (captcha_is_terminal E Sample.url init
              (mkResponse 200 Sample.captcha_page) eq_refl
              ltac:(cbn; discriminate) H) as (st' & H1 & H2 & _).
  exists st'. split; assumption.
Defined.

(** C10. In every state that a bot reaches, whatever calls of
    [_handle_retry] and [get_price] led to it, the stored counter of every
    URL is at most 2. *)
Theorem retry_counter_bounded (E : env) (st : bot) :
  reachable E st ->
  forall url c, retry_count st !! url = Some c -> c <= 2.
Proof.
  induction 1 as [|st url0 _ IH|st url0 _ IH]; intros url c Hc.
  - cbn in Hc. rewrite lookup_empty in Hc. discriminate.
  - rewrite handle_retry_counter in Hc.
    destruct (decide (url0 = url)); [|now apply (IH url)].
    injection Hc as <-.
    destruct (counter st url0) as [|[|n]]; cbn; lia.
  - destruct (get_price E url0 st) as [r st'] eqn:Hrun. cbn [snd] in Hc.
    destruct (get_price_within_outcome E _ _ _ _ _ Hrun) as (Hother & Hurl & _).
    destruct (decide (url = url0)) as [->|Hne].
    + destruct Hurl as [Hsame|(c' & Hc' & Hle)].
      * rewrite Hsame in Hc. now apply (IH url0).
      * congruence.
    + rewrite (Hother url Hne) in Hc. now apply (IH url).
Qed.

Lemma retry_counter_bounded_witness :
  let E := Sample.always (Sample.page 403 []) Sample.legacy_page in
  let st := snd (_handle_retry Sample.url (snd (get_price E Sample.url init))) in
  reachable E st
  /\ retry_count st !! Sample.url = Some 1
  /\ forall url c, retry_count st !! url = Some c -> c <= 2.
Proof.
  intros E st.
  assert (H : reachable E st) by (do 2 constructor; constructor).
  split; [exact H|]. split; [vm_compute; reflexivity|].
  exact (retry_counter_bounded E st H).
Defined.

(** ** The fallback chain of the price selectors *)

Lemma first_price_like_app doc sels1 sels2 :
  first_price_like doc (sels1 ++ sels2)
  = match first_price_like doc sels1 with
    | Some e => Some e
    | None => first_price_like doc sels2
    end.
Proof.
  induction sels1 as [|sel sels1 IH]; [reflexivity|].
  cbn [List.app first_price_like].
  destruct (List.find price_like (Soup.find_all doc sel)); [reflexivity | exact IH].
Qed.

Lemma first_price_like_some doc sels e :
  first_price_like doc sels = Some e ->
  exists sel, In sel sels /\ In e (Soup.find_all doc sel) /\ price_like e = true.
Proof.
  induction sels as [|sel sels IH]; [discriminate|].
  cbn [first_price_like].
  destruct (List.find price_like (Soup.find_all doc sel)) as [x|] eqn:Hfind.
  - intros [= ->]. apply List.find_some in Hfind as [Hin Hp].
    exists sel. cbn [In]. auto.
  - intros H. destruct (IH H) as (sel' & Hin & He). exists sel'. cbn [In]. auto.
Qed.

Lemma first_price_like_none doc sels sel x :
  first_price_like doc sels = None ->
  In sel sels -> In x (Soup.find_all doc sel) -> price_like x = false.
Proof.
  induction sels as [|sel0 sels IH]; [intros _ []|].
  cbn [first_price_like].
  destruct (List.find price_like (Soup.find_all doc sel0)) as [y|] eqn:Hfind;
    [discriminate|].
  intros Hnone [->|Hin] Hx.
  - exact (List.find_none _ _ Hfind x Hx).
  - now apply IH.
Qed.

(** C8. When no data-testid price selector matches anything and a
    class-name price selector matches an element whose text has the euro
    sign and a digit, the chain of lines 205-213 finds a price element: the
    first such element of the first class-name selector that has one (the
    element itself when it is the only one), and its text is what the
    extractor reads the price from. *)
Theorem legacy_selector_fallback (doc : Soup.soup) (sel : Soup.selector)
  (e : Soup.node) :
  (forall s, In s semantic_price_selectors -> Soup.find_all doc s = []) ->
  In sel legacy_price_selectors ->
  In e (Soup.find_all doc sel) ->
  price_like e = true ->
  exists sel' e',
    find_price_element doc = Some e'
    /\ first_price_like doc legacy_price_selectors = Some e'
    /\ In sel' legacy_price_selectors
    /\ In e' (Soup.find_all doc sel')
    /\ price_like e' = true
    /\ ((forall s x, In s legacy_price_selectors -> In x (Soup.find_all doc s) ->
                     price_like x = true -> x = e) -> e' = e)
    /\ extract doc
       = match find_name_element doc with
         | None => inl (ValueError "Product name not found")
         | Some name_element =>
             match price_of_text (Soup.get_text e') with
             | inl err => inl err
             | inr price => inr (price, PyStr.strip (Soup.get_text name_element))
             end
         end.
Proof.
  intros Hsem Hsel He Hlike.
  destruct (first_price_like doc legacy_price_selectors) as [e'|] eqn:Hfirst.
  2:{ rewrite (first_price_like_none _ _ _ _ Hfirst Hsel He) in Hlike. discriminate. }
  assert (Hfound : find_price_element doc = Some e').
  { unfold find_price_element.
    change price_selectors
      with ([("span", [("data-testid", "product-price")])]%string
              ++ legacy_price_selectors ++ [("p", [("data-testid", "price")])]%string).
    rewrite !first_price_like_app, Hfirst. cbn [first_price_like].
    rewrite (Hsem ("span", [("data-testid", "product-price")])%string)
      by (cbn; auto).
    reflexivity. }
  destruct (first_price_like_some _ _ _ Hfirst) as (sel' & Hsel' & He' & Hlike').
  exists sel', e'. repeat split; auto.
  - intros Hunique. now apply (Hunique sel' e').
  - unfold extract. now rewrite Hfound.
Qed.

Lemma legacy_selector_fallback_witness :
  let sel : Soup.selector := ("span", [("class", "sDq_FX")])%string in
  let e := Sample.price_span "sDq_FX" (euro :: py " 38,99") in
  (forall s, In s semantic_price_selectors -> Soup.find_all Sample.legacy_page s = [])
  /\ In sel legacy_price_selectors
  /\ In e (Soup.find_all Sample.legacy_page sel)
  /\ price_like e = true
  /\ find_price_element Sample.legacy_page = Some e
  /\ exists sel' e', find_price_element Sample.legacy_page = Some e'
                     /\ In e' (Soup.find_all Sample.legacy_page sel')
                     /\ price_like e' = true.
Proof.
  intros sel e.
  assert (H1 : forall s, In s semantic_price_selectors ->
                         Soup.find_all Sample.legacy_page s = []).
  { intros s [<-|[<-|[]]]; vm_compute; reflexivity. }
  assert (H2 : In sel legacy_price_selectors) by (left; reflexivity).
  assert (H3 : In e (Soup.find_all Sample.legacy_page sel))
    by (vm_compute; left; reflexivity).
  assert (H4 : price_like e = true) by (vm_compute; reflexivity).
  split; [exact H1|]. split; [exact H2|]. split; [exact H3|]. split; [exact H4|].
  split; [vm_compute; reflexivity|].
  destruct (legacy_selector_fallback Sample.legacy_page sel e H1 H2 H3 H4)
    as (sel' & e' & Hf & _ & _ & Hin & Hl & _).
  exists sel', e'. auto.
Defined.

(** * Further properties of the code *)

(** ** What the price depends on *)

Lemma keep_char_separator c :
  keep_char (if (c =? comma)%N then dot else c) = keep_char c.
Proof.
  destruct (N.eqb_spec c comma) as [->|_]; [vm_compute|]; reflexivity.
Qed.

Lemma separated_filter t :
  separated t = List.filter keep_char (PyStr.replace comma dot t).
Proof.
  unfold separated, PyStr.replace. rewrite filter_strip.
  induction t as [|c t IH]; [reflexivity|].
  cbn [List.filter List.map]. rewrite keep_char_separator.
  destruct (keep_char c); cbn [List.map]; now rewrite IH.
Qed.

(** X1. The price read from a text depends only on its digits, points and
    commas, in their order, and not on which of the two separators stands
    where: two texts that agree on those give the same result. *)
Theorem price_depends_on_digits_and_separators (t1 t2 : text) :
  List.filter keep_char (PyStr.replace comma dot t1)
  = List.filter keep_char (PyStr.replace comma dot t2) ->
  price_of_text t1 = price_of_text t2.
Proof.
  intros H. unfold price_of_text.
  rewrite !clean_price_text_unfold, !separated_filter, H. reflexivity.
Qed.

Lemma price_depends_on_digits_and_separators_witness :
  price_of_text (euro :: py " 1.234,56") = price_of_text (py "1,234.56 EUR")
  /\ price_of_text (py "1,234.56 EUR") = inr (PyFloat.of_decimal 123456 2).
Proof.
  split; [|vm_compute; reflexivity].
  apply price_depends_on_digits_and_separators. vm_compute; reflexivity.
Defined.

(** ** When the number cannot be read *)

Lemma digits_value_decimal t acc n :
  PyFloat.digits_value acc t = Some n ->
  Forall (fun c => Unicode.isdecimal c = true) t.
Proof.
  revert acc. induction t as [|c t IH]; intros acc; [constructor|].
  cbn [PyFloat.digits_value]. unfold Unicode.isdecimal.
  destruct (Unicode.decimal_value c) eqn:Hc; [|discriminate].
  intros H. constructor; [now rewrite Hc | eapply IH, H].
Qed.

Lemma py_float_chars s v :
  PyFloat.py_float s = Some v ->
  (forall c, In c s -> c = dot \/ Unicode.isdecimal c = true)
  /\ existsb Unicode.isdecimal s = true.
Proof.
  unfold PyFloat.py_float. intros H.
  pose proof (split_concat dot s) as Hcat.
  assert (Hds : Forall (fun c => Unicode.isdecimal c = true)
                  (List.concat (PyStr.split dot s))
                /\ List.concat (PyStr.split dot s) <> []).
  { destruct (PyStr.split dot s) as [|w [|f [|]]]; try discriminate;
      cbn [List.concat]; rewrite List.app_nil_r.
    - destruct w as [|c w]; [discriminate|].
      destruct (PyFloat.digits_value 0 (c :: w)) eqn:Hd; [|discriminate].
      split; [eapply digits_value_decimal, Hd | discriminate].
    - destruct (w ++ f) as [|c l] eqn:Hwf; [discriminate|].
      destruct (PyFloat.digits_value 0 (c :: l)) eqn:Hd; [|discriminate].
      split; [eapply digits_value_decimal, Hd | discriminate]. }
  rewrite Hcat in Hds. destruct Hds as [Hall Hne].
  rewrite List.Forall_forall in Hall. split.
  - intros c Hc. destruct (N.eqb_spec c dot) as [->|Hne']; [now left|right].
    apply Hall, List.filter_In. split; [exact Hc|].
    apply negb_true_iff, N.eqb_neq. exact Hne'.
  - destruct (List.filter _ s) as [|c l] eqn:Hf; [congruence|].
    assert (Hc : In c (List.filter (fun c : char => negb (c =? dot)%N) s))
      by (rewrite Hf; now left).
    apply existsb_exists. exists c. split.
    + now apply List.filter_In in Hc.
    + apply Hall. now left.
Qed.

Lemma digit_survives t c :
  In c t -> Unicode.isdigit c = true -> In c (clean_price_text t).
Proof.
  intros Hin Hd.
  assert (Hdot : c <> dot) by (intros ->; rewrite dot_not_digit in Hd; discriminate).
  assert (Hcomma : c <> comma)
    by (intros ->; rewrite comma_not_digit in Hd; discriminate).
  assert (Hsep : In c (separated t)).
  { rewrite separated_filter. apply List.filter_In. split.
    - unfold PyStr.replace. apply in_map_iff. exists c.
      split; [|exact Hin]. now destruct (N.eqb_spec c comma).
    - apply keep_char_cases. now left. }
  rewrite clean_price_text_unfold.
  destruct (1 <? PyStr.count dot (separated t)); [|exact Hsep].
  unfold PyStr.join. rewrite in_app_iff. cbn [In].
  assert (H : In c (List.concat (PyStr.split dot (separated t)))).
  { rewrite split_concat. apply List.filter_In. split; [exact Hsep|].
    apply negb_true_iff, N.eqb_neq. exact Hdot. }
  rewrite <- (concat_removelast_last _ (split_not_nil dot (separated t))) in H.
  apply in_app_iff in H as [H|H]; auto.
Qed.

(** X2. The number is read exactly when the text has a digit and every
    character that [str.isdigit] accepts in it is a decimal digit; in every
    other case [float] raises its [ValueError], whatever else the text
    holds. *)
Theorem price_of_text_succeeds_iff (t : text) :
  ((exists price, price_of_text t = inr price)
   <-> existsb Unicode.isdigit t = true
       /\ forall c, In c t -> Unicode.isdigit c = true -> Unicode.isdecimal c = true)
  /\ forall e, price_of_text t = inl e ->
               e = ValueError "could not convert string to float".
Proof.
  split; [split|].
  - intros [price Hp]. unfold price_of_text in Hp.
    destruct (PyFloat.py_float (clean_price_text t)) as [v|] eqn:Hv; [|discriminate].
    destruct (py_float_chars _ _ Hv) as [Hchars Hsome]. split.
    + rewrite cleaned_digits in Hsome by apply isdecimal_isdigit.
      apply existsb_exists in Hsome as (c & Hin & Hc).
      apply existsb_exists. exists c. split; [exact Hin | now apply isdecimal_isdigit].
    + intros c Hin Hd.
      destruct (Hchars c (digit_survives t c Hin Hd)) as [->|H]; [|exact H].
      rewrite dot_not_digit in Hd. discriminate.
  - intros [Hdigit Hdec].
    assert (Hsome : existsb Unicode.isdecimal t = true).
    { apply existsb_exists in Hdigit as (c & Hin & Hc).
      apply existsb_exists. exists c. auto. }
    destruct (py_float_some (clean_price_text t)) as [v Hv].
    + apply cleaned_count.
    + apply List.Forall_forall. intros c Hc.
      apply cleaned_chars in Hc as [Hc|[Hc Hin]]; auto.
    + rewrite cleaned_digits; [exact Hsome | apply isdecimal_isdigit].
    + unfold price_of_text. rewrite Hv. destruct (_ && _); eauto.
  - unfold price_of_text. intros e.
    destruct (PyFloat.py_float (clean_price_text t)).
    + destruct (_ && _); discriminate.
    + now intros [= <-].
Qed.

Lemma price_of_text_succeeds_iff_witness :
  price_of_text (py "gratis") = inl (ValueError "could not convert string to float")
  /\ existsb Unicode.isdigit (py "gratis") = false.
Proof.
  assert (H : price_of_text (py "gratis")
              = inl (ValueError "could not convert string to float"))
    by (vm_compute; reflexivity).
  split; [exact H|].
  destruct (existsb Unicode.isdigit (py "gratis")) eqn:Hd; [|reflexivity].
  assert (Hall : forall c, In c (py "gratis") ->
                           Unicode.isdigit c = true -> Unicode.isdecimal c = true).
  { intros c Hin Hc. apply existsb_exists in Hd as _.
    assert (Hno : forallb (fun c => negb (Unicode.isdigit c)) (py "gratis") = true)
      by (vm_compute; reflexivity).
    rewrite forallb_forall in Hno. apply Hno in Hin. rewrite Hc in Hin. discriminate. }
  destruct (proj2 (proj1 (price_of_text_succeeds_iff (py "gratis")))
              (conj Hd Hall)) as [price Hp].
  rewrite H in Hp. discriminate.
Defined.

(** ** Reading back a formatted price *)

Lemma ascii_digit_facts c :
  (48 <= c <= 57)%N ->
  Unicode.isdecimal c = true /\ Unicode.isspace c = false
  /\ c <> dot /\ c <> comma.
Proof.
  intros H.
  assert (Hin : In c (Unicode.expand (48, 57)%N)).
  { apply in_range_expand. unfold Unicode.in_range. cbn [fst snd].
    apply andb_true_iff. split; apply N.leb_le; lia. }
  assert (Hall : forallb
                   (fun c => Unicode.isdecimal c && negb (Unicode.isspace c)
                             && negb (c =? dot)%N && negb (c =? comma)%N)
                   (Unicode.expand (48, 57)%N) = true) by (vm_compute; reflexivity).
  rewrite forallb_forall in Hall. specialize (Hall c Hin).
  rewrite !andb_true_iff, !negb_true_iff, !N.eqb_neq in Hall. tauto.
Qed.

Lemma digit_char_value d :
  (d < 10)%N -> Unicode.decimal_value (PyFormat.digit_char d) = Some d.
Proof.
  intros H.
  assert (Hin : In d (Unicode.expand (0, 9)%N)).
  { apply in_range_expand. unfold Unicode.in_range. cbn [fst snd].
    apply andb_true_iff. split; apply N.leb_le; lia. }
  cbv in Hin. repeat (destruct Hin as [<-|Hin]; [vm_compute; reflexivity|]).
  destruct Hin.
Qed.

Lemma digit_char_ascii d : (d < 10)%N -> (48 <= PyFormat.digit_char d <= 57)%N.
Proof. unfold PyFormat.digit_char. lia. Qed.

Lemma of_uint_acc_value l p :
  Npos (Pos.of_uint_acc l p)
  = (Npos p * 10 ^ N.of_nat (Decimal.nb_digits l) + Pos.of_uint l)%N.
Proof.
  revert p. induction l as [|l IH|l IH|l IH|l IH|l IH|l IH|l IH|l IH|l IH|l IH];
    intros p;
    cbn [Pos.of_uint_acc Pos.of_uint Decimal.nb_digits];
    [rewrite N.mul_1_r; reflexivity
    | (rewrite ?IH, Nnat.Nat2N.inj_succ, N.pow_succ_r'; lia)..].
Qed.

Lemma digits_value_uint d acc :
  PyFloat.digits_value acc (PyFormat.uint_text d)
  = Some (acc * 10 ^ N.of_nat (Decimal.nb_digits d) + Pos.of_uint d)%N.
Proof.
  revert acc.
  induction d as [|l IH|l IH|l IH|l IH|l IH|l IH|l IH|l IH|l IH|l IH];
    intros acc;
    cbn [PyFormat.uint_text PyFloat.digits_value Pos.of_uint Decimal.nb_digits];
    [f_equal; rewrite N.mul_1_r, N.add_0_r; reflexivity|
     (rewrite digit_char_value by lia;
      rewrite IH, ?of_uint_acc_value, Nnat.Nat2N.inj_succ, N.pow_succ_r';
      f_equal; lia)..].
Qed.

(** [str(n)] and the digit reader are inverse to each other. *)
Lemma digits_value_N_text n : PyFloat.digits_value 0 (PyFormat.N_text n) = Some n.
Proof.
  unfold PyFormat.N_text. rewrite digits_value_uint.
  change (Pos.of_uint (N.to_uint n)) with (N.of_uint (N.to_uint n)).
  rewrite DecimalN.Unsigned.of_to. f_equal; lia.
Qed.

Lemma uint_text_ascii d :
  Forall (fun c => (48 <= c <= 57)%N) (PyFormat.uint_text d).
Proof.
  induction d; cbn [PyFormat.uint_text]; constructor;
    try assumption; unfold PyFormat.digit_char; lia.
Qed.

Lemma digits_value_app a b acc :
  PyFloat.digits_value acc (a ++ b)
  = match PyFloat.digits_value acc a with
    | Some n => PyFloat.digits_value n b
    | None => None
    end.
Proof.
  revert acc. induction a as [|c a IH]; intros acc; [reflexivity|].
  cbn [List.app PyFloat.digits_value].
  destruct (Unicode.decimal_value c); [apply IH | reflexivity].
Qed.

Lemma split_at_separator sep a b :
  PyStr.count sep a = 0 ->
  PyStr.split sep (a ++ sep :: b) = a :: PyStr.split sep b.
Proof.
  induction a as [|c a IH]; cbn [PyStr.count List.app PyStr.split].
  - now rewrite N.eqb_refl.
  - destruct (c =? sep)%N; [discriminate|]. intros H. now rewrite (IH H).
Qed.

Lemma count_ascii_digits sep t :
  Forall (fun c => (48 <= c <= 57)%N) t -> (sep < 48 \/ 57 < sep)%N ->
  PyStr.count sep t = 0.
Proof.
  intros H Hsep. induction H as [|c t Hc _ IH]; [reflexivity|].
  cbn [PyStr.count]. destruct (N.eqb_spec c sep); [lia | exact IH].
Qed.

(** The text of a price with [q] before the point and the digits [a] and
    [b] after it. *)
Lemma two_digit_text_reads q a b :
  (a < 10)%N -> (b < 10)%N ->
  let t := PyFormat.N_text q ++ dot :: [PyFormat.digit_char a; PyFormat.digit_char b] in
  price_of_text (euro :: t) = inr (PyFloat.of_decimal (q * 100 + a * 10 + b) 2).
Proof.
  intros Ha Hb t.
  pose proof (uint_text_ascii (N.to_uint q)) as Hq. fold (PyFormat.N_text q) in Hq.
  assert (Hall : Forall (fun c => (48 <= c <= 57)%N \/ c = dot) t).
  { apply List.Forall_app. split.
    - eapply List.Forall_impl; [|exact Hq]. auto.
    - constructor; [now right|].
      constructor; [left; now apply digit_char_ascii|].
      constructor; [left; now apply digit_char_ascii | constructor]. }
  assert (Hq0 : PyStr.count dot (PyFormat.N_text q) = 0)
    by (apply count_ascii_digits; [exact Hq | left; reflexivity]).
  assert (Hab : PyStr.count dot [PyFormat.digit_char a; PyFormat.digit_char b] = 0).
  { apply count_ascii_digits; [|left; reflexivity].
    repeat constructor; now apply digit_char_ascii. }
  assert (Hcount : PyStr.count dot t = 1).
  { unfold t. rewrite count_app. cbn [PyStr.count] in *.
    change (dot =? dot)%N with true. cbv iota. lia. }
  assert (Hnorm : normalized_text t).
  { split; [|lia]. eapply List.Forall_impl; [|exact Hall].
    intros c [H|H]; [left|now right].
    now apply isdecimal_isdigit, ascii_digit_facts. }
  assert (Hclean : clean_price_text (euro :: t) = t).
  { rewrite <- (normalized_fixed t Hnorm) at 2.
    rewrite !clean_price_text_unfold, !separated_filter. reflexivity. }
  assert (Hfloat : PyFloat.py_float t
                   = Some (PyFloat.of_decimal (q * 100 + a * 10 + b) 2)).
  { unfold PyFloat.py_float, t.
    rewrite split_at_separator, split_whole by assumption.
    rewrite digits_value_app, digits_value_N_text.
    cbn [PyFloat.digits_value]. rewrite !digit_char_value by assumption.
    cbn [List.length].
    destruct (PyFormat.N_text q ++ [PyFormat.digit_char a; PyFormat.digit_char b])
      as [|c l] eqn:Hl.
    { apply (f_equal (@List.length _)) in Hl.
      rewrite List.length_app in Hl. cbn in Hl. lia. }
    do 2 f_equal. lia. }
  apply price_of_text_with_point; rewrite Hclean; [exact Hfloat|].
  rewrite contains_count, Hcount. reflexivity.
Qed.

(** X3. What [format_price] writes for a finite price that is not negative
    is read back by the normalisation as the float with two fractional
    digits that the text spells: the nearest hundredth of the price. The
    text always has a point, so it is never taken for minor units. *)
Theorem format_price_reads_back :
  (forall m e,
      price_of_text (format_price (S754_finite false m e))
      = inr (PyFloat.of_decimal (PyFormat.hundredths m e) 2))
  /\ price_of_text (format_price (S754_zero false)) = inr (PyFloat.of_decimal 0 2).
Proof.
  split; [|vm_compute; reflexivity].
  intros m e. unfold format_price, PyFormat.fixed2. cbn [List.app].
  set (k := PyFormat.hundredths m e).
  pose proof (two_digit_text_reads (k / 100) ((k / 10) mod 10) (k mod 10)) as H.
  cbv zeta in H. rewrite H by (apply N.mod_lt; discriminate).
  do 2 f_equal.
  pose proof (N.div_mod k 10 ltac:(discriminate)) as H1.
  pose proof (N.div_mod (k / 10) 10 ltac:(discriminate)) as H2.
  rewrite N.Div0.div_div in H2. change (10 * 10)%N with 100%N in H2. lia.
Qed.

(** ** Attempts, requests and sleeps of one call *)

Section Calls.

Variable E : env.

Lemma get_price_ends url st r st' :
  get_price E url st = (r, st') -> exists result, r = Returns result.
Proof.
  intros Hrun.
  destruct (get_price_within_outcome E _ _ _ _ _ Hrun) as (_ & _ & Hraise & _ & Hdiv).
  destruct r as [result|e|]; [eauto | now destruct (Hraise e) |].
  specialize (Hdiv eq_refl). unfold calls_needed in Hdiv. lia.
Qed.

Lemma handle_retry_requests url st :
  requests (snd (_handle_retry url st)) = requests st.
Proof. now rewrite handle_retry_run. Qed.

Lemma calls_needed_bounds st url : 1 <= calls_needed st url <= 3.
Proof. unfold calls_needed. lia. Qed.

Lemma get_price_within_requests b url st r st' :
  get_price_within E b url st = (r, st') -> r <> Diverges ->
  exists k, 1 <= k <= calls_needed st url
            /\ requests st' = requests st ++ attempts k url.
Proof.
  revert st r st'. induction b as [|b IH]; intros st r st' Hrun Hr.
  - cbn in Hrun. congruence.
  - pose proof (calls_needed_bounds st url) as Hneed.
    assert (Hone : requests (attempted E url st) = requests st ++ attempts 1 url)
      by reflexivity.
    rewrite get_price_within_S, get_price_try_run in Hrun.
    destruct (http_get E (S (List.length (requests st))) url) as [resp|e].
    2:{ injection Hrun as <- <-. exists 1. split; [lia | exact Hone]. }
    unfold after_fetch in Hrun.
    destruct (status_code resp =? 403)%Z.
    + unfold bind in Hrun.
      pose proof (handle_retry_counter url (attempted E url st) url) as Hcount.
      pose proof (handle_retry_requests url (attempted E url st)) as Hreq.
      rewrite handle_retry_run in Hrun, Hcount, Hreq.
      cbv zeta in Hrun, Hcount, Hreq. cbn [snd] in Hcount, Hreq.
      change (counter (attempted E url st) url) with (counter st url) in *.
      set (st1 := mkBot _ _ _) in Hrun, Hcount, Hreq.
      destruct (decide (url = url)) as [_|]; [|congruence].
      destruct (3 <=? S (counter st url)) eqn:Hc; cbn [negb] in Hrun.
      * unfold raise in Hrun. injection Hrun as <- <-.
        exists 1. split; [lia | now rewrite Hreq].
      * apply Nat.leb_gt in Hc.
        destruct (get_price_within E b url st1) as [r1 st2] eqn:Hrec.
        assert (Hr1 : r1 <> Diverges).
        { intros ->. injection Hrun as <- <-. congruence. }
        destruct (IH _ _ _ Hrec Hr1) as (k & Hk & Hreqs).
        destruct (get_price_within_outcome E _ _ _ _ _ Hrec) as (_ & _ & Hraise & _).
        assert (Hfinal : (r, st') = (r1, st2)).
        { destruct r1; [congruence | now destruct (Hraise e) | congruence]. }
        injection Hfinal as -> ->.
        assert (Hc1 : counter st1 url = S (counter st url))
          by (unfold counter at 1; now rewrite Hcount).
        exists (S k). unfold calls_needed in *. rewrite Hc1 in Hk.
        split; [lia|]. rewrite Hreqs, Hreq, Hone.
        rewrite <- List.app_assoc. reflexivity.
    + destruct (read_page_run E url resp (attempted E url st)) as [[e He]|[found Hf]].
      * rewrite He in Hrun. injection Hrun as <- <-.
        exists 1. split; [lia | exact Hone].
      * rewrite Hf in Hrun. injection Hrun as <- <-.
        exists 1. split; [lia | exact Hone].
Qed.

(** X4. One call of [get_price] makes at least one and at most three
    attempts, each a request for the home page followed by one for the
    page, and not more than the stored counter of the URL still allows. *)
Theorem get_price_attempts (url : string) (st : bot) :
  exists k,
    1 <= k <= 3 /\ k <= calls_needed st url
    /\ requests (snd (get_price E url st)) = requests st ++ attempts k url.
Proof.
  destruct (get_price E url st) as [r st'] eqn:Hrun. cbn [snd].
  destruct (get_price_ends _ _ _ _ Hrun) as [result ->].
  destruct (get_price_within_requests _ _ _ _ _ Hrun ltac:(discriminate))
    as (k & Hk & Hreq).
  pose proof (calls_needed_bounds st url).
  exists k. repeat split; try lia. exact Hreq.
Qed.

(** X5. An answer that is not a 403, or no answer at all, ends the call
    after one attempt and without a back-off sleep. Unless a price is
    returned the counters stay as they were: only a 403 counts as a
    failure, and only a price resets the count. *)
Theorem other_answers_end_the_call (url : string) (st : bot) :
  match http_get E (S (List.length (requests st))) url with
  | Responds r => status_code r <> 403%Z
  | Fails _ => True
  end ->
  exists result st',
    get_price E url st = (Returns result, st')
    /\ requests st' = requests st ++ [homepage; url]
    /\ sleeps st' = sleeps (attempted E url st)
    /\ retry_count st'
       = match result with
         | Some _ => <[url := 0]> (retry_count st)
         | None => retry_count st
         end.
Proof.
  intros Hanswer. unfold get_price.
  rewrite get_price_within_S, get_price_try_run.
  destruct (http_get E (S (List.length (requests st))) url) as [resp|e].
  - unfold after_fetch. apply Z.eqb_neq in Hanswer. rewrite Hanswer.
    destruct (read_page_run E url resp (attempted E url st)) as [[e ->]|[found ->]].
    + exists None, (attempted E url st). auto.
    + eexists (Some found), _. split; [reflexivity|]. auto.
  - exists None, (attempted E url st). auto.
Qed.

End Calls.

Lemma other_answers_end_the_call_witness :
  let E0 := Sample.always (Sample.page 500 Sample.shop_page) Sample.legacy_page in
  let st := snd (_handle_retry Sample.url init) in
  get_price E0 Sample.url st
  = (Returns None,
     mkBot {[Sample.url := 1]} [homepage; Sample.url]
           [Backoff 30; Jitter 2 4; Jitter 10 20])
  /\ exists result st',
       get_price E0 Sample.url st = (Returns result, st')
       /\ requests st' = requests st ++ [homepage; Sample.url].
Proof.
  intros E0 st. split; [vm_compute; reflexivity|].
  destruct (other_answers_end_the_call E0 Sample.url st ltac:(cbn; discriminate))
    as (result & st' & H1 & H2 & _).
  exists result, st'. split; assumption.
Defined.

Section Blocked.

Variable E : env.

Lemma attempts_S k url : attempts (S k) url = [homepage; url] ++ attempts k url.
Proof. reflexivity. Qed.

Lemma blocked_within url :
  blocked E url ->
  forall b st,
    calls_needed st url <= b ->
    exists st',
      get_price_within E b url st = (Returns None, st')
      /\ retry_count st' = <[url := 0]> (retry_count st)
      /\ requests st' = requests st ++ attempts (calls_needed st url) url.
Proof.
  intros Hblocked. induction b as [|b IH]; intros st Hb.
  - pose proof (calls_needed_bounds st url). lia.
  - rewrite get_price_within_S, get_price_try_run.
    destruct (Hblocked (S (List.length (requests st)))) as [text ->].
    unfold after_fetch. cbn [status_code Z.eqb Pos.eqb]. unfold bind.
    pose proof (handle_retry_requests url (attempted E url st)) as Hreq.
    rewrite handle_retry_run in Hreq |- *. cbv zeta in Hreq |- *. cbn [snd] in Hreq.
    change (counter (attempted E url st) url) with (counter st url) in *.
    change (retry_count (attempted E url st)) with (retry_count st) in *.
    set (st1 := mkBot _ _ _) in Hreq |- *.
    destruct (3 <=? S (counter st url)) eqn:Hc; cbn [negb].
    + apply Nat.leb_le in Hc. exists st1. split; [reflexivity|].
      split; [reflexivity|].
      assert (Hneed : calls_needed st url = 1) by (unfold calls_needed; lia).
      rewrite Hneed. exact Hreq.
    + apply Nat.leb_gt in Hc.
      assert (Hc1 : counter st1 url = S (counter st url)).
      { unfold counter at 1. subst st1. cbn [retry_count].
        now rewrite lookup_insert_eq. }
      assert (Hneed : calls_needed st url = S (calls_needed st1 url))
        by (unfold calls_needed in *; rewrite Hc1; lia).
      destruct (IH st1 ltac:(lia)) as (st' & -> & Hrc & Hreqs).
      exists st'. split; [reflexivity|]. split.
      * rewrite Hrc. subst st1. cbn [retry_count]. apply insert_insert_eq.
      * rewrite Hreqs, Hreq, Hneed, attempts_S. cbn [attempted requests].
        now rewrite <- List.app_assoc.
Qed.

(** X6. While every request for a URL is answered with a 403, a call of
    [get_price] for it returns nothing, after as many attempts as the stored
    counter still allows (three from a counter at 0), and leaves the counter
    of the URL at 0 and the other counters as they were. *)
Theorem blocked_url_gives_up (url : string) (st : bot) :
  blocked E url ->
  exists st',
    get_price E url st = (Returns None, st')
    /\ retry_count st' = <[url := 0]> (retry_count st)
    /\ requests st' = requests st ++ attempts (calls_needed st url) url.
Proof.
  intros Hblocked. apply blocked_within; [exact Hblocked|].
  pose proof (calls_needed_bounds st url). lia.
Qed.

End Blocked.

Lemma blocked_url_gives_up_witness :
  let E0 := Sample.always (Sample.page 403 []) Sample.legacy_page in
  blocked E0 Sample.url
  /\ calls_needed init Sample.url = 3
  /\ exists st',
       get_price E0 Sample.url init = (Returns None, st')
       /\ requests st' = requests init ++ attempts (calls_needed init Sample.url) Sample.url.
Proof.
  intros E0.
  assert (H : blocked E0 Sample.url) by (intros n; exists []; reflexivity).
  split; [exact H|]. split; [reflexivity|].
  destruct (blocked_url_gives_up E0 Sample.url init H) as (st' & H1 & _ & H2).
  exists st'. split; assumption.
Defined.

(** ** The back-off delays that occur *)

Lemma backoff_delay_usual c : c <= 2 -> usual_backoff (backoff_delay (S c)).
Proof.
  intros H. unfold usual_backoff.
  destruct c as [|[|[|c]]]; [vm_compute; auto .. | lia].
Qed.

Lemma sleeps_usual_app l1 l2 :
  sleeps_usual l1 -> sleeps_usual l2 -> sleeps_usual (l1 ++ l2).
Proof.
  intros H1 H2 d Hd. apply in_app_iff in Hd as [Hd|Hd]; auto.
Qed.

Lemma attempted_sleeps_usual E url st :
  sleeps_usual (sleeps st) -> sleeps_usual (sleeps (attempted E url st)).
Proof.
  intros H. cbn [attempted sleeps]. apply sleeps_usual_app; [exact H|].
  unfold warm_up_sleeps. intros d Hd.
  destruct (http_get E _ homepage); cbn in Hd;
    repeat (destruct Hd as [Hd|Hd]; [discriminate|]); destruct Hd.
Qed.

Lemma handle_retry_sleeps_usual url st :
  counter st url <= 2 -> sleeps_usual (sleeps st) ->
  sleeps_usual (sleeps (snd (_handle_retry url st))).
Proof.
  intros Hc H. rewrite handle_retry_run. cbn [snd sleeps].
  apply sleeps_usual_app; [exact H|].
  intros d [[= <-]|[]]. now apply backoff_delay_usual.
Qed.

Lemma get_price_within_sleeps E b url st r st' :
  counter st url <= 2 -> sleeps_usual (sleeps st) ->
  get_price_within E b url st = (r, st') ->
  sleeps_usual (sleeps st').
Proof.
  revert st r st'. induction b as [|b IH]; intros st r st' Hc Hs Hrun.
  - cbn in Hrun. now injection Hrun as <- <-.
  - pose proof (attempted_sleeps_usual E url st Hs) as Hatt.
    rewrite get_price_within_S, get_price_try_run in Hrun.
    destruct (http_get E (S (List.length (requests st))) url) as [resp|e].
    2:{ now injection Hrun as <- <-. }
    unfold after_fetch in Hrun.
    destruct (status_code resp =? 403)%Z.
    + unfold bind in Hrun.
      pose proof (handle_retry_sleeps_usual url (attempted E url st) Hc Hatt) as Hgate.
      pose proof (handle_retry_counter url (attempted E url st) url) as Hcount.
      rewrite handle_retry_run in Hrun, Hgate, Hcount.
      cbv zeta in Hrun, Hgate, Hcount. cbn [snd] in Hgate, Hcount.
      change (counter (attempted E url st) url) with (counter st url) in *.
      set (st1 := mkBot _ _ _) in Hrun, Hgate, Hcount.
      destruct (decide (url = url)) as [_|]; [|congruence].
      destruct (3 <=? S (counter st url)) eqn:H3; cbn [negb] in Hrun.
      * unfold raise in Hrun. now injection Hrun as <- <-.
      * apply Nat.leb_gt in H3.
        destruct (get_price_within E b url st1) as [r1 st2] eqn:Hrec.
        assert (Hc1 : counter st1 url <= 2)
          by (unfold counter; rewrite Hcount; cbn; lia).
        pose proof (IH _ _ _ Hc1 Hgate Hrec) as Hfinal.
        destruct r1; now injection Hrun as <- <-.
    + destruct (read_page_run E url resp (attempted E url st)) as [[e He]|[found Hf]].
      * rewrite He in Hrun. now injection Hrun as <- <-.
      * rewrite Hf in Hrun. now injection Hrun as <- <-.
Qed.

Lemma reachable_bounds E st :
  reachable E st ->
  (forall url, counter st url <= 2) /\ sleeps_usual (sleeps st).
Proof.
  induction 1 as [|st url0 _ [IHc IHs]|st url0 _ [IHc IHs]].
  - split; [|intros d []].
    intros url. unfold counter. cbn [init retry_count].
    rewrite lookup_empty. cbn. lia.
  - split; [|now apply handle_retry_sleeps_usual].
    intros url. unfold counter. rewrite handle_retry_counter.
    destruct (decide (url0 = url)); [|apply IHc].
    specialize (IHc url0). cbn [default from_option id].
    destruct (counter st url0) as [|[|n]]; cbn; lia.
  - destruct (get_price E url0 st) as [r st'] eqn:Hrun. cbn [snd]. split.
    + intros url. unfold counter.
      destruct (get_price_within_outcome E _ _ _ _ _ Hrun) as (Hother & Hurl & _).
      destruct (decide (url = url0)) as [->|Hne].
      * destruct Hurl as [-> |(c & -> & Hle)]; [apply IHc | exact Hle].
      * rewrite (Hother url Hne). apply IHc.
    + eapply get_price_within_sleeps; [apply IHc | exact IHs | exact Hrun].
Qed.

(** X7. Whatever calls of [_handle_retry] and [get_price] a bot has made,
    every back-off sleep it has taken lasted 30, 60 or 120 seconds: the cap
    of 300 seconds of line 114 is never reached. *)
Theorem backoff_never_capped (E : env) (st : bot) (d : Z) :
  reachable E st -> In (Backoff d) (sleeps st) ->
  d = 30%Z \/ d = 60%Z \/ d = 120%Z.
Proof. intros Hreach. now apply (reachable_bounds E st Hreach). Qed.

Lemma backoff_never_capped_witness :
  let E0 := Sample.always (Sample.page 403 []) Sample.legacy_page in
  let st := snd (get_price E0 Sample.url init) in
  reachable E0 st /\ In (Backoff 120) (sleeps st)
  /\ (120 = 30 \/ 120 = 60 \/ 120 = 120)%Z.
Proof.
  intros E0 st.
  assert (H1 : reachable E0 st) by (constructor; constructor).
  assert (H2 : In (Backoff 120) (sleeps st)) by (vm_compute; tauto).
  split; [exact H1|]. split; [exact H2|].
  exact (backoff_never_capped E0 st 120 H1 H2).
Defined.

(** ** Where a returned price comes from *)

Lemma read_page_found E url r st found st' :
  read_page E url r st = (Returns (Some found), st') ->
  (400 <=? status_code r)%Z && (status_code r <? 600)%Z = false
  /\ captcha_detected E r = false
  /\ exists soup, html_parser E (body r) = inr soup /\ extract soup = inr found.
Proof.
  unfold read_page, bind, raise_for_status, debug_dump, of_sum, write_count,
    raise, ret.
  destruct (_ && _)%bool; [discriminate|].
  destruct (captcha_detected E r); [discriminate|].
  destruct (html_parser E (body r)) as [e|soup]; [discriminate|].
  destruct (debug_mode E).
  - destruct (debug_write E (body r)); [discriminate|].
    destruct (extract soup) eqn:Hx; [discriminate|].
    intros [= <- _]. eauto.
  - destruct (extract soup) eqn:Hx; [discriminate|].
    intros [= <- _]. eauto.
Qed.

Lemma get_price_within_found E b url st found st' :
  get_price_within E b url st = (Returns (Some found), st') ->
  exists n r soup,
    http_get E n url = Responds r
    /\ (400 <=? status_code r)%Z && (status_code r <? 600)%Z = false
    /\ captcha_detected E r = false
    /\ html_parser E (body r) = inr soup
    /\ extract soup = inr found.
Proof.
  revert st st'. induction b as [|b IH]; intros st st' Hrun; [discriminate|].
  rewrite get_price_within_S, get_price_try_run in Hrun.
  destruct (http_get E (S (List.length (requests st))) url) as [resp|e] eqn:Hget;
    [|discriminate].
  unfold after_fetch in Hrun.
  destruct (status_code resp =? 403)%Z.
  - unfold bind in Hrun. rewrite handle_retry_run in Hrun. cbv zeta in Hrun.
    destruct (negb _); [|discriminate].
    set (st1 := mkBot _ _ _) in Hrun.
    destruct (get_price_within E b url st1) as [r1 st2] eqn:Hrec.
    destruct r1 as [[found1|]|e|]; try discriminate.
    injection Hrun as -> ->. eapply IH, Hrec.
  - destruct (read_page E url resp (attempted E url st)) as [r1 st2] eqn:Hpage.
    destruct r1 as [[found1|]|e|]; try discriminate.
    injection Hrun as -> ->.
    destruct (read_page_found _ _ _ _ _ _ Hpage) as (Hs & Hc & soup & Hp & Hx).
    exists (S (List.length (requests st))), resp, soup. auto.
Qed.

(** X8. A price that [get_price] returns was extracted from an answer to a
    request for that URL whose status is outside 400-599 and whose text does
    not contain the CAPTCHA marker; the price is not negative. No price ever
    comes from an error page or from a challenge page. *)
Theorem returned_price_comes_from_a_good_page (E : env) (url : string)
  (st st' : bot) (price : PyFloat.float) (name : text) :
  get_price E url st = (Returns (Some (price, name)), st') ->
  PyFloat.nonneg price = true
  /\ exists n r soup,
       http_get E n url = Responds r
       /\ ((status_code r < 400)%Z \/ (600 <= status_code r)%Z)
       /\ captcha_detected E r = false
       /\ html_parser E (body r) = inr soup
       /\ extract soup = inr (price, name).
Proof.
  intros Hrun.
  destruct (get_price_within_found _ _ _ _ _ _ Hrun)
    as (n & r & soup & Hget & Hstatus & Hcaptcha & Hparse & Hx).
  split.
  - unfold extract in Hx.
    destruct (find_name_element soup); [|discriminate].
    destruct (find_price_element soup); [|discriminate].
    destruct (price_of_text _) as [e|p] eqn:Hp; [discriminate|].
    injection Hx as <- _.
    apply unsigned_nonneg. eapply price_of_text_unsigned, Hp.
  - exists n, r, soup. repeat split; auto.
    apply andb_false_iff in Hstatus as [H|H];
      [left; apply Z.leb_gt in H | right; apply Z.ltb_ge in H]; lia.
Qed.

Lemma returned_price_comes_from_a_good_page_witness :
  let E0 := Sample.always (Sample.page 200 Sample.shop_page) Sample.legacy_page in
  exists st',
    get_price E0 Sample.url init
    = (Returns (Some (PyFloat.of_decimal 3899 2, py "Leren sneakers laag wit")), st')
    /\ PyFloat.nonneg (PyFloat.of_decimal 3899 2) = true.
Proof.
  intros E0.
  destruct (get_price E0 Sample.url init) as [r st'] eqn:Hrun.
  assert (Hr : r = Returns (Some (PyFloat.of_decimal 3899 2, py "Leren sneakers laag wit"))).
  { apply (f_equal fst) in Hrun. cbn [fst] in Hrun. rewrite <- Hrun.
    vm_compute. reflexivity. }
  subst r. exists st'. split; [reflexivity|].
  exact (proj1 (returned_price_comes_from_a_good_page _ _ _ _ _ _ Hrun)).
Defined.

(** ** Which element gives the price *)

Lemma price_selector_tags sel n :
  In sel price_selectors -> Soup.matches sel n = true ->
  Soup.named_in ["span"; "p"; "div"]%string n = true.
Proof.
  intros Hsel Hm. destruct n as [s|name attrs contents]; [discriminate|].
  cbn [Soup.matches] in Hm. apply andb_true_iff in Hm as [Hname _].
  apply String.eqb_eq in Hname. subst name.
  cbn [Soup.named_in].
  repeat (destruct Hsel as [<-|Hsel]; [reflexivity|]). destruct Hsel.
Qed.

(** X9. The chain of selectors only decides which element is preferred: a
    price element is found exactly when some [span], [p] or [div] of the page
    has a text with the euro sign and a digit, and the element found is
    always such an element. *)
Theorem price_element_found_iff (doc : Soup.soup) :
  (find_price_element doc = None
   <-> forall e, In e (Soup.find_all_named doc ["span"; "p"; "div"]%string) ->
                 price_like e = false)
  /\ forall e, find_price_element doc = Some e ->
               price_like e = true
               /\ In e (Soup.find_all_named doc ["span"; "p"; "div"]%string).
Proof.
  assert (Hchain : forall e, first_price_like doc price_selectors = Some e ->
            price_like e = true
            /\ In e (Soup.find_all_named doc ["span"; "p"; "div"]%string)).
  { intros e He.
    destruct (first_price_like_some _ _ _ He) as (sel & Hsel & Hin & Hlike).
    split; [exact Hlike|].
    unfold Soup.find_all in Hin. apply List.filter_In in Hin as [Hin Hm].
    apply List.filter_In. split; [exact Hin|].
    eapply price_selector_tags; eassumption. }
  unfold find_price_element. split; [split|].
  - destruct (first_price_like doc price_selectors); [discriminate|].
    intros Hnone e. apply (List.find_none _ _ Hnone).
  - intros Hnone.
    destruct (first_price_like doc price_selectors) as [e|] eqn:He.
    + destruct (Hchain e eq_refl) as [Hlike Hin].
      rewrite (Hnone e Hin) in Hlike. discriminate.
    + destruct (List.find price_like _) as [e|] eqn:Hf; [|reflexivity].
      apply List.find_some in Hf as [Hin Hlike].
      rewrite (Hnone e Hin) in Hlike. discriminate.
  - intros e.
    destruct (first_price_like doc price_selectors) as [e0|] eqn:He.
    + intros [= <-]. now apply Hchain.
    + intros Hf. apply List.find_some in Hf as [Hin Hlike]. auto.
Qed.

Lemma price_element_found_iff_witness :
  find_price_element Sample.legacy_page
  = Some (Sample.price_span "sDq_FX" (euro :: py " 38,99"))
  /\ price_like (Sample.price_span "sDq_FX" (euro :: py " 38,99")) = true.
Proof.
  assert (H : find_price_element Sample.legacy_page
              = Some (Sample.price_span "sDq_FX" (euro :: py " 38,99")))
    by (vm_compute; reflexivity).
  split; [exact H|].
  exact (proj1 (proj2 (price_element_found_iff Sample.legacy_page) _ H)).
Defined.

(** ** Dictionaries *)

Section DictFacts.

Context {V : Type}.

Implicit Types (d : list (string * V)) (k : string) (v : V).

Lemma dict_get_set_eq d k v : Dict.get (Dict.set d k v) k = Some v.
Proof.
  induction d as [|[k' v'] d IH]; cbn [Dict.set Dict.get].
  - now rewrite String.eqb_refl.
  - destruct (String.eqb_spec k' k) as [->|Hne]; cbn [Dict.get].
    + now rewrite String.eqb_refl.
    + destruct (String.eqb_spec k' k); [contradiction | exact IH].
Qed.

Lemma dict_get_set_ne d k k' v :
  k' <> k -> Dict.get (Dict.set d k v) k' = Dict.get d k'.
Proof.
  intros Hne. induction d as [|[k0 v0] d IH]; cbn [Dict.set Dict.get].
  - destruct (String.eqb_spec k k'); [congruence | reflexivity].
  - destruct (String.eqb_spec k0 k) as [->|Hk]; cbn [Dict.get].
    + destruct (String.eqb_spec k k'); [congruence|].
      now destruct (String.eqb_spec k k'); [congruence|].
    + destruct (String.eqb_spec k0 k'); [reflexivity | exact IH].
Qed.

Lemma dict_get_del_ne d k k' :
  k' <> k -> Dict.get (Dict.del d k) k' = Dict.get d k'.
Proof.
  intros Hne. induction d as [|[k0 v0] d IH]; [reflexivity|].
  cbn [Dict.del Dict.get].
  destruct (String.eqb_spec k0 k) as [->|Hk]; cbn [Dict.get].
  - now destruct (String.eqb_spec k k'); [congruence|].
  - destruct (String.eqb_spec k0 k'); [reflexivity | exact IH].
Qed.

Lemma dict_get_none d k : ~ In k (Dict.keys d) -> Dict.get d k = None.
Proof.
  induction d as [|[k0 v0] d IH]; [reflexivity|].
  cbn [Dict.keys List.map fst In Dict.get]. intros H.
  destruct (String.eqb_spec k0 k); [tauto | apply IH; tauto].
Qed.

Lemma dict_get_del_eq d k :
  List.NoDup (Dict.keys d) -> Dict.get (Dict.del d k) k = None.
Proof.
  induction d as [|[k0 v0] d IH]; [reflexivity|].
  cbn [Dict.keys List.map fst Dict.del]. intros Hd.
  apply List.NoDup_cons_iff in Hd as [Hk0 Hd].
  destruct (String.eqb_spec k0 k) as [->|Hk].
  - now apply dict_get_none.
  - cbn [Dict.get]. destruct (String.eqb_spec k0 k); [contradiction | now apply IH].
Qed.

Lemma dict_mem_get d k : Dict.mem d k = true <-> exists v, Dict.get d k = Some v.
Proof.
  unfold Dict.mem. destruct (Dict.get d k); split; eauto; try discriminate.
  intros [v Hv]. discriminate.
Qed.

Lemma dict_get_nth d i k v :
  List.NoDup (Dict.keys d) -> nth_error d i = Some (k, v) -> Dict.get d k = Some v.
Proof.
  revert i. induction d as [|[k0 v0] d IH]; intros i Hd Hi.
  - destruct i; discriminate.
  - cbn [Dict.keys List.map fst] in Hd. apply List.NoDup_cons_iff in Hd as [Hk0 Hd].
    destruct i as [|i]; cbn [nth_error Dict.get] in *.
    + injection Hi as -> ->. now rewrite String.eqb_refl.
    + destruct (String.eqb_spec k0 k) as [->|Hk]; [|eapply IH; eassumption].
      destruct Hk0. apply List.nth_error_In in Hi.
      apply (List.in_map fst) in Hi. exact Hi.
Qed.

Lemma dict_get_in d k v : Dict.get d k = Some v -> In (k, v) d.
Proof.
  induction d as [|[k0 v0] d IH]; [discriminate|]. cbn [Dict.get In].
  destruct (String.eqb_spec k0 k) as [->|Hk]; [intros [= ->]; now left | auto].
Qed.

Lemma dict_keys_get d k : In k (Dict.keys d) -> exists v, Dict.get d k = Some v.
Proof.
  induction d as [|[k0 v0] d IH]; [intros []|].
  cbn [Dict.keys List.map fst In Dict.get].
  destruct (String.eqb_spec k0 k) as [->|Hk]; [eauto|].
  intros [H|H]; [contradiction | now apply IH].
Qed.

Lemma dict_set_map {U} (g : V -> U) d k v v' :
  Dict.get d k = Some v -> g v' = g v ->
  List.map (fun kv => (fst kv, g (snd kv))) (Dict.set d k v')
  = List.map (fun kv => (fst kv, g (snd kv))) d.
Proof.
  intros Hget Hg. induction d as [|[k0 v0] d IH]; [discriminate|].
  cbn [Dict.get Dict.set] in *.
  destruct (String.eqb_spec k0 k) as [->|Hk]; cbn [List.map fst snd].
  - injection Hget as ->. now rewrite Hg.
  - now rewrite IH.
Qed.

End DictFacts.

(** ** Adding a product *)

Ltac run_act :=
  unfold App.and_then, App.attempt, App.read, App.done, App.fail,
    App.set_products, App.set_remove_urls, App.telegram, App.now,
    App.save_products, App.sleep_for, App.products_of, App.store_product;
  cbn [App.core App.products App._remove_urls App.calls App.dumps App.clock
       App.pauses fst snd].

Ltac fields :=
  cbn [App.core App.products App._remove_urls App.calls App.dumps App.clock
       App.pauses fst snd].

Ltac sending :=
  match goal with
  | |- context [App.telegram_fails ?W ?n] => destruct (App.telegram_fails W n)
  end.

Section AddProduct.

Variable W : App.world.

Lemma telegram_untouched c s :
  App.untouched s (snd (App.telegram W c s)).
Proof.
  unfold App.telegram. destruct (App.telegram_fails W _); repeat split.
Qed.

Lemma told_and_sorry_untouched c1 c2 s :
  App.untouched s
    (snd (App.attempt (App.telegram W c1) (fun _ => App.telegram W c2) s)).
Proof.
  unfold App.attempt, App.telegram.
  destruct (App.telegram_fails W (List.length (App.calls s)));
    cbn [App.calls App.core App.products App.dumps App.clock snd fst].
  - destruct (App.telegram_fails W _); repeat split.
  - repeat split.
Qed.

(** X10. [add_product] without a URL, with a URL whose host is not
    [www.zalando.nl], or with a URL that the chat monitors already, answers
    the user and does nothing else: no request is sent, the products stay as
    they are and nothing is written. *)
Theorem add_product_refuses (chat : Z) (args : list string) (s : App.app) :
  match args with
  | [] => True
  | url :: _ =>
      App.is_valid_zalando_url W url = false
      \/ exists mine, Dict.get (App.products s) (str_Z chat) = Some mine
                      /\ Dict.mem mine url = true
  end ->
  let s' := snd (App.add_product W chat args s) in
  App.core s' = App.core s /\ App.products s' = App.products s
  /\ App.dumps s' = App.dumps s /\ App.clock s' = App.clock s.
Proof.
  intros Hargs. cbv zeta. unfold App.add_product.
  destruct args as [|url rest]; [apply told_and_sorry_untouched|].
  destruct (App.is_valid_zalando_url W url) eqn:Hvalid; cbn [negb];
    [|apply told_and_sorry_untouched].
  destruct Hargs as [Hargs|(mine & Hmine & Hurl)]; [discriminate|].
  assert (Hmem : Dict.mem (App.products s) (str_Z chat) = true)
    by (apply dict_mem_get; eauto).
  run_act. rewrite Hmem. cbn [negb]. rewrite Hmine, Hurl.
  destruct (App.telegram_fails W (List.length (App.calls s)));
    cbn [App.calls App.core App.products App.dumps App.clock snd fst].
  - destruct (App.telegram_fails W _);
      cbn [App.calls App.core App.products App.dumps App.clock snd fst];
      repeat split.
  - repeat split.
Qed.

Lemma chat_entry_made (all : App.store) chat_id :
  let all1 := if negb (Dict.mem all chat_id) then Dict.set all chat_id [] else all in
  Dict.get all1 chat_id = Some (App.products_for all chat_id)
  /\ forall c, c <> chat_id -> Dict.get all1 c = Dict.get all c.
Proof.
  unfold Dict.mem, App.products_for. cbv zeta.
  destruct (Dict.get all chat_id) as [mine|] eqn:Hget; cbn [negb].
  - split; [exact Hget | reflexivity].
  - split; [apply dict_get_set_eq | intros c Hc; now apply dict_get_set_ne].
Qed.

Lemma enter_chat {A} chat_id (k : list (string * App.product) -> App.Act A) s :
  App.and_then (App.read App.products)
    (fun all =>
       App.and_then
         (if negb (Dict.mem all chat_id)
          then App.set_products (Dict.set all chat_id [])
          else App.done tt)
         (fun _ => App.and_then (App.products_of chat_id) k)) s
  = k (App.products_for (App.products s) chat_id)
      (App.mkApp (App.core s)
         (if negb (Dict.mem (App.products s) chat_id)
          then Dict.set (App.products s) chat_id [] else App.products s)
         (App._remove_urls s) (App.calls s) (App.dumps s) (App.clock s)
         (App.pauses s)).
Proof.
  pose proof (chat_entry_made (App.products s) chat_id) as [Hmine _].
  cbv zeta in Hmine. revert Hmine. run_act.
  destruct (negb (Dict.mem (App.products s) chat_id)); run_act;
    intros ->; destruct s; reflexivity.
Qed.

Lemma telegram_sent {A} c (k : unit -> App.Act A) s :
  App.telegram_fails W (List.length (App.calls s)) = false ->
  App.and_then (App.telegram W c) k s
  = k tt (App.mkApp (App.core s) (App.products s) (App._remove_urls s)
            (App.calls s ++ [c]) (App.dumps s) (App.clock s) (App.pauses s)).
Proof. intros H. run_act. now rewrite H. Qed.

Lemma run_core_returns {A B} (m : M A) (k : A -> App.Act B) s a b :
  m (App.core s) = (Returns a, b) ->
  App.and_then (App.run_core m) k s
  = k a (App.mkApp b (App.products s) (App._remove_urls s) (App.calls s)
           (App.dumps s) (App.clock s) (App.pauses s)).
Proof. intros H. unfold App.and_then, App.run_core. now rewrite H. Qed.

Lemma now_run {A} (k : string -> App.Act A) s :
  App.and_then (App.now W) k s
  = k (App.isoformat_now W (App.clock s))
      (App.mkApp (App.core s) (App.products s) (App._remove_urls s) (App.calls s)
         (App.dumps s) (S (App.clock s)) (App.pauses s)).
Proof. reflexivity. Qed.

Lemma save_products_run {A} (k : unit -> App.Act A) s :
  App.and_then App.save_products k s
  = k tt (App.mkApp (App.core s) (App.products s) (App._remove_urls s)
            (App.calls s) (App.dumps s ++ [App.products s]) (App.clock s)
            (App.pauses s)).
Proof. reflexivity. Qed.

Lemma store_product_run {A} chat_id url p (k : unit -> App.Act A) s mine :
  Dict.get (App.products s) chat_id = Some mine ->
  App.and_then (App.store_product chat_id url p) k s
  = k tt (App.mkApp (App.core s)
            (Dict.set (App.products s) chat_id (Dict.set mine url p))
            (App._remove_urls s) (App.calls s) (App.dumps s) (App.clock s)
            (App.pauses s)).
Proof.
  intros H. unfold App.store_product. run_act. now rewrite H.
Qed.

Lemma products_for_set (all : App.store) chat_id mine :
  App.products_for (Dict.set all chat_id mine) chat_id = mine.
Proof. unfold App.products_for. now rewrite dict_get_set_eq. Qed.

(** X11. A valid URL that the chat does not monitor yet, and whose page
    gives a price and a name, is stored under the chat with that name, that
    price and the two times read from the clock, and the dictionary is
    written once, after the product is in it; the other chats are not
    touched.  This holds whether or not the confirmation can be sent. *)
Theorem add_product_stores (chat : Z) (url : string) (rest : list string)
  (s : App.app) (price : PyFloat.float) (name : text) (b : bot) :
  App.is_valid_zalando_url W url = true ->
  Dict.mem (App.products_for (App.products s) (str_Z chat)) url = false ->
  App.telegram_fails W (List.length (App.calls s)) = false ->
  get_price (App.pipeline W) url (App.core s) = (Returns (Some (price, name)), b) ->
  name <> [] ->
  let s' := snd (App.add_product W chat (url :: rest) s) in
  let p := App.mkProduct name price (App.isoformat_now W (App.clock s))
             (App.isoformat_now W (S (App.clock s))) in
  App.core s' = b
  /\ App.products_for (App.products s') (str_Z chat)
     = Dict.set (App.products_for (App.products s) (str_Z chat)) url p
  /\ Dict.get (App.products_for (App.products s') (str_Z chat)) url = Some p
  /\ (forall c, c <> str_Z chat ->
                Dict.get (App.products s') c = Dict.get (App.products s) c)
  /\ App.dumps s' = App.dumps s ++ [App.products s'].
Proof.
  intros Hvalid Hnew Hsend Hget Hname s' p.
  destruct name as [|c name]; [congruence|]. clear Hname.
  pose proof (chat_entry_made (App.products s) (str_Z chat)) as [Hmine Hother].
  cbv zeta in Hmine, Hother.
  set (all1 := if negb (Dict.mem (App.products s) (str_Z chat))
               then Dict.set (App.products s) (str_Z chat) [] else App.products s)
    in Hmine, Hother.
  set (mine := App.products_for (App.products s) (str_Z chat)) in *.
  assert (Hs' : exists sent,
             s' = App.mkApp b (Dict.set all1 (str_Z chat) (Dict.set mine url p))
                    (App._remove_urls s) sent
                    (App.dumps s
                     ++ [Dict.set all1 (str_Z chat) (Dict.set mine url p)])
                    (S (S (App.clock s))) (App.pauses s)).
  { subst s'. unfold App.add_product. rewrite Hvalid. cbn [negb].
    unfold App.attempt at 1. rewrite enter_chat. fold mine all1. rewrite Hnew.
    rewrite telegram_sent by exact Hsend. fields.
    erewrite run_core_returns by (cbn [App.core]; exact Hget).
    cbv beta iota. fields. rewrite now_run. fields. rewrite now_run. fields.
    erewrite store_product_run by (cbn [App.products]; exact Hmine). fields.
    rewrite save_products_run. fields. unfold App.telegram. fields.
    clear Hsend. repeat (sending; fields); eexists; reflexivity. }
  destruct Hs' as [sent ->]. cbn [App.core App.products App.dumps].
  rewrite products_for_set.
  repeat split.
  - apply dict_get_set_eq.
  - intros c' Hc. rewrite dict_get_set_ne by exact Hc. now apply Hother.
Qed.

Lemma telegram_run {A} c (k : unit -> App.Act A) s :
  App.and_then (App.telegram W c) k s
  = let st := App.mkApp (App.core s) (App.products s) (App._remove_urls s)
                (App.calls s ++ [c]) (App.dumps s) (App.clock s) (App.pauses s) in
    if App.telegram_fails W (List.length (App.calls s))
    then (App.Error App.TelegramError, st) else k tt st.
Proof. run_act. now destruct (App.telegram_fails W _). Qed.

Lemma run_core_run {A B} (m : M A) (k : A -> App.Act B) s :
  App.and_then (App.run_core m) k s
  = let st := App.mkApp (snd (m (App.core s))) (App.products s)
                (App._remove_urls s) (App.calls s) (App.dumps s) (App.clock s)
                (App.pauses s) in
    match fst (m (App.core s)) with
    | Returns a => k a st
    | Raises e => (App.Error (App.FromPipeline e), st)
    | Diverges => (App.Error App.RecursionError, st)
    end.
Proof.
  unfold App.and_then, App.run_core.
  destruct (m (App.core s)) as [[a|e|] b]; reflexivity.
Qed.

(** X12. When the page of a valid URL gives no price or no name, nothing is
    stored and nothing is written: every chat has the products it had.  A
    chat that had no dictionary has an empty one afterwards, in memory
    only. *)
Theorem add_product_failed_fetch (chat : Z) (url : string) (rest : list string)
  (s : App.app) :
  App.is_valid_zalando_url W url = true ->
  Dict.mem (App.products_for (App.products s) (str_Z chat)) url = false ->
  (forall price name,
      fst (get_price (App.pipeline W) url (App.core s))
      = Returns (Some (price, name)) -> name = []) ->
  let s' := snd (App.add_product W chat (url :: rest) s) in
  (forall c, App.products_for (App.products s') c
             = App.products_for (App.products s) c)
  /\ Dict.mem (App.products s') (str_Z chat) = true
  /\ App.dumps s' = App.dumps s /\ App.clock s' = App.clock s.
Proof.
  intros Hvalid Hnew Hfetch s'.
  pose proof (chat_entry_made (App.products s) (str_Z chat)) as [Hmine Hother].
  cbv zeta in Hmine, Hother.
  set (all1 := if negb (Dict.mem (App.products s) (str_Z chat))
               then Dict.set (App.products s) (str_Z chat) [] else App.products s)
    in Hmine, Hother.
  assert (Hs' : exists b sent,
             s' = App.mkApp b all1 (App._remove_urls s) sent (App.dumps s)
                    (App.clock s) (App.pauses s)).
  { subst s'. unfold App.add_product. rewrite Hvalid. cbn [negb].
    unfold App.attempt at 1. rewrite enter_chat. fold all1. rewrite Hnew.
    rewrite telegram_run. fields.
    sending; fields;
      [unfold App.telegram; fields; sending; fields; do 2 eexists; reflexivity|].
    rewrite run_core_run. fields.
    destruct (get_price (App.pipeline W) url (App.core s)) as [[found|e|] b].
    - cbn [fst snd] in *.
      destruct found as [[price [|c name]]|];
        [| specialize (Hfetch price (c :: name) eq_refl); discriminate |];
        unfold App.telegram; fields; repeat (sending; fields);
        do 2 eexists; reflexivity.
    - cbn [fst snd]. unfold App.telegram. fields.
      sending; do 2 eexists; reflexivity.
    - cbn [fst snd]. unfold App.telegram. fields.
      sending; do 2 eexists; reflexivity. }
  destruct Hs' as (b & sent & ->). fields. repeat split.
  - intros c. unfold App.products_for at 1.
    destruct (String.eqb_spec c (str_Z chat)) as [->|Hne].
    + now rewrite Hmine.
    + now rewrite Hother.
  - apply dict_mem_get. eauto.
Qed.

Lemma chat_entry_same (all : App.store) chat_id c :
  App.products_for
    (if negb (Dict.mem all chat_id) then Dict.set all chat_id [] else all) c
  = App.products_for all c.
Proof.
  unfold App.products_for, Dict.mem.
  destruct (Dict.get all chat_id) eqn:Hget; cbn [negb]; [reflexivity|].
  destruct (String.eqb_spec c chat_id) as [->|Hne].
  - now rewrite dict_get_set_eq, Hget.
  - now rewrite dict_get_set_ne.
Qed.

(** The products after [add_product], on every path. *)
Lemma add_product_products chat args s :
  let s' := snd (App.add_product W chat args s) in
  let all1 := if negb (Dict.mem (App.products s) (str_Z chat))
              then Dict.set (App.products s) (str_Z chat) []
              else App.products s in
  let mine := App.products_for (App.products s) (str_Z chat) in
  App.products s' = App.products s
  \/ App.products s' = all1
  \/ exists url p, Dict.mem mine url = false
                   /\ App.products s'
                      = Dict.set all1 (str_Z chat) (Dict.set mine url p).
Proof.
  intros s' all1 mine.
  destruct args as [|url rest].
  { left. apply (told_and_sorry_untouched _ _ s). }
  destruct (App.is_valid_zalando_url W url) eqn:Hvalid.
  2: { left. subst s'. unfold App.add_product. rewrite Hvalid. cbn [negb].
       apply (told_and_sorry_untouched _ _ s). }
  pose proof (chat_entry_made (App.products s) (str_Z chat)) as [Hmine _].
  cbv zeta in Hmine. fold all1 mine in Hmine.
  right.
  assert (Hs' : exists b sent d t all2,
             s' = App.mkApp b all2 (App._remove_urls s) sent d t (App.pauses s)
             /\ (all2 = all1
                 \/ exists p, Dict.mem mine url = false
                              /\ all2 = Dict.set all1 (str_Z chat)
                                          (Dict.set mine url p))).
  { subst s'. unfold App.add_product. rewrite Hvalid. cbn [negb].
    unfold App.attempt at 1. rewrite enter_chat. fold all1 mine.
    destruct (Dict.mem mine url) eqn:Hnew.
    { unfold App.telegram. fields. repeat (sending; fields);
        do 5 eexists; (split; [reflexivity | left; reflexivity]). }
    rewrite telegram_run. fields.
    sending; fields;
      [unfold App.telegram; fields; sending; fields;
       do 5 eexists; (split; [reflexivity | left; reflexivity])|].
    rewrite run_core_run. fields.
    destruct (get_price (App.pipeline W) url (App.core s)) as [[found|e|] b];
      cbn [fst snd];
      [| unfold App.telegram; fields; sending;
         do 5 eexists; (split; [reflexivity | left; reflexivity])..].
    destruct found as [[price [|c name]]|];
      [unfold App.telegram; fields; repeat (sending; fields);
       do 5 eexists; (split; [reflexivity | left; reflexivity]) | |
       unfold App.telegram; fields; repeat (sending; fields);
       do 5 eexists; (split; [reflexivity | left; reflexivity])].
    cbv beta iota. rewrite now_run. fields. rewrite now_run. fields.
    erewrite store_product_run by (cbn [App.products]; exact Hmine). fields.
    rewrite save_products_run. fields. unfold App.telegram. fields.
    repeat (sending; fields); do 5 eexists;
      (split; [reflexivity | right; eexists; split; reflexivity]). }
  destruct Hs' as (b & sent & d & t & all2 & -> & [->|(p & Hnew & ->)]);
    fields; [left; reflexivity | right; eauto].
Qed.

(** X13. [add_product] never removes or changes a product that is
    monitored, of any chat, whatever its arguments, the answer of the shop
    and the fate of its messages. *)
Theorem add_product_keeps_products (chat : Z) (args : list string) (s : App.app)
  (c u : string) (p : App.product) :
  Dict.get (App.products_for (App.products s) c) u = Some p ->
  Dict.get
    (App.products_for (App.products (snd (App.add_product W chat args s))) c) u
  = Some p.
Proof.
  intros Hp.
  pose proof (add_product_products chat args s) as H. cbv zeta in H.
  destruct H as [->|[->|(url & q & Hnew & ->)]].
  - exact Hp.
  - exact (eq_trans (f_equal (fun d => Dict.get d u) (chat_entry_same _ _ _)) Hp).
  - unfold App.products_for at 1.
    destruct (String.eqb_spec c (str_Z chat)) as [->|Hne].
    + rewrite dict_get_set_eq. rewrite dict_get_set_ne; [exact Hp|].
      intros ->. unfold Dict.mem in Hnew. now rewrite Hp in Hnew.
    + rewrite dict_get_set_ne by exact Hne.
      exact (eq_trans (f_equal (fun d => Dict.get d u) (chat_entry_same _ _ _)) Hp).
Qed.

End AddProduct.

(** ** Removing a product *)

Lemma str_nat_inj n m : str_nat n = str_nat m -> n = m.
Proof.
  unfold str_nat. intros H.
  apply (f_equal NilEmpty.uint_of_string) in H. rewrite !NilEmpty.usu in H.
  injection H as H. now apply DecimalNat.Unsigned.to_uint_inj.
Qed.

Lemma button_inj n m : ("rm_" ++ str_nat n)%string = ("rm_" ++ str_nat m)%string -> n = m.
Proof. cbn [String.append]. intros H. injection H as H. now apply str_nat_inj. Qed.

Lemma button_prefix x : String.prefix "rm_" ("rm_" ++ x) = true.
Proof. destruct x; reflexivity. Qed.

Lemma number_buttons_other items :
  forall i table keyboard k,
    (forall m, i <= m -> k <> ("rm_" ++ str_nat m)%string) ->
    Dict.get (fst (App.number_buttons i items table keyboard)) k = Dict.get table k.
Proof.
  induction items as [|[url data] items IH]; intros i table keyboard k Hk;
    cbn [App.number_buttons]; [reflexivity|].
  rewrite IH by (intros m Hm; apply Hk; lia).
  apply dict_get_set_ne. apply Hk. lia.
Qed.

Lemma number_buttons_nth items :
  forall i table keyboard j url data,
    nth_error items j = Some (url, data) ->
    Dict.get (fst (App.number_buttons i items table keyboard))
      ("rm_" ++ str_nat (i + j)) = Some url.
Proof.
  induction items as [|[url0 data0] items IH];
    intros i table keyboard j url data Hj; [destruct j; discriminate|].
  cbn [App.number_buttons]. destruct j as [|j]; cbn [nth_error] in Hj.
  - injection Hj as -> ->. rewrite Nat.add_0_r.
    rewrite number_buttons_other.
    + apply dict_get_set_eq.
    + intros m Hm H. apply button_inj in H. lia.
  - replace (i + S j) with (S i + j) by lia. now apply IH with (data := data).
Qed.

Lemma number_buttons_get items :
  forall i table keyboard k url,
    Dict.get (fst (App.number_buttons i items table keyboard)) k = Some url ->
    Dict.get table k = Some url
    \/ exists j data, k = ("rm_" ++ str_nat (i + j))%string
                      /\ nth_error items j = Some (url, data).
Proof.
  induction items as [|[url0 data0] items IH]; intros i table keyboard k url;
    cbn [App.number_buttons]; [now left|].
  intros H. apply IH in H as [H|(j & data & -> & Hj)].
  - destruct (String.eqb_spec k ("rm_" ++ str_nat i)) as [->|Hk].
    + rewrite dict_get_set_eq in H. injection H as ->.
      right. exists 0, data0. now rewrite Nat.add_0_r.
    + rewrite dict_get_set_ne in H by exact Hk. now left.
  - right. exists (S j), data. split; [f_equal; f_equal; lia | exact Hj].
Qed.

Lemma number_buttons_keyboard items :
  forall i table keyboard,
    snd (App.number_buttons i items table keyboard)
    = keyboard ++ App.keyboard_of i items.
Proof.
  induction items as [|[url0 data0] items IH]; intros i table keyboard;
    cbn [App.number_buttons].
  - unfold App.keyboard_of. cbn. now rewrite app_nil_r.
  - rewrite IH, <- app_assoc. reflexivity.
Qed.

Section Removal.

Variable W : App.world.

Lemma remove_product_state chat s :
  App.products_for (App.products s) (str_Z chat) <> [] ->
  let mine := App.products_for (App.products s) (str_Z chat) in
  snd (App.remove_product W chat s)
  = App.mkApp (App.core s) (App.products s)
      (fst (App.number_buttons 0 mine [] []))
      (App.calls s
       ++ [App.reply_keyboard chat (py "Select a product to remove:")
             (snd (App.number_buttons 0 mine [] []))])
      (App.dumps s) (App.clock s) (App.pauses s).
Proof.
  unfold App.remove_product, App.products_for. intros Hmine. cbv zeta.
  unfold App.and_then at 1, App.read. fields.
  destruct (Dict.get (App.products s) (str_Z chat)) as [[|item mine]|];
    [congruence | | congruence].
  destruct (App.number_buttons 0 (item :: mine) [] []) as [table keyboard].
  run_act. now sending.
Qed.

Lemma button_callback_found chat data url s :
  App.telegram_fails W (List.length (App.calls s)) = false ->
  String.prefix "rm_" data = true ->
  Dict.get (App._remove_urls s) data = Some url ->
  let mine := App.products_for (App.products s) (str_Z chat) in
  snd (App.button_callback W chat data s)
  = match Dict.get mine url with
    | Some p =>
        let all := Dict.set (App.products s) (str_Z chat) (Dict.del mine url) in
        App.mkApp (App.core s) all (App._remove_urls s)
          (App.calls s
           ++ [App.answer chat;
               App.edit_message_text chat
                 (utf8 "✅ Removed " ++ App.name p ++ py " from monitoring.")])
          (App.dumps s ++ [all]) (App.clock s) (App.pauses s)
    | None =>
        App.mkApp (App.core s) (App.products s) (App._remove_urls s)
          (App.calls s
           ++ [App.answer chat;
               App.edit_message_text chat (utf8 "❌ Error: Product not found.")])
          (App.dumps s) (App.clock s) (App.pauses s)
    end.
Proof.
  intros Hsend Hprefix Htable. cbv zeta. unfold App.button_callback.
  rewrite telegram_sent by exact Hsend. rewrite Hprefix.
  unfold App.and_then at 1, App.read at 1. fields. rewrite Htable.
  unfold App.and_then at 1, App.read at 1. fields.
  unfold App.products_for.
  destruct (Dict.get (App.products s) (str_Z chat)) as [mine|];
    [destruct (Dict.get mine url) as [p|]|]; cbn [Dict.get];
    run_act; rewrite <- ?app_assoc; cbn [app]; now sending.
Qed.

(** The ways of [button_callback]: nothing but messages, or one removal. *)
Lemma button_callback_paths chat data s :
  let s' := snd (App.button_callback W chat data s) in
  let mine := App.products_for (App.products s) (str_Z chat) in
  App.core s' = App.core s /\ App._remove_urls s' = App._remove_urls s
  /\ App.clock s' = App.clock s /\ App.pauses s' = App.pauses s
  /\ ((App.products s' = App.products s /\ App.dumps s' = App.dumps s)
      \/ exists url p,
           String.prefix "rm_" data = true
           /\ Dict.get (App._remove_urls s) data = Some url
           /\ Dict.get mine url = Some p
           /\ App.products s'
              = Dict.set (App.products s) (str_Z chat) (Dict.del mine url)
           /\ App.dumps s' = App.dumps s ++ [App.products s']).
Proof.
  intros s' mine.
  assert (Hs' : exists sent all d,
             s' = App.mkApp (App.core s) all (App._remove_urls s) sent d
                    (App.clock s) (App.pauses s)
             /\ ((all = App.products s /\ d = App.dumps s)
                 \/ exists url p,
                      String.prefix "rm_" data = true
                      /\ Dict.get (App._remove_urls s) data = Some url
                      /\ Dict.get mine url = Some p
                      /\ all = Dict.set (App.products s) (str_Z chat)
                                 (Dict.del mine url)
                      /\ d = App.dumps s ++ [all])).
  { destruct (App.telegram_fails W (List.length (App.calls s))) eqn:Hsend.
    { subst s'. unfold App.button_callback. rewrite telegram_run, Hsend. fields.
      do 3 eexists. split; [reflexivity | left; split; reflexivity]. }
    destruct (String.prefix "rm_" data) eqn:Hprefix.
    2: { subst s'. unfold App.button_callback.
         rewrite telegram_sent by exact Hsend.
         rewrite Hprefix. unfold App.done. fields.
         do 3 eexists. split; [reflexivity | left; split; reflexivity]. }
    destruct (Dict.get (App._remove_urls s) data) as [url|] eqn:Htable.
    2: { subst s'. unfold App.button_callback.
         rewrite telegram_sent by exact Hsend.
         rewrite Hprefix. unfold App.and_then at 1, App.read at 1. fields.
         rewrite Htable. unfold App.telegram. fields.
         sending; fields; do 3 eexists;
           (split; [reflexivity | left; split; reflexivity]). }
    pose proof (button_callback_found chat data url s Hsend Hprefix Htable) as H.
    cbv zeta in H. fold s' mine in H. rewrite H. clear H.
    destruct (Dict.get mine url) as [p|] eqn:Hp; do 3 eexists;
      (split; [reflexivity|]).
    - right. exists url, p. repeat split; assumption || reflexivity.
    - left. split; reflexivity. }
  destruct Hs' as (sent & all & d & -> & H). fields.
  repeat split.
  destruct H as [[-> ->]|(url & p & Hprefix & Htable & Hp & -> & ->)];
    [left; split; reflexivity | right; exists url, p; repeat split; assumption].
Qed.

(** X14. The round trip of a removal: after [remove_product] has shown
    the list of a chat, the button of the [i]-th product removes that product
    and no other, from that chat and no other, writes the dictionary once and
    names the product in its answer; the same button, pressed again, removes
    nothing. *)
Theorem removal_round_trip (chat : Z) (s : App.app) (i : nat) (url : string)
  (p : App.product) :
  let mine := App.products_for (App.products s) (str_Z chat) in
  nth_error mine i = Some (url, p) ->
  List.NoDup (Dict.keys mine) ->
  let s1 := snd (App.remove_product W chat s) in
  App.telegram_fails W (List.length (App.calls s1)) = false ->
  let s2 := snd (App.button_callback W chat ("rm_" ++ str_nat i) s1) in
  let s3 := snd (App.button_callback W chat ("rm_" ++ str_nat i) s2) in
  App.products_for (App.products s2) (str_Z chat) = Dict.del mine url
  /\ Dict.get (App.products_for (App.products s2) (str_Z chat)) url = None
  /\ (forall u, u <> url ->
                Dict.get (App.products_for (App.products s2) (str_Z chat)) u
                = Dict.get mine u)
  /\ (forall c, c <> str_Z chat ->
                Dict.get (App.products s2) c = Dict.get (App.products s) c)
  /\ App.dumps s2 = App.dumps s ++ [App.products s2]
  /\ App.calls s2
     = App.calls s1
       ++ [App.answer chat;
           App.edit_message_text chat
             (utf8 "✅ Removed " ++ App.name p ++ py " from monitoring.")]
  /\ App.products s3 = App.products s2 /\ App.dumps s3 = App.dumps s2.
Proof.
  intros mine Hi Hmine s1 Hsend s2 s3.
  assert (Hs1 : s1 = App.mkApp (App.core s) (App.products s)
                       (fst (App.number_buttons 0 mine [] []))
                       (App.calls s1) (App.dumps s) (App.clock s) (App.pauses s)).
  { subst s1. rewrite remove_product_state; [reflexivity|].
    fold mine. intros H. rewrite H in Hi. destruct i; discriminate. }
  assert (Htable : Dict.get (App._remove_urls s1) ("rm_" ++ str_nat i) = Some url).
  { rewrite Hs1. fields. now apply (number_buttons_nth mine 0 [] [] i url p). }
  assert (Hp : Dict.get mine url = Some p) by (eapply dict_get_nth; eassumption).
  assert (Hmine1 : App.products_for (App.products s1) (str_Z chat) = mine)
    by (rewrite Hs1; reflexivity).
  assert (Hs2 : s2 = App.mkApp (App.core s)
                       (Dict.set (App.products s) (str_Z chat) (Dict.del mine url))
                       (App._remove_urls s1)
                       (App.calls s1
                        ++ [App.answer chat;
                            App.edit_message_text chat
                              (utf8 "✅ Removed " ++ App.name p
                               ++ py " from monitoring.")])
                       (App.dumps s
                        ++ [Dict.set (App.products s) (str_Z chat)
                              (Dict.del mine url)])
                       (App.clock s) (App.pauses s)).
  { unfold s2.
    rewrite (button_callback_found chat ("rm_" ++ str_nat i) url s1 Hsend
               (button_prefix _) Htable).
    cbv zeta. rewrite Hmine1, Hp.
    replace (App.core s1) with (App.core s) by (rewrite Hs1; reflexivity).
    replace (App.products s1) with (App.products s) by (rewrite Hs1; reflexivity).
    replace (App.dumps s1) with (App.dumps s) by (rewrite Hs1; reflexivity).
    replace (App.clock s1) with (App.clock s) by (rewrite Hs1; reflexivity).
    replace (App.pauses s1) with (App.pauses s) by (rewrite Hs1; reflexivity).
    reflexivity. }
  assert (Hgone : Dict.get (App.products_for (App.products s2) (str_Z chat)) url
                  = None).
  { rewrite Hs2. fields. rewrite products_for_set. now apply dict_get_del_eq. }
  assert (Hagain : App.products s3 = App.products s2
                   /\ App.dumps s3 = App.dumps s2).
  { pose proof (button_callback_paths chat ("rm_" ++ str_nat i) s2) as H.
    cbv zeta in H. fold s3 in H.
    destruct H as (_ & _ & _ & _ & [H|(url' & p' & _ & Htable' & Hp' & _)]);
      [exact H|].
    replace (App._remove_urls s2) with (App._remove_urls s1) in Htable'
      by (rewrite Hs2; reflexivity).
    rewrite Htable in Htable'. injection Htable' as <-.
    rewrite Hgone in Hp'. discriminate. }
  assert (Hfor : App.products_for (App.products s2) (str_Z chat)
                 = Dict.del mine url)
    by (rewrite Hs2; fields; apply products_for_set).
  split; [exact Hfor|]. split; [exact Hgone|].
  split; [intros u Hu; rewrite Hfor; now apply dict_get_del_ne|].
  split; [intros c Hc; rewrite Hs2; fields; now apply dict_get_set_ne|].
  split; [rewrite Hs2; reflexivity|].
  split; [rewrite Hs2; reflexivity | exact Hagain].
Qed.

(** X16. [button_callback] changes the products in one way only: it
    removes, from the chat that pressed, the URL that the table gives for the
    data of the button, and writes the dictionary then.  On every other path
    (an answer that fails, other data, data that the table does not have, a
    URL that the chat does not monitor) the products and the file stay as
    they are; the table of the buttons stays as it is on all of them. *)
Theorem button_callback_removes_one_or_nothing (chat : Z) (data : string)
  (s : App.app) :
  let s' := snd (App.button_callback W chat data s) in
  let mine := App.products_for (App.products s) (str_Z chat) in
  App._remove_urls s' = App._remove_urls s
  /\ (forall c, c <> str_Z chat ->
                Dict.get (App.products s') c = Dict.get (App.products s) c)
  /\ ((App.products s' = App.products s /\ App.dumps s' = App.dumps s)
      \/ exists url,
           String.prefix "rm_" data = true
           /\ Dict.get (App._remove_urls s) data = Some url
           /\ Dict.mem mine url = true
           /\ App.products_for (App.products s') (str_Z chat) = Dict.del mine url
           /\ App.dumps s' = App.dumps s ++ [App.products s']).
Proof.
  intros s' mine.
  pose proof (button_callback_paths chat data s) as H. cbv zeta in H.
  fold s' mine in H. destruct H as (_ & Htable & _ & _ & H).
  split; [exact Htable|].
  destruct H as [[Hp Hd]|(url & p & Hprefix & Hurl & Hp & Hs' & Hd)].
  - split; [now rewrite Hp | left; now split].
  - split.
    + intros c Hc. rewrite Hs'. now apply dict_get_set_ne.
    + right. exists url. repeat split; try assumption.
      * apply dict_mem_get. eauto.
      * rewrite Hs'. apply products_for_set.
Qed.

Lemma remove_product_keeps chat s :
  exists table sent,
    snd (App.remove_product W chat s)
    = App.mkApp (App.core s) (App.products s) table sent (App.dumps s)
        (App.clock s) (App.pauses s).
Proof.
  destruct (App.products_for (App.products s) (str_Z chat)) as [|item mine] eqn:H.
  - unfold App.remove_product. unfold App.and_then at 1, App.read. fields.
    unfold App.products_for in H.
    destruct (Dict.get (App.products s) (str_Z chat)) as [[|item mine]|];
      try discriminate; unfold App.telegram; fields; sending;
      do 2 eexists; reflexivity.
  - rewrite remove_product_state by (rewrite H; discriminate).
    do 2 eexists; reflexivity.
Qed.

(** X15. The table of the buttons belongs to the bot, not to a chat, and
    every list that is shown replaces it.  When a chat has been shown its
    list and another chat is shown its own afterwards, the [i]-th button of
    the first chat is resolved in the list of the second: the first chat loses
    the [i]-th URL of the second chat if it monitors that URL, and nothing
    otherwise; its other products stay. *)
Theorem buttons_follow_the_last_list (first second : Z) (s : App.app) (i : nat)
  (url : string) (p : App.product) :
  let s1 := snd (App.remove_product W first s) in
  let s2 := snd (App.remove_product W second s1) in
  nth_error (App.products_for (App.products s) (str_Z second)) i = Some (url, p) ->
  App.telegram_fails W (List.length (App.calls s2)) = false ->
  let s3 := snd (App.button_callback W first ("rm_" ++ str_nat i) s2) in
  let mine := App.products_for (App.products s) (str_Z first) in
  App.products s3
  = (if Dict.mem mine url
     then Dict.set (App.products s) (str_Z first) (Dict.del mine url)
     else App.products s)
  /\ forall u, u <> url ->
               Dict.get (App.products_for (App.products s3) (str_Z first)) u
               = Dict.get mine u.
Proof.
  intros s1 s2 Hi Hsend s3 mine.
  assert (Hp1 : App.products s1 = App.products s).
  { destruct (remove_product_keeps first s) as (t & sent & H).
    unfold s1. now rewrite H. }
  assert (Hp2 : App.products s2 = App.products s).
  { destruct (remove_product_keeps second s1) as (t & sent & H).
    unfold s2. now rewrite H. }
  assert (Htable : Dict.get (App._remove_urls s2) ("rm_" ++ str_nat i) = Some url).
  { unfold s2. rewrite remove_product_state; rewrite Hp1.
    - fields. now apply (number_buttons_nth _ 0 [] [] i url p).
    - intros H. rewrite H in Hi. destruct i; discriminate. }
  assert (Hs3 : App.products s3
                = if Dict.mem mine url
                  then Dict.set (App.products s) (str_Z first) (Dict.del mine url)
                  else App.products s).
  { unfold s3.
    rewrite (button_callback_found first ("rm_" ++ str_nat i) url s2 Hsend
               (button_prefix _) Htable).
    cbv zeta. rewrite Hp2. fold mine. unfold Dict.mem.
    destruct (Dict.get mine url); reflexivity. }
  split; [exact Hs3|].
  intros u Hu. rewrite Hs3. destruct (Dict.mem mine url); [|reflexivity].
  rewrite products_for_set. now apply dict_get_del_ne.
Qed.

(** X21. What [remove_product] shows and remembers: for a chat with
    products, the message carries one button for each product, in the order
    of the dictionary, labelled with the name and the formatted price, the
    [i]-th with the data [rm_i]; and the table then holds exactly these data,
    each with the URL of its product.  Whatever an older list had put in the
    table is gone: a button that is not of this list, pressed by any chat,
    removes nothing. *)
Theorem removal_keyboard (chat : Z) (s : App.app) :
  let mine := App.products_for (App.products s) (str_Z chat) in
  mine <> [] ->
  let s1 := snd (App.remove_product W chat s) in
  App.calls s1
  = App.calls s
    ++ [App.reply_keyboard chat (py "Select a product to remove:")
          (App.keyboard_of 0 mine)]
  /\ (forall k url,
        Dict.get (App._remove_urls s1) k = Some url
        <-> exists j data, k = ("rm_" ++ str_nat j)%string
                           /\ nth_error mine j = Some (url, data))
  /\ (forall presser k,
        (forall j, j < List.length mine -> k <> ("rm_" ++ str_nat j)%string) ->
        let s2 := snd (App.button_callback W presser k s1) in
        App.products s2 = App.products s /\ App.dumps s2 = App.dumps s).
Proof.
  intros mine Hmine s1.
  assert (Hs1 : s1 = App.mkApp (App.core s) (App.products s)
                       (fst (App.number_buttons 0 mine [] []))
                       (App.calls s
                        ++ [App.reply_keyboard chat
                              (py "Select a product to remove:")
                              (App.keyboard_of 0 mine)])
                       (App.dumps s) (App.clock s) (App.pauses s)).
  { unfold s1. rewrite remove_product_state by exact Hmine.
    fold mine. now rewrite number_buttons_keyboard. }
  assert (Htable : forall k url,
             Dict.get (App._remove_urls s1) k = Some url
             <-> exists j data, k = ("rm_" ++ str_nat j)%string
                                /\ nth_error mine j = Some (url, data)).
  { intros k url. rewrite Hs1. fields. split.
    - intros H. apply number_buttons_get in H as [H|H]; [discriminate|exact H].
    - intros (j & data & -> & Hj).
      now apply (number_buttons_nth mine 0 [] [] j url data). }
  split; [rewrite Hs1; reflexivity|]. split; [exact Htable|].
  intros presser k Hk s2.
  pose proof (button_callback_paths presser k s1) as H. cbv zeta in H.
  fold s2 in H.
  destruct H as (_ & _ & _ & _ & [[Hp Hd]|(url & p & _ & Hurl & _)]).
  - rewrite Hp, Hd, Hs1. split; reflexivity.
  - apply Htable in Hurl as (j & data & -> & Hj).
    destruct (Hk j); [|reflexivity].
    apply nth_error_Some. now rewrite Hj.
Qed.

End Removal.

(** ** The monitoring loop *)

Section Monitoring.

Variable W : App.world.

Lemma sleep_for_run {A} p (k : unit -> App.Act A) s :
  App.and_then (App.sleep_for p) k s
  = k tt (App.mkApp (App.core s) (App.products s) (App._remove_urls s)
            (App.calls s) (App.dumps s) (App.clock s) (App.pauses s ++ [p])).
Proof. reflexivity. Qed.

Lemma update_product_run {A} chat_id url change (k : unit -> App.Act A) s mine p :
  Dict.get (App.products s) chat_id = Some mine ->
  Dict.get mine url = Some p ->
  App.and_then (App.update_product chat_id url change) k s
  = k tt (App.mkApp (App.core s)
            (Dict.set (App.products s) chat_id (Dict.set mine url (change p)))
            (App._remove_urls s) (App.calls s) (App.dumps s) (App.clock s)
            (App.pauses s)).
Proof.
  intros Hmine Hp.
  transitivity (App.and_then (App.store_product chat_id url (change p)) k s);
    [|now apply store_product_run].
  unfold App.update_product, App.and_then, App.products_of.
  now rewrite Hmine, Hp.
Qed.

(** The alert of lines 414-418: sent if the chat id is a number, and a
    failure is logged and nothing else. *)
Lemma alert_run {A} chat_id message (k : unit -> App.Act A) s :
  App.and_then
    (App.attempt
       (match App.py_int W chat_id with
        | Some id => App.telegram W (App.send_message id message)
        | None =>
            App.fail (App.FromPipeline (ValueError "invalid literal for int()"))
        end)
       (fun _ => App.done tt)) k s
  = k tt (App.mkApp (App.core s) (App.products s) (App._remove_urls s)
            (App.calls s
             ++ match App.py_int W chat_id with
                | Some id => [App.send_message id message]
                | None => []
                end)
            (App.dumps s) (App.clock s) (App.pauses s)).
Proof.
  destruct (App.py_int W chat_id) as [id|]; run_act.
  - now sending.
  - rewrite app_nil_r. now destruct s.
Qed.

Lemma check_product_quiet chat_id url data s found b :
  get_price (App.pipeline W) url (App.core s) = (Returns found, b) ->
  match found with
  | None => True
  | Some (price, _) => SFeqb price (App.last_price data) = true
  end ->
  App.check_product W chat_id url data s
  = (App.Ok tt,
     App.mkApp b (App.products s) (App._remove_urls s) (App.calls s)
       (App.dumps s) (App.clock s)
       (App.pauses s
        ++ match found with
           | None => []
           | Some _ =>
               [App.BetweenChecks (MIN_DELAY (App.pipeline W))
                  (MAX_DELAY (App.pipeline W))]
           end)).
Proof.
  intros Hget Hsame. unfold App.check_product.
  erewrite run_core_returns by exact Hget.
  destruct found as [[price nm]|].
  - rewrite Hsame. cbn [negb]. unfold App.and_then, App.done, App.sleep_for.
    fields. reflexivity.
  - unfold App.done. now rewrite app_nil_r.
Qed.

Lemma float_div_run {A} x y (k : PyFloat.float -> App.Act A) s :
  (forall sg, y <> S754_zero sg) ->
  App.and_then (App.float_div x y) k s = k (PyFloat.div x y) s.
Proof.
  intros Hy. unfold App.float_div.
  destruct y as [sg| | |]; [now destruct (Hy sg)|reflexivity..].
Qed.

(** X17. A changed price is recorded: when the price fetched for a stored
    product differs from its stored price, and that one is not zero, the
    store gets the new price and the time of the check, with the name and the
    date of addition as they were; no other product and no other chat is
    touched; the dictionary is written once, with the new price in it; one
    alert is handed to Telegram if the chat id is a number, and the record is
    made whether or not it could be sent; the pause between checks
    follows. *)
Theorem price_change_is_recorded (chat_id url : string) (data : App.product)
  (s : App.app) (mine : list (string * App.product)) (price : PyFloat.float)
  (nm : text) (b : bot) :
  Dict.get (App.products s) chat_id = Some mine ->
  Dict.get mine url = Some data ->
  get_price (App.pipeline W) url (App.core s) = (Returns (Some (price, nm)), b) ->
  SFeqb price (App.last_price data) = false ->
  (forall sg, App.last_price data <> S754_zero sg) ->
  let r := App.check_product W chat_id url data s in
  let change := SFsub PyFloat.prec PyFloat.emax price (App.last_price data) in
  let percent :=
    SFmul PyFloat.prec PyFloat.emax (PyFloat.div change (App.last_price data))
      hundred in
  fst r = App.Ok tt
  /\ App.core (snd r) = b
  /\ Dict.get (App.products_for (App.products (snd r)) chat_id) url
     = Some (App.mkProduct (App.name data) price
               (App.isoformat_now W (App.clock s)) (App.added_date data))
  /\ (forall u, u <> url ->
                Dict.get (App.products_for (App.products (snd r)) chat_id) u
                = Dict.get mine u)
  /\ (forall c, c <> chat_id ->
                Dict.get (App.products (snd r)) c = Dict.get (App.products s) c)
  /\ App.dumps (snd r) = App.dumps s ++ [App.products (snd r)]
  /\ App.calls (snd r)
     = App.calls s
       ++ match App.py_int W chat_id with
          | Some id =>
              [App.send_message id (App.alert data url price change percent)]
          | None => []
          end
  /\ App.pauses (snd r)
     = App.pauses s
       ++ [App.BetweenChecks (MIN_DELAY (App.pipeline W))
             (MAX_DELAY (App.pipeline W))].
Proof.
  intros Hmine Hdata Hget Hne Hzero r change percent.
  set (p1 := App.mkProduct (App.name data) price (App.last_check data)
               (App.added_date data)).
  set (p2 := App.mkProduct (App.name data) price
               (App.isoformat_now W (App.clock s)) (App.added_date data)).
  set (all2 := Dict.set (Dict.set (App.products s) chat_id (Dict.set mine url p1))
                 chat_id (Dict.set (Dict.set mine url p1) url p2)).
  assert (Hr : r = (App.Ok tt,
                    App.mkApp b all2 (App._remove_urls s)
                      (App.calls s
                       ++ match App.py_int W chat_id with
                          | Some id =>
                              [App.send_message id
                                 (App.alert data url price change percent)]
                          | None => []
                          end)
                      (App.dumps s ++ [all2]) (S (App.clock s))
                      (App.pauses s
                       ++ [App.BetweenChecks (MIN_DELAY (App.pipeline W))
                             (MAX_DELAY (App.pipeline W))]))).
  { unfold r, App.check_product.
    erewrite run_core_returns by exact Hget. cbv beta iota.
    rewrite Hne. cbn [negb]. unfold App.and_then at 1.
    rewrite float_div_run by exact Hzero. rewrite alert_run. fields.
    erewrite update_product_run by (fields; eassumption). fields.
    rewrite now_run. fields.
    erewrite update_product_run
      by (fields; apply dict_get_set_eq). fields.
    reflexivity. }
  rewrite Hr. fields. unfold all2. rewrite products_for_set.
  repeat split.
  - apply dict_get_set_eq.
  - intros u Hu. now rewrite !dict_get_set_ne.
  - intros c Hc. now rewrite !dict_get_set_ne.
Qed.

Lemma and_then_fails {A B} (m : App.Act A) (k : A -> App.Act B) s e s' :
  m s = (App.Error e, s') -> App.and_then m k s = (App.Error e, s').
Proof. intros H. unfold App.and_then. now rewrite H. Qed.

Lemma products_of_run {A} chat_id (k : list (string * App.product) -> App.Act A)
  s mine :
  Dict.get (App.products s) chat_id = Some mine ->
  App.and_then (App.products_of chat_id) k s = k mine s.
Proof. intros H. unfold App.and_then, App.products_of. now rewrite H. Qed.

(** X18. A stored price of zero stops the monitoring: when the price
    fetched for such a product is not zero, the percentage of line 403
    divides by zero; nothing is sent, recorded or written for the product, and
    the pause between checks is not taken.  When the product is the first of
    the store, the turn of the loop ends there: no other product is checked,
    and the loop sleeps its sixty seconds with the store as it was, so the
    next turn meets the same product again. *)
Theorem zero_price_stops_the_cycle (chat_id url : string) (data : App.product)
  (items : list (string * App.product)) (chats : App.store) (s : App.app)
  (sg : bool) (price : PyFloat.float) (nm : text) (b : bot) :
  App.last_price data = S754_zero sg ->
  get_price (App.pipeline W) url (App.core s) = (Returns (Some (price, nm)), b) ->
  SFeqb price (S754_zero sg) = false ->
  let st := App.mkApp b (App.products s) (App._remove_urls s) (App.calls s)
              (App.dumps s) (App.clock s) (App.pauses s) in
  App.check_product W chat_id url data s = (App.Error App.ZeroDivisionError, st)
  /\ (App.products s = (chat_id, (url, data) :: items) :: chats ->
      App.check_cycle W s
      = (App.Ok tt,
         App.mkApp b (App.products s) (App._remove_urls s) (App.calls s)
           (App.dumps s) (App.clock s) (App.pauses s ++ [App.AfterError 60]))).
Proof.
  intros Hzero Hget Hne st.
  assert (Hcheck : App.check_product W chat_id url data s
                   = (App.Error App.ZeroDivisionError, st)).
  { unfold App.check_product.
    erewrite run_core_returns by exact Hget. cbv beta iota.
    rewrite Hzero, Hne. reflexivity. }
  split; [exact Hcheck|]. intros Hstore.
  unfold App.check_cycle, App.attempt.
  assert (Hbody : forall B (k : unit -> App.Act B),
             App.and_then (App.read App.products)
               (fun all =>
                  App.and_then
                    (App.for_each (Dict.keys all)
                       (fun chat_id =>
                          App.and_then (App.products_of chat_id)
                            (fun mine =>
                               App.for_each mine
                                 (fun item =>
                                    App.check_product W chat_id (fst item)
                                      (snd item)))))
                    k) s
             = (App.Error App.ZeroDivisionError, st)).
  { intros B k. unfold App.and_then at 1, App.read. fields.
    apply and_then_fails. rewrite Hstore.
    cbn [Dict.keys List.map fst App.for_each]. apply and_then_fails.
    erewrite products_of_run
      by (rewrite Hstore; cbn [Dict.get]; now rewrite String.eqb_refl).
    cbn [App.for_each fst snd]. now apply and_then_fails. }
  rewrite Hbody. reflexivity.
Qed.

(** *** What the loop keeps *)

Lemma keeps_and_then {A B} (m : App.Act A) (k : A -> App.Act B) :
  App.keeps_shape m -> (forall a, App.keeps_shape (k a)) ->
  App.keeps_shape (App.and_then m k).
Proof.
  intros Hm Hk s. unfold App.and_then. specialize (Hm s).
  destruct (m s) as [[a|e] s1]; cbn [snd] in *; [now rewrite Hk | exact Hm].
Qed.

Lemma keeps_attempt {A} (m : App.Act A) (h : App.error -> App.Act A) :
  App.keeps_shape m -> (forall e, App.keeps_shape (h e)) ->
  App.keeps_shape (App.attempt m h).
Proof.
  intros Hm Hh s. unfold App.attempt. specialize (Hm s).
  destruct (m s) as [[a|e] s1]; cbn [snd] in *; [exact Hm | now rewrite Hh].
Qed.

Lemma keeps_same_products {A} (m : App.Act A) :
  (forall s, App.products (snd (m s)) = App.products s) -> App.keeps_shape m.
Proof. intros H s. now rewrite H. Qed.

Lemma keeps_telegram c : App.keeps_shape (App.telegram W c).
Proof.
  apply keeps_same_products. intros s. unfold App.telegram. now sending.
Qed.

Lemma keeps_run_core {A} (m : M A) : App.keeps_shape (App.run_core m).
Proof.
  apply keeps_same_products. intros s. unfold App.run_core.
  now destruct (m (App.core s)) as [[a|e|] b].
Qed.

Lemma keeps_products_of chat_id : App.keeps_shape (App.products_of chat_id).
Proof.
  apply keeps_same_products. intros s. unfold App.products_of.
  now destruct (Dict.get (App.products s) chat_id).
Qed.

Lemma keeps_float_div x y : App.keeps_shape (App.float_div x y).
Proof. apply keeps_same_products. intros s. now destruct y. Qed.

Lemma keeps_update_product chat_id url change :
  (forall p, App.name (change p) = App.name p
             /\ App.added_date (change p) = App.added_date p) ->
  App.keeps_shape (App.update_product chat_id url change).
Proof.
  intros Hchange s. unfold App.update_product, App.and_then at 1, App.products_of.
  destruct (Dict.get (App.products s) chat_id) as [mine|] eqn:Hmine;
    [|reflexivity].
  destruct (Dict.get mine url) as [p|] eqn:Hp; [|reflexivity].
  unfold App.store_product. run_act. rewrite Hmine. fields.
  unfold App.shape.
  apply (dict_set_map
           (List.map (fun item : string * App.product =>
                        (fst item, (App.name (snd item), App.added_date (snd item)))))
           _ _ mine _ Hmine).
  apply (dict_set_map (fun q => (App.name q, App.added_date q)) _ _ p _ Hp).
  destruct (Hchange p) as [-> ->]. reflexivity.
Qed.

Lemma keeps_for_each {A} (l : list A) (body : A -> App.Act unit) :
  (forall x, App.keeps_shape (body x)) -> App.keeps_shape (App.for_each l body).
Proof.
  intros Hbody. induction l as [|x l IH]; cbn [App.for_each].
  - now apply keeps_same_products.
  - apply keeps_and_then; [apply Hbody | intros _; exact IH].
Qed.

Lemma keeps_check_product chat_id url data :
  App.keeps_shape (App.check_product W chat_id url data).
Proof.
  unfold App.check_product.
  apply keeps_and_then; [apply keeps_run_core|]. intros [[price nm]|];
    [|now apply keeps_same_products].
  apply keeps_and_then; [|intros _; now apply keeps_same_products].
  destruct (negb (SFeqb price (App.last_price data)));
    [|now apply keeps_same_products].
  apply keeps_and_then; [apply keeps_float_div|]. intros ratio.
  apply keeps_and_then.
  { apply keeps_attempt; [|intros _; now apply keeps_same_products].
    destruct (App.py_int W chat_id);
      [apply keeps_telegram | now apply keeps_same_products]. }
  intros _. apply keeps_and_then; [now apply keeps_update_product|]. intros _.
  apply keeps_and_then; [now apply keeps_same_products|]. intros checked.
  apply keeps_and_then; [now apply keeps_update_product|]. intros _.
  now apply keeps_same_products.
Qed.

(** X19. The monitoring loop only ever changes prices and times of
    checks: after a turn, whatever the shop and Telegram did and however the
    turn ended, the store has the same chats in the same order, each with the
    same URLs in the same order, and every product has the name and the date
    of addition it had. *)
Theorem monitoring_keeps_the_list (s : App.app) :
  App.shape (App.products (snd (App.check_cycle W s)))
  = App.shape (App.products s).
Proof.
  revert s. change (App.keeps_shape (App.check_cycle W)).
  unfold App.check_cycle.
  apply keeps_attempt; [|intros _; now apply keeps_same_products].
  apply keeps_and_then; [now apply keeps_same_products|]. intros all.
  apply keeps_and_then; [|intros _; now apply keeps_same_products].
  apply keeps_for_each. intros chat_id.
  apply keeps_and_then; [apply keeps_products_of|]. intros mine.
  apply keeps_for_each. intros item. apply keeps_check_product.
Qed.

(** *** A turn without news *)

Lemma for_each_ok {A} (Q : App.app -> Prop) (l : list A) (body : A -> App.Act unit) :
  (forall x s, In x l -> Q s ->
               fst (body x s) = App.Ok tt /\ Q (snd (body x s))) ->
  forall s, Q s ->
            fst (App.for_each l body s) = App.Ok tt
            /\ Q (snd (App.for_each l body s)).
Proof.
  induction l as [|x l IH]; intros Hbody s Hs; cbn [App.for_each].
  - now split.
  - unfold App.and_then.
    destruct (Hbody x s (or_introl eq_refl) Hs) as [Hok Hq].
    destruct (body x s) as [r s1]. cbn [fst snd] in Hok, Hq. subst r.
    apply IH; [|exact Hq]. intros y s2 Hy. apply Hbody. now right.
Qed.

Lemma only_checked_refl s : App.only_checked W s s.
Proof.
  repeat split. exists 0. cbn [List.repeat]. now rewrite app_nil_r.
Qed.

Lemma check_product_no_news s0 chat_id mine url data s :
  App.no_news W (App.products s0) ->
  In (chat_id, mine) (App.products s0) -> In (url, data) mine ->
  App.only_checked W s0 s ->
  fst (App.check_product W chat_id url data s) = App.Ok tt
  /\ App.only_checked W s0 (snd (App.check_product W chat_id url data s)).
Proof.
  intros Hnews Hchat Hitem (Hp & Ht & Hc & Hd & Hk & n & Hn).
  specialize (Hnews chat_id mine url data (App.core s) Hchat Hitem).
  destruct (get_price (App.pipeline W) url (App.core s)) as [r b] eqn:Hget.
  cbn [fst] in Hnews. destruct r as [found|e|]; try contradiction.
  rewrite (check_product_quiet chat_id url data s found b Hget).
  2: { destruct found as [[price nm]|]; [exact Hnews | exact I]. }
  cbn [fst snd]. split; [reflexivity|].
  unfold App.only_checked. fields. repeat split; try assumption.
  destruct found as [[price nm]|].
  - exists (S n). rewrite Hn, <- app_assoc. f_equal.
    cbn [List.repeat]. symmetry. apply List.repeat_cons.
  - exists n. now rewrite app_nil_r.
Qed.

(** X20. A turn without news is silent: when every product of the store
    either cannot be fetched or still has its stored price, a turn of the loop
    ends normally, sends nothing to Telegram, writes nothing, leaves the store
    as it is, and has slept nothing but pauses between checks followed by the
    one pause between turns, whose bounds are the check interval plus 60 and
    plus 180 seconds. *)
Theorem turn_without_news_is_silent (s : App.app) :
  App.no_news W (App.products s) ->
  let r := App.check_cycle W s in
  fst r = App.Ok tt
  /\ App.products (snd r) = App.products s
  /\ App.calls (snd r) = App.calls s
  /\ App.dumps (snd r) = App.dumps s
  /\ exists n,
       App.pauses (snd r)
       = App.pauses s
         ++ List.repeat
              (App.BetweenChecks (MIN_DELAY (App.pipeline W))
                 (MAX_DELAY (App.pipeline W))) n
         ++ [App.BetweenCycles (App.CHECK_INTERVAL W + 60)
               (App.CHECK_INTERVAL W + 180)].
Proof.
  intros Hnews r.
  pose proof (for_each_ok (App.only_checked W s) (Dict.keys (App.products s))
                (fun chat_id =>
                   App.and_then (App.products_of chat_id)
                     (fun mine =>
                        App.for_each mine
                          (fun item =>
                             App.check_product W chat_id (fst item) (snd item)))))
    as Hloop.
  destruct (Hloop) with (s := s) as [Hok Hq]; [|apply only_checked_refl|].
  { intros chat_id s1 Hchat Hs1.
    destruct (dict_keys_get _ _ Hchat) as [mine Hmine].
    assert (Hmine1 : Dict.get (App.products s1) chat_id = Some mine)
      by (destruct Hs1 as [-> _]; exact Hmine).
    rewrite (products_of_run _ _ _ _ Hmine1).
    apply for_each_ok; [|exact Hs1].
    intros [url data] s2 Hitem Hs2. cbn [fst snd].
    apply (check_product_no_news s chat_id mine); try assumption.
    now apply dict_get_in. }
  clear Hloop.
  assert (Hr : r = (App.Ok tt,
                    snd (App.sleep_for
                           (App.BetweenCycles (App.CHECK_INTERVAL W + 60)
                              (App.CHECK_INTERVAL W + 180))
                           (snd (App.for_each (Dict.keys (App.products s))
                                   (fun chat_id =>
                                      App.and_then (App.products_of chat_id)
                                        (fun mine =>
                                           App.for_each mine
                                             (fun item =>
                                                App.check_product W chat_id
                                                  (fst item) (snd item))))
                                   s))))).
  { unfold r, App.check_cycle, App.attempt.
    unfold App.and_then at 1, App.read. fields. unfold App.and_then at 1.
    destruct (App.for_each _ _ s) as [r1 s1]. cbn [fst snd] in *. subst r1.
    reflexivity. }
  rewrite Hr. unfold App.sleep_for. fields.
  destruct Hq as (Hp & _ & Hc & Hd & _ & n & Hn).
  repeat split; try assumption.
  exists n. now rewrite Hn, <- app_assoc.
Qed.

End Monitoring.

Lemma removal_round_trip_witness :
  let s := App.start App.sample_products in
  let s1 := snd (App.remove_product App.open_shop 42 s) in
  let s2 := snd (App.button_callback App.open_shop 42 "rm_1" s1) in
  App.products_for (App.products s2) "42" = [(Sample.url, App.sneakers)]
  /\ App.dumps s2 = [App.products s2].
Proof.
  intros s s1 s2.
  assert (Hkeys : List.NoDup
                    (Dict.keys (App.products_for (App.products s) (str_Z 42)))).
  { constructor; [intros [H|[]]; discriminate|].
    constructor; [intros []|constructor]. }
  destruct (removal_round_trip App.open_shop 42 s 1 App.jacket_url App.jacket
              eq_refl Hkeys eq_refl) as (Hmine & _ & _ & _ & Hdumps & _).
  split; [exact Hmine | exact Hdumps].
Defined.

Lemma buttons_follow_the_last_list_witness :
  let s := App.start App.sample_products in
  let s1 := snd (App.remove_product App.open_shop 42 s) in
  let s2 := snd (App.remove_product App.open_shop 7 s1) in
  let s3 := snd (App.button_callback App.open_shop 42 "rm_0" s2) in
  nth_error (App.products_for (App.products s) "42") 0
  = Some (Sample.url, App.sneakers)
  /\ App.products s3
     = [("42", [(Sample.url, App.sneakers)]); ("7", [(App.jacket_url, App.jacket)])]%string.
Proof.
  intros s s1 s2 s3. split; [reflexivity|].
  destruct (buttons_follow_the_last_list App.open_shop 42 7 s 0 App.jacket_url
              App.jacket eq_refl eq_refl) as (H & _).
  exact H.
Defined.

Lemma add_product_refuses_witness :
  let s := snd (App.add_product App.open_shop 42 [Sample.url] (App.start [])) in
  (exists mine, Dict.get (App.products s) (str_Z 42) = Some mine
                /\ Dict.mem mine Sample.url = true)
  /\ App.products (snd (App.add_product App.open_shop 42 [Sample.url] s))
     = App.products s.
Proof.
  intros s.
  assert (H : exists mine, Dict.get (App.products s) (str_Z 42) = Some mine
                           /\ Dict.mem mine Sample.url = true).
  { eexists. split; vm_compute; reflexivity. }
  split; [exact H|].
  exact (proj1 (proj2 (add_product_refuses App.open_shop 42 [Sample.url] s
                         (or_intror H)))).
Defined.

Lemma add_product_stores_witness :
  let s' := snd (App.add_product App.open_shop 42 [Sample.url] (App.start [])) in
  Dict.get (App.products_for (App.products s') "42") Sample.url
  = Some (App.mkProduct (py "Leren sneakers laag wit") (PyFloat.of_decimal 3899 2)
            "0" "1")
  /\ App.dumps s' = [App.products s'].
Proof.
  intros s'.
  destruct (get_price (App.pipeline App.open_shop) Sample.url
              (App.core (App.start []))) as [r b] eqn:Hrun.
  assert (Hr : r = Returns (Some (PyFloat.of_decimal 3899 2,
                                  py "Leren sneakers laag wit"))).
  { apply (f_equal fst) in Hrun. cbn [fst] in Hrun. rewrite <- Hrun.
    vm_compute. reflexivity. }
  subst r.
  pose proof (add_product_stores App.open_shop 42 Sample.url [] (App.start [])
                _ _ b eq_refl eq_refl eq_refl Hrun ltac:(discriminate)) as H.
  cbv zeta in H. destruct H as (_ & _ & Hp & _ & Hd).
  split; [exact Hp | exact Hd].
Defined.

Lemma add_product_failed_fetch_witness :
  let s' := snd (App.add_product App.guarded_shop 42 [Sample.url] (App.start [])) in
  App.products s' = [("42"%string, [])] /\ App.dumps s' = [].
Proof.
  intros s'.
  assert (Hfetch : forall price name,
             fst (get_price (App.pipeline App.guarded_shop) Sample.url
                    (App.core (App.start [])))
             = Returns (Some (price, name)) -> name = []).
  { intros price name H. vm_compute in H. discriminate. }
  pose proof (add_product_failed_fetch App.guarded_shop 42 Sample.url []
                (App.start []) eq_refl eq_refl Hfetch) as H.
  cbv zeta in H. destruct H as (_ & _ & Hd & _).
  split; [vm_compute; reflexivity | exact Hd].
Defined.

Lemma add_product_keeps_products_witness :
  let s := snd (App.add_product App.open_shop 42 [Sample.url] (App.start [])) in
  let p := App.mkProduct (py "Leren sneakers laag wit") (PyFloat.of_decimal 3899 2)
             "0" "1" in
  Dict.get
    (App.products_for
       (App.products
          (snd (App.add_product App.open_shop 42
                  ["https://www.zalando.nl/other.html"%string] s))) "42")
    Sample.url
  = Some p.
Proof.
  intros s p.
  apply (add_product_keeps_products App.open_shop 42
           ["https://www.zalando.nl/other.html"%string] s "42" Sample.url p).
  vm_compute. reflexivity.
Defined.

Lemma price_change_is_recorded_witness :
  let s := App.start App.sample_products in
  let r := App.check_product App.open_shop "7" App.jacket_url App.jacket s in
  Dict.get (App.products_for (App.products (snd r)) "7") App.jacket_url
  = Some (App.mkProduct (py "Winterjas") (PyFloat.of_decimal 3899 2) "0"
            "2024-03-02T09:30:00")
  /\ App.dumps (snd r) = [App.products (snd r)].
Proof.
  intros s r.
  destruct (get_price (App.pipeline App.open_shop) App.jacket_url (App.core s))
    as [found b] eqn:Hrun.
  assert (Hfound : found = Returns (Some (PyFloat.of_decimal 3899 2,
                                          py "Leren sneakers laag wit"))).
  { apply (f_equal fst) in Hrun. cbn [fst] in Hrun. rewrite <- Hrun.
    vm_compute. reflexivity. }
  subst found.
  assert (Hne : SFeqb (PyFloat.of_decimal 3899 2) (App.last_price App.jacket)
                = false) by (vm_compute; reflexivity).
  assert (Hzero : forall sg, App.last_price App.jacket <> S754_zero sg)
    by (intros sg H; vm_compute in H; discriminate).
  destruct (price_change_is_recorded App.open_shop "7" App.jacket_url App.jacket
              s _ _ _ b eq_refl eq_refl Hrun Hne Hzero)
    as (_ & _ & Hp & _ & _ & Hd & _).
  split; [exact Hp | exact Hd].
Defined.

Lemma zero_price_stops_the_cycle_witness :
  let s := App.start App.free_products in
  let r := App.check_cycle App.open_shop s in
  App.products (snd r) = App.free_products
  /\ App.pauses (snd r) = [App.AfterError 60].
Proof.
  intros s r.
  destruct (get_price (App.pipeline App.open_shop) Sample.url (App.core s))
    as [found b] eqn:Hrun.
  assert (Hfound : found = Returns (Some (PyFloat.of_decimal 3899 2,
                                          py "Leren sneakers laag wit"))).
  { apply (f_equal fst) in Hrun. cbn [fst] in Hrun. rewrite <- Hrun.
    vm_compute. reflexivity. }
  subst found.
  assert (Hne : SFeqb (PyFloat.of_decimal 3899 2) (S754_zero false) = false)
    by (vm_compute; reflexivity).
  destruct (zero_price_stops_the_cycle App.open_shop "42" Sample.url
              App.free_sample [] [] s false _ _ b eq_refl Hrun Hne)
    as (_ & Hcycle).
  unfold r. rewrite (Hcycle eq_refl). split; reflexivity.
Defined.

Lemma turn_without_news_is_silent_witness :
  let s := App.start App.steady_products in
  let r := App.check_cycle App.open_shop s in
  fst r = App.Ok tt /\ App.calls (snd r) = [] /\ App.dumps (snd r) = []
  /\ App.products (snd r) = App.steady_products.
Proof.
  intros s r.
  assert (Hnews : App.no_news App.open_shop (App.products s)).
  { intros chat_id mine url data b [H|[]] Hitem. injection H as <- <-.
    destruct Hitem as [H|[]]. injection H as <- <-.
    vm_compute. reflexivity. }
  destruct (turn_without_news_is_silent App.open_shop s Hnews)
    as (Hok & Hp & Hc & Hd & _).
  repeat split; assumption.
Defined.

Lemma removal_keyboard_witness :
  let s := App.start App.sample_products in
  let s1 := snd (App.remove_product App.open_shop 42 s) in
  App.calls s1
  = [App.reply_keyboard 42 (py "Select a product to remove:")
       [(py "Leren sneakers laag wit (" ++ euro :: py "38.99)", "rm_0"%string);
        (py "Winterjas (" ++ euro :: py "129.95)", "rm_1"%string)]]
  /\ Dict.get (App._remove_urls s1) "rm_1" = Some App.jacket_url.
Proof.
  intros s s1.
  assert (Hmine : App.products_for (App.products s) (str_Z 42) <> [])
    by (vm_compute; discriminate).
  destruct (removal_keyboard App.open_shop 42 s Hmine) as (Hc & Ht & _).
  split.
  - etransitivity; [exact Hc|]. vm_compute. reflexivity.
  - apply Ht. exists 1, App.jacket. split; reflexivity.
Defined.
